(** * Expense manager: budget evaluation and report aggregation

    A shallow embedding of the aggregation and budget-evaluation core of the
    expense manager (models/expense.py, models/budget.py,
    models/statistical_summary.py, managers/budget_manager.py and
    reports/report_generator.py), followed by the properties proved about it.

    Conventions of the embedding.
    - Python [float] amounts are exact rationals ([Q]); comparisons are the
      rational ones and results are stated up to [Qeq] where arithmetic is
      rearranged.  Rounding is outside the model, except in [Binary64],
      which repeats [Budget.calculate_rollover] over binary64 numbers.
    - A raised exception is a value of the [result] type.
    - [datetime.now()] and [uuid.uuid4()] are explicit arguments.
    - A Python [dict] is an association list in insertion order.
    - A Python [str] is a sequence of characters with code points below 256.
    - [while] loops take a fuel argument; running out of fuel is [None]. *)

From Stdlib Require Import ZArith QArith Qminmax List String Ascii Bool Lia Lqa.
From Stdlib Require Import Sorting.Sorted Sorting.Permutation.
From Stdlib Require PrimFloat.
Import ListNotations.

Local Open Scope Z_scope.

(** ** Python runtime: exceptions, dynamic values, dictionaries *)

Module Py.

Inductive exn : Type :=
| TypeError (msg : string)
| AttributeError (attr : string)
| ValueError (msg : string).

Inductive result (A : Type) : Type :=
| Ok (a : A)
| Raise (e : exn).

Arguments Ok {A} a.
Arguments Raise {A} e.

Definition bind {A B : Type} (c : result A) (k : A -> result B) : result B :=
  match c with
  | Ok a => k a
  | Raise e => Raise e
  end.

(** Insertion-ordered dictionary. *)
Section Dict.
Context {K V : Type} (eqb : K -> K -> bool).

Fixpoint get (k : K) (d : list (K * V)) : option V :=
  match d with
  | [] => None
  | (k', v) :: d' => if eqb k k' then Some v else get k d'
  end.

(** [d[k] = f(d[k])] on a [defaultdict] whose factory yields [dflt]:
    an existing key keeps its position, a new key goes last. *)
Fixpoint upd (k : K) (f : V -> V) (dflt : V) (d : list (K * V)) : list (K * V) :=
  match d with
  | [] => [(k, f dflt)]
  | (k', v) :: d' =>
      if eqb k k' then (k', f v) :: d' else (k', v) :: upd k f dflt d'
  end.

Definition get_default (k : K) (dflt : V) (d : list (K * V)) : V :=
  match get k d with
  | Some v => v
  | None => dflt
  end.
(** [del d[k]]. *)
Definition del (k : K) (d : list (K * V)) : list (K * V) :=
  filter (fun kv => negb (eqb k (fst kv))) d.

End Dict.

End Py.

Import Py.

Notation "x <- c ;; k" := (Py.bind c (fun x => k))
  (at level 61, c at next level, right associativity).

(** ** Calendar: [datetime.date], [datetime.datetime], [timedelta],
    [relativedelta]

    The proleptic Gregorian calendar of Python's [datetime].  The bounds
    MINYEAR..MAXYEAR are not modelled. *)

Module Calendar.

Definition is_leap (y : Z) : bool :=
  (y mod 4 =? 0) && (negb (y mod 100 =? 0) || (y mod 400 =? 0)).

Definition days_in_month (y m : Z) : Z :=
  if m =? 2 then (if is_leap y then 29 else 28)
  else if (m =? 4) || (m =? 6) || (m =? 9) || (m =? 11) then 30
  else 31.

Record date : Type := mkdate { year : Z; month : Z; day : Z }.

Record time : Type :=
  mktime { hour : Z; minute : Z; second : Z; microsecond : Z }.

Record datetime : Type := mkdt { dt_date : date; dt_time : time }.

Definition valid_date (d : date) : Prop :=
  1 <= month d <= 12 /\ 1 <= day d <= days_in_month (year d) (month d).

Definition valid_dateb (d : date) : bool :=
  (1 <=? month d) && (month d <=? 12) && (1 <=? day d)
  && (day d <=? days_in_month (year d) (month d)).

Definition valid_time (t : time) : Prop :=
  0 <= hour t < 24 /\ 0 <= minute t < 60 /\ 0 <= second t < 60
  /\ 0 <= microsecond t < 1000000.

Definition valid_timeb (t : time) : bool :=
  (0 <=? hour t) && (hour t <? 24) && (0 <=? minute t) && (minute t <? 60)
  && (0 <=? second t) && (second t <? 60)
  && (0 <=? microsecond t) && (microsecond t <? 1000000).

Definition valid_datetime (dt : datetime) : Prop :=
  valid_date (dt_date dt) /\ valid_time (dt_time dt).

Definition midnight : time := mktime 0 0 0 0.

(** Comparisons ([<], [<=], [==] on [date] and [datetime]). *)

Definition date_eqb (a b : date) : bool :=
  (year a =? year b) && (month a =? month b) && (day a =? day b).

Definition date_ltb (a b : date) : bool :=
  (year a <? year b)
  || ((year a =? year b)
      && ((month a <? month b) || ((month a =? month b) && (day a <? day b)))).

Definition date_leb (a b : date) : bool := date_ltb a b || date_eqb a b.

Definition time_ltb (a b : time) : bool :=
  (hour a <? hour b)
  || ((hour a =? hour b)
      && ((minute a <? minute b)
          || ((minute a =? minute b)
              && ((second a <? second b)
                  || ((second a =? second b)
                      && (microsecond a <? microsecond b)))))).

Definition time_eqb (a b : time) : bool :=
  (hour a =? hour b) && (minute a =? minute b) && (second a =? second b)
  && (microsecond a =? microsecond b).

Definition time_leb (a b : time) : bool := time_ltb a b || time_eqb a b.

Definition datetime_leb (a b : datetime) : bool :=
  date_ltb (dt_date a) (dt_date b)
  || (date_eqb (dt_date a) (dt_date b) && time_leb (dt_time a) (dt_time b)).

Definition datetime_ltb (a b : datetime) : bool :=
  date_ltb (dt_date a) (dt_date b)
  || (date_eqb (dt_date a) (dt_date b) && time_ltb (dt_time a) (dt_time b)).

(** [a >= b] is [b <= a]. *)
Definition datetime_geb (a b : datetime) : bool := datetime_leb b a.

(** Day arithmetic. *)

Definition next_day (d : date) : date :=
  if day d <? days_in_month (year d) (month d)
  then mkdate (year d) (month d) (day d + 1)
  else if month d <? 12 then mkdate (year d) (month d + 1) 1
       else mkdate (year d + 1) 1 1.

Definition prev_day (d : date) : date :=
  if 1 <? day d then mkdate (year d) (month d) (day d - 1)
  else if 1 <? month d
       then mkdate (year d) (month d - 1) (days_in_month (year d) (month d - 1))
       else mkdate (year d - 1) 12 31.

(** [d + timedelta(days=n)] on dates, for either sign of [n]. *)
Definition date_add_days (d : date) (n : Z) : date :=
  if 0 <=? n then Nat.iter (Z.to_nat n) next_day d
  else Nat.iter (Z.to_nat (- n)) prev_day d.

(** [dt + timedelta(days=n)] and [dt - timedelta(days=n)]: the time of day
    is kept. *)
Definition add_days (dt : datetime) (n : Z) : datetime :=
  mkdt (date_add_days (dt_date dt) n) (dt_time dt).

Definition sub_days (dt : datetime) (n : Z) : datetime := add_days dt (- n).

(** [dt - timedelta(seconds=1)]. *)
Definition sub_one_second (dt : datetime) : datetime :=
  let t := dt_time dt in
  if 0 <? second t
  then mkdt (dt_date dt) (mktime (hour t) (minute t) (second t - 1) (microsecond t))
  else if 0 <? minute t
  then mkdt (dt_date dt) (mktime (hour t) (minute t - 1) 59 (microsecond t))
  else if 0 <? hour t
  then mkdt (dt_date dt) (mktime (hour t - 1) 59 59 (microsecond t))
  else mkdt (prev_day (dt_date dt)) (mktime 23 59 59 (microsecond t)).

(** [d + relativedelta(months=k)]: the month moves by [k] and the day is
    clipped to the length of the target month. *)
Definition add_months (d : date) (k : Z) : date :=
  let idx := (year d) * 12 + (month d - 1) + k in
  let y := idx / 12 in
  let m := idx mod 12 + 1 in
  mkdate y m (Z.min (day d) (days_in_month y m)).

(** [d + relativedelta(years=k)]. *)
Definition add_years (d : date) (k : Z) : date :=
  let y := year d + k in
  mkdate y (month d) (Z.min (day d) (days_in_month y (month d))).

(** Ordinal of a date (1 = 0001-01-01) and [weekday()] (Monday = 0). *)

Definition days_before_year (y : Z) : Z :=
  let p := y - 1 in p * 365 + p / 4 - p / 100 + p / 400.

Fixpoint days_before_month_aux (y : Z) (n : nat) : Z :=
  match n with
  | O => 0
  | S n' => days_before_month_aux y n' + days_in_month y (Z.of_nat n)
  end.

Definition days_before_month (y m : Z) : Z :=
  days_before_month_aux y (Z.to_nat (m - 1)).

Definition yday0 (d : date) : Z := days_before_month (year d) (month d) + day d - 1.

Definition toordinal (d : date) : Z := days_before_year (year d) + yday0 d + 1.

Definition weekday (d : date) : Z := (toordinal d + 6) mod 7.

(** [%W]: week of the year, weeks starting on Monday, days before the first
    Monday in week 0. *)
Definition week_of_year (d : date) : Z := (yday0 d + 7 - weekday d) / 7.

End Calendar.

Import Calendar.

(** ** Text: [strftime], [strptime], [str.split], [str.strip], [str.join]

    Numeric directives are fixed width (four digits for [%Y], two for the
    others), which is what [strftime] prints for years 1000..9999;
    [strptime] is modelled on text of that shape. *)

Module Text.

Local Open Scope string_scope.
Local Open Scope Z_scope.

Definition digit (k : Z) : ascii := ascii_of_nat (48 + Z.to_nat k).

Definition digit_val (c : ascii) : option Z :=
  let n := Z.of_nat (nat_of_ascii c) in
  if (48 <=? n) && (n <=? 57) then Some (n - 48) else None.

Definition pad2 (n : Z) : string :=
  String (digit (n / 10 mod 10)) (String (digit (n mod 10)) "").

Definition pad4 (n : Z) : string :=
  String (digit (n / 1000 mod 10)) (String (digit (n / 100 mod 10)) (pad2 n)).

Definition take2 (s : string) : option (Z * string) :=
  match s with
  | String a (String b s') =>
      match digit_val a, digit_val b with
      | Some x, Some y => Some (10 * x + y, s')
      | _, _ => None
      end
  | _ => None
  end.

Definition take4 (s : string) : option (Z * string) :=
  match take2 s with
  | Some (hi, s') =>
      match take2 s' with
      | Some (lo, s'') => Some (100 * hi + lo, s'')
      | None => None
      end
  | None => None
  end.

Inductive directive : Type :=
| DY | Dm | Dd | DH | DM | DS   (* %Y %m %d %H %M %S *)
| DB | DA | DW                  (* %B %A %W *)
| Lit (c : ascii).

Definition month_names : list string :=
  ["January"; "February"; "March"; "April"; "May"; "June"; "July";
   "August"; "September"; "October"; "November"; "December"].

Definition day_names : list string :=
  ["Monday"; "Tuesday"; "Wednesday"; "Thursday"; "Friday"; "Saturday";
   "Sunday"].

Definition strftime_piece (dt : datetime) (d : directive) : string :=
  match d with
  | DY => pad4 (year (dt_date dt))
  | Dm => pad2 (month (dt_date dt))
  | Dd => pad2 (day (dt_date dt))
  | DH => pad2 (hour (dt_time dt))
  | DM => pad2 (minute (dt_time dt))
  | DS => pad2 (second (dt_time dt))
  | DB => nth (Z.to_nat (month (dt_date dt) - 1)) month_names ""
  | DA => nth (Z.to_nat (weekday (dt_date dt))) day_names ""
  | DW => pad2 (week_of_year (dt_date dt))
  | Lit c => String c ""
  end.

Fixpoint strftime (fmt : list directive) (dt : datetime) : string :=
  match fmt with
  | [] => ""
  | d :: fmt' => (strftime_piece dt d ++ strftime fmt' dt)%string
  end.

(** [strptime]: fields not named by the format default to 1900-01-01
    00:00:00; the microsecond is always 0. *)
Record fields : Type :=
  mkfields { f_year : Z; f_month : Z; f_day : Z;
             f_hour : Z; f_minute : Z; f_second : Z }.

Definition fields0 : fields := mkfields 1900 1 1 0 0 0.

Definition set_field (d : directive) (n : Z) (f : fields) : fields :=
  match d with
  | DY => mkfields n (f_month f) (f_day f) (f_hour f) (f_minute f) (f_second f)
  | Dm => mkfields (f_year f) n (f_day f) (f_hour f) (f_minute f) (f_second f)
  | Dd => mkfields (f_year f) (f_month f) n (f_hour f) (f_minute f) (f_second f)
  | DH => mkfields (f_year f) (f_month f) (f_day f) n (f_minute f) (f_second f)
  | DM => mkfields (f_year f) (f_month f) (f_day f) (f_hour f) n (f_second f)
  | DS => mkfields (f_year f) (f_month f) (f_day f) (f_hour f) (f_minute f) n
  | _ => f
  end.

Fixpoint strptime_go (fmt : list directive) (s : string) (acc : fields)
  : option fields :=
  match fmt with
  | [] => match s with "" => Some acc | _ => None end
  | Lit c :: fmt' =>
      match s with
      | String a s' => if Ascii.eqb a c then strptime_go fmt' s' acc else None
      | "" => None
      end
  | DY :: fmt' =>
      match take4 s with
      | Some (n, s') => strptime_go fmt' s' (set_field DY n acc)
      | None => None
      end
  | DB :: _ | DA :: _ | DW :: _ => None
  | d :: fmt' =>
      match take2 s with
      | Some (n, s') => strptime_go fmt' s' (set_field d n acc)
      | None => None
      end
  end.

(** [datetime.strptime(s, fmt)]; [None] stands for the [ValueError]. *)
Definition strptime (s : string) (fmt : list directive) : option datetime :=
  match strptime_go fmt s fields0 with
  | Some f =>
      let d := mkdate (f_year f) (f_month f) (f_day f) in
      let t := mktime (f_hour f) (f_minute f) (f_second f) 0 in
      if valid_dateb d && valid_timeb t then Some (mkdt d t) else None
  | None => None
  end.

Definition fmt_ymd : list directive := [DY; Lit "-"; Dm; Lit "-"; Dd].
Definition fmt_dmy_slash : list directive := [Dd; Lit "/"; Dm; Lit "/"; DY].
Definition fmt_ymd_hms : list directive :=
  [DY; Lit "-"; Dm; Lit "-"; Dd; Lit " "; DH; Lit ":"; DM; Lit ":"; DS].
Definition fmt_dmy_slash_hms : list directive :=
  [Dd; Lit "/"; Dm; Lit "/"; DY; Lit " "; DH; Lit ":"; DM; Lit ":"; DS].
Definition fmt_ymd_slash : list directive := [DY; Lit "/"; Dm; Lit "/"; Dd].
Definition fmt_mdy_slash : list directive := [Dm; Lit "/"; Dd; Lit "/"; DY].
Definition fmt_ym : list directive := [DY; Lit "-"; Dm].
Definition fmt_week : list directive := [DY; Lit "-"; Lit "W"; DW].
Definition fmt_month_name : list directive := [DB; Lit " "; DY].
Definition fmt_day_name : list directive := [DA].

(** White space as [str.strip()] and [str.isspace()] see it.  A character
    of the text is a code point below 256; of these Python counts as white
    space 9 to 13, 28 to 31, 32, 133 (U+0085) and 160 (U+00A0). *)
Definition is_space (c : ascii) : bool :=
  let n := nat_of_ascii c in
  (Nat.eqb n 32) || ((Nat.leb 9 n) && (Nat.leb n 13))
  || ((Nat.leb 28 n) && (Nat.leb n 31))
  || (Nat.eqb n 133) || (Nat.eqb n 160).

Fixpoint lstrip (s : string) : string :=
  match s with
  | String c s' => if is_space c then lstrip s' else s
  | "" => ""
  end.

(** Right strip: a character is dropped when everything after it was. *)
Fixpoint rstrip (s : string) : string :=
  match s with
  | String c s' =>
      match rstrip s' with
      | "" => if is_space c then "" else String c ""
      | r => String c r
      end
  | "" => ""
  end.

Definition strip (s : string) : string := rstrip (lstrip s).

(** [s.split(sep)] for a one-character separator: never empty. *)
Fixpoint split (sep : ascii) (s : string) : list string :=
  match s with
  | "" => [""]
  | String c s' =>
      if Ascii.eqb c sep then "" :: split sep s'
      else match split sep s' with
           | p :: ps => String c p :: ps
           | [] => [String c ""]
           end
  end.

(** [sep.join(l)]. *)
Definition join (sep : string) (l : list string) : string := String.concat sep l.

Definition is_empty (s : string) : bool :=
  match s with "" => true | _ => false end.

(** [s.lower()]: the capital letters are A to Z and, above 127, the code
    points 192 to 222 other than 215. *)
Definition lower_char (c : ascii) : ascii :=
  let n := nat_of_ascii c in
  if ((Nat.leb 65 n) && (Nat.leb n 90))
     || ((Nat.leb 192 n) && (Nat.leb n 222) && negb (Nat.eqb n 215))
  then ascii_of_nat (n + 32) else c.

Fixpoint lower (s : string) : string :=
  match s with
  | String c s' => String (lower_char c) (lower s')
  | "" => ""
  end.

Fixpoint mem (s : string) (l : list string) : bool :=
  match l with
  | [] => false
  | x :: l' => String.eqb s x || mem s l'
  end.

(** [[t.strip() for t in s.split(',') if t.strip()]]. *)
Definition parse_tags (s : string) : list string :=
  map strip (filter (fun t => negb (is_empty (strip t))) (split "," s)).

End Text.

(** ** Dynamic values: the cells of a row and keyword arguments *)

Module Value.

Inductive value : Type :=
| VNone
| VBool (b : bool)
| VInt (n : Z)
| VFloat (q : Q)
| VStr (s : string)
| VDatetime (dt : datetime)
| VStrList (l : list string)
| VTotals (d : list (string * Q)).

(** Truth value of an object in a condition or under [or]. *)
Definition truthy (v : value) : bool :=
  match v with
  | VNone => false
  | VBool b => b
  | VInt n => negb (n =? 0)
  | VFloat q => negb (Qeq_bool q 0)
  | VStr s => negb (Text.is_empty s)
  | VDatetime _ => true
  | VStrList l => match l with [] => false | _ => true end
  | VTotals d => match d with [] => false | _ => true end
  end.

(** [data.get(key)] and [data.get(key, dflt)]. *)
Definition dict_get (key : string) (data : list (string * value)) : value :=
  Py.get_default String.eqb key VNone data.

Definition dict_get_or (key : string) (dflt : value) (data : list (string * value))
  : value :=
  Py.get_default String.eqb key dflt data.

(** [float(v)].  Numeric text is not modelled: text raises [ValueError]. *)
Definition py_float (v : value) : result Q :=
  match v with
  | VFloat q => Ok q
  | VInt n => Ok (inject_Z n)
  | VBool b => Ok (if b then 1%Q else 0%Q)
  | VStr _ => Raise (ValueError "could not convert string to float")
  | _ => Raise (TypeError "float() argument must be a string or a real number")
  end.

(** Reading a cell into a [str]-typed field.  The dataclass stores whatever
    it is given; the typed record keeps text and reads anything else as
    empty. *)
Definition as_str (v : value) : string :=
  match v with
  | VStr s => s
  | _ => EmptyString
  end.

(** [v or None] for a text field. *)
Definition str_or_none (v : value) : option string :=
  match v with
  | VStr s => if Text.is_empty s then None else Some s
  | _ => None
  end.

(** [o or ''] for an optional text field. *)
Definition opt_or_empty (o : option string) : string :=
  match o with
  | Some s => s
  | None => EmptyString
  end.

(** The test [isinstance(v, str)] followed by
    [v.lower() in ('true', '1', 'yes')], then [v or False]. *)
Definition parse_flag (v : value) : bool :=
  match v with
  | VStr s => Text.mem (Text.lower s) ["true"; "1"; "yes"]%string
  | _ => truthy v
  end.

(** A dataclass [__init__] called with keyword arguments only: an argument
    naming no field is a [TypeError], then so is a field that has no default
    and was not given.  The result is the instance [__dict__]. *)
Definition has_field (fields : list (string * option value)) (name : string)
  : bool :=
  existsb (fun f => String.eqb name (fst f)) fields.

Fixpoint first_unexpected (fields : list (string * option value))
  (kwargs : list (string * value)) : option string :=
  match kwargs with
  | [] => None
  | (name, _) :: kwargs' =>
      if has_field fields name then first_unexpected fields kwargs'
      else Some name
  end.

Fixpoint bind_fields (fields : list (string * option value))
  (kwargs : list (string * value)) : result (list (string * value)) :=
  match fields with
  | [] => Ok []
  | (name, dflt) :: fields' =>
      match Py.get String.eqb name kwargs, dflt with
      | Some v, _ | None, Some v =>
          rest <- bind_fields fields' kwargs ;; Ok ((name, v) :: rest)
      | None, None =>
          Raise (TypeError ("__init__() missing required argument: " ++ name)%string)
      end
  end.

Definition dataclass_init (fields : list (string * option value))
  (kwargs : list (string * value)) : result (list (string * value)) :=
  match first_unexpected fields kwargs with
  | Some name =>
      Raise (TypeError
               ("__init__() got an unexpected keyword argument: " ++ name)%string)
  | None => bind_fields fields kwargs
  end.

(** [obj.name] on an instance given by its [__dict__]. *)
Definition getattr (obj : list (string * value)) (name : string) : result value :=
  match Py.get String.eqb name obj with
  | Some v => Ok v
  | None => Raise (AttributeError name)
  end.

End Value.

Import Value.

(** ** models/expense.py *)

(** [parse_date]. *)
Definition parse_date_formats : list (list Text.directive) :=
  [Text.fmt_ymd; Text.fmt_dmy_slash; Text.fmt_ymd_hms; Text.fmt_dmy_slash_hms;
   Text.fmt_ymd_slash; Text.fmt_mdy_slash].

Fixpoint try_formats (s : string) (fmts : list (list Text.directive))
  : option datetime :=
  match fmts with
  | [] => None
  | fmt :: fmts' =>
      match Text.strptime s fmt with
      | Some dt => Some dt
      | None => try_formats s fmts'
      end
  end.

Definition parse_date (date_value : value) : option datetime :=
  match date_value with
  | VNone => None
  | VDatetime dt => Some dt
  | VStr s =>
      let date_str := Text.strip s in
      if Text.is_empty date_str
         || Text.mem (Text.lower date_str) ["nan"; "nat"; "none"; ""]%string
      then None
      else try_formats date_str parse_date_formats
  | _ => None   (* the text of any other cell matches no format *)
  end.

Module Expense.

Record t : Type := mk {
  amount : Q;
  date : datetime;
  category : string;
  vendor : string;
  payment_method : string;
  expense_id : string;
  subcategory : string;
  description : string;
  tags : list string;
  is_recurring : bool;
  recurring_type : option string;
  recurring_action : option string;
  next_due_date : option datetime;
  last_recurring_date : option datetime;
  recurring_parent_id : option string;
  is_deleted : bool;
  deleted_at : option datetime;
  created_at : datetime;
  updated_at : datetime
}.

Definition opt_value {A : Type} (inj : A -> value) (o : option A) : value :=
  match o with
  | Some a => inj a
  | None => VNone
  end.

(** The data attributes of an instance: the declared fields, in order. *)
Definition instance_dict (e : t) : list (string * value) :=
  [ ("amount", VFloat (amount e));
    ("date", VDatetime (date e));
    ("category", VStr (category e));
    ("vendor", VStr (vendor e));
    ("payment_method", VStr (payment_method e));
    ("expense_id", VStr (expense_id e));
    ("subcategory", VStr (subcategory e));
    ("description", VStr (description e));
    ("tags", VStrList (tags e));
    ("is_recurring", VBool (is_recurring e));
    ("recurring_type", opt_value VStr (recurring_type e));
    ("recurring_action", opt_value VStr (recurring_action e));
    ("next_due_date", opt_value VDatetime (next_due_date e));
    ("last_recurring_date", opt_value VDatetime (last_recurring_date e));
    ("recurring_parent_id", opt_value VStr (recurring_parent_id e));
    ("is_deleted", VBool (is_deleted e));
    ("deleted_at", opt_value VDatetime (deleted_at e));
    ("created_at", VDatetime (created_at e));
    ("updated_at", VDatetime (updated_at e)) ]%string.

Definition getattr (e : t) (name : string) : result value :=
  Value.getattr (instance_dict e) name.

Definition strftime_opt (fmt : list Text.directive) (o : option datetime)
  : string :=
  match o with
  | Some dt => Text.strftime fmt dt
  | None => EmptyString
  end.

Definition to_dict (e : t) : list (string * value) :=
  [ ("expense_id", VStr (expense_id e));
    ("amount", VFloat (amount e));
    ("date", VStr (Text.strftime Text.fmt_ymd (date e)));
    ("category", VStr (category e));
    ("subcategory", VStr (subcategory e));
    ("vendor", VStr (vendor e));
    ("payment_method", VStr (payment_method e));
    ("description", VStr (description e));
    ("tags", VStr (match tags e with
                   | [] => EmptyString
                   | _ => Text.join "," (tags e)
                   end));
    ("is_recurring", VBool (is_recurring e));
    ("recurring_type", VStr (opt_or_empty (recurring_type e)));
    ("recurring_action", VStr (opt_or_empty (recurring_action e)));
    ("next_due_date", VStr (strftime_opt Text.fmt_ymd (next_due_date e)));
    ("last_recurring_date",
      VStr (strftime_opt Text.fmt_ymd (last_recurring_date e)));
    ("recurring_parent_id", VStr (opt_or_empty (recurring_parent_id e)));
    ("is_deleted", VBool (is_deleted e));
    ("deleted_at", VStr (strftime_opt Text.fmt_ymd_hms (deleted_at e)));
    ("created_at", VStr (Text.strftime Text.fmt_ymd_hms (created_at e)));
    ("updated_at", VStr (Text.strftime Text.fmt_ymd_hms (updated_at e))) ]%string.

(** [datetime.strptime(v, fmt)] under [try ... except ValueError: pass]:
    unparsable text leaves the default, a non-text argument is a
    [TypeError] that the handler does not catch. *)
Definition strptime_or {A : Type} (inj : datetime -> A) (dflt : A) (v : value)
  : result A :=
  if truthy v then
    match v with
    | VStr s =>
        match Text.strptime s Text.fmt_ymd_hms with
        | Some dt => Ok (inj dt)
        | None => Ok dflt
        end
    | _ => Raise (TypeError "strptime() argument 1 must be str")
    end
  else Ok dflt.

(** The [tags] argument after [from_dict] and [__post_init__]. *)
Definition tags_of_value (v : value) : list string :=
  match v with
  | VStr s => Text.parse_tags s
  | VStrList l => l
  | _ => []
  end.

Definition from_dict (now : datetime) (uuid4 : string)
  (data : list (string * value)) : result t :=
  let is_recurring := parse_flag (dict_get "is_recurring" data) in
  let is_deleted := parse_flag (dict_get "is_deleted" data) in
  let tags := tags_of_value (dict_get_or "tags" (VStr "") data) in
  deleted_at <- strptime_or Some None (dict_get "deleted_at" data) ;;
  created_at <- strptime_or (fun dt => dt) now (dict_get "created_at" data) ;;
  updated_at <- strptime_or (fun dt => dt) now (dict_get "updated_at" data) ;;
  amount <- py_float (dict_get_or "amount" (VInt 0) data) ;;
  Ok {|
    expense_id :=
      (let v := dict_get "expense_id" data in
       if truthy v then as_str v else uuid4);
    amount := amount;
    date :=
      match parse_date (dict_get "date" data) with
      | Some dt => dt
      | None => now
      end;
    category := as_str (dict_get_or "category" (VStr "") data);
    subcategory := as_str (dict_get_or "subcategory" (VStr "") data);
    vendor := as_str (dict_get_or "vendor" (VStr "") data);
    payment_method := as_str (dict_get_or "payment_method" (VStr "") data);
    description := as_str (dict_get_or "description" (VStr "") data);
    tags := tags;
    is_recurring := is_recurring;
    recurring_type := str_or_none (dict_get "recurring_type" data);
    recurring_action := str_or_none (dict_get "recurring_action" data);
    next_due_date := parse_date (dict_get "next_due_date" data);
    last_recurring_date := parse_date (dict_get "last_recurring_date" data);
    recurring_parent_id := str_or_none (dict_get "recurring_parent_id" data);
    is_deleted := is_deleted;
    deleted_at := deleted_at;
    created_at := created_at;
    updated_at := updated_at
  |}.

Definition soft_delete (now : datetime) (e : t) : t :=
  {| amount := amount e;
     date := date e;
     category := category e;
     vendor := vendor e;
     payment_method := payment_method e;
     expense_id := expense_id e;
     subcategory := subcategory e;
     description := description e;
     tags := tags e;
     is_recurring := is_recurring e;
     recurring_type := recurring_type e;
     recurring_action := recurring_action e;
     next_due_date := next_due_date e;
     last_recurring_date := last_recurring_date e;
     recurring_parent_id := recurring_parent_id e;
     is_deleted := true;
     deleted_at := Some now;
     created_at := created_at e;
     updated_at := now |}.

Definition restore (now : datetime) (e : t) : t :=
  {| amount := amount e;
     date := date e;
     category := category e;
     vendor := vendor e;
     payment_method := payment_method e;
     expense_id := expense_id e;
     subcategory := subcategory e;
     description := description e;
     tags := tags e;
     is_recurring := is_recurring e;
     recurring_type := recurring_type e;
     recurring_action := recurring_action e;
     next_due_date := next_due_date e;
     last_recurring_date := last_recurring_date e;
     recurring_parent_id := recurring_parent_id e;
     is_deleted := false;
     deleted_at := None;
     created_at := created_at e;
     updated_at := now |}.

End Expense.

(** Strict comparison of amounts, [a < b]. *)
Definition Qlt_bool (a b : Q) : bool := negb (Qle_bool b a).

(** ** models/budget.py *)

Module Budget.

Local Open Scope Q_scope.

Record t : Type := mk {
  category : string;
  amount : Q;
  period_type : string;
  period_start : datetime;
  budget_id : string;
  subcategory : string;
  warning_threshold : Q;
  critical_threshold : Q;
  rollover_enabled : bool;
  rollover_cap_percent : Q;
  previous_rollover : Q;
  notes : string;
  is_active : bool;
  spent : Q;
  rollover_amount : Q;
  allow_rollover : bool;
  created_at : datetime;
  updated_at : datetime
}.

(** [dt + relativedelta(months=k, days=-1)] and
    [dt + relativedelta(years=k, days=-1)]: months and years first, then the
    days. *)
Definition plus_months_minus_day (dt : datetime) (k : Z) : datetime :=
  mkdt (prev_day (add_months (dt_date dt) k)) (dt_time dt).

Definition plus_years_minus_day (dt : datetime) (k : Z) : datetime :=
  mkdt (prev_day (add_years (dt_date dt) k)) (dt_time dt).

Definition period_end (b : t) : datetime :=
  if String.eqb (period_type b) "monthly"
  then plus_months_minus_day (period_start b) 1
  else if String.eqb (period_type b) "quarterly"
  then plus_months_minus_day (period_start b) 3
  else if String.eqb (period_type b) "yearly"
  then plus_years_minus_day (period_start b) 1
  else plus_months_minus_day (period_start b) 1.

Definition effective_budget (b : t) : Q :=
  if rollover_enabled b then amount b + previous_rollover b else amount b.

Definition get_used_percentage (b : t) : Q :=
  if Qle_bool (amount b) 0 then 0
  else spent b / amount b * 100.

Definition get_remaining (b : t) : Q := effective_budget b - spent b.

(** [min(a, b)]: the first argument unless the second is smaller. *)
Definition py_min (a b : Q) : Q := if Qlt_bool b a then b else a.

(** The cap is formed as [amount * (rollover_cap_percent / 100)].  Over the
    rationals this is amount * rollover_cap_percent / 100; over Python's
    floats the two can differ in the last place (see [Binary64]). *)
Definition calculate_rollover (b : t) (spent : Q) : Q :=
  if negb (rollover_enabled b) then 0
  else
    let remaining := effective_budget b - spent in
    if Qle_bool remaining 0 then 0
    else
      let max_rollover := amount b * (rollover_cap_percent b / 100) in
      py_min remaining max_rollover.

Definition set_rollover_amount (b : t) (r : Q) : t :=
  {| category := category b;
     amount := amount b;
     period_type := period_type b;
     period_start := period_start b;
     budget_id := budget_id b;
     subcategory := subcategory b;
     warning_threshold := warning_threshold b;
     critical_threshold := critical_threshold b;
     rollover_enabled := rollover_enabled b;
     rollover_cap_percent := rollover_cap_percent b;
     previous_rollover := previous_rollover b;
     notes := notes b;
     is_active := is_active b;
     spent := spent b;
     rollover_amount := r;
     allow_rollover := allow_rollover b;
     created_at := created_at b;
     updated_at := updated_at b |}.

(** The declared fields with their defaults; [None] marks a field that has
    none.  The default factories draw [uuid4] and [now]. *)
Definition fields (now : datetime) (uuid4 : string)
  : list (string * option value) :=
  [ ("category", None);
    ("amount", None);
    ("period_type", None);
    ("period_start", None);
    ("budget_id", Some (VStr uuid4));
    ("subcategory", Some (VStr EmptyString));
    ("warning_threshold", Some (VFloat 80));
    ("critical_threshold", Some (VFloat 95));
    ("rollover_enabled", Some (VBool false));
    ("rollover_cap_percent", Some (VFloat 50));
    ("previous_rollover", Some (VFloat 0));
    ("notes", Some (VStr EmptyString));
    ("is_active", Some (VBool true));
    ("spent", Some (VFloat 0));
    ("rollover_amount", Some (VFloat 0));
    ("allow_rollover", Some (VBool false));
    ("created_at", Some (VDatetime now));
    ("updated_at", Some (VDatetime now)) ]%string.

(** An instance given by its [__dict__], as the constructor leaves it. *)
Definition instance : Type := list (string * value).

Definition setattr (name : string) (v : value) (obj : instance) : instance :=
  Py.upd String.eqb name (fun _ => v) v obj.

(** [self.name = float(self.name)]. *)
Definition to_float (name : string) (obj : instance) : result instance :=
  v <- Value.getattr obj name ;;
  q <- py_float v ;;
  Ok (setattr name (VFloat q) obj).

(** [datetime.now().replace(day=1)]. *)
Definition first_of_month (now : datetime) : datetime :=
  mkdt (mkdate (year (dt_date now)) (month (dt_date now)) 1) (dt_time now).

Definition post_init (now : datetime) (obj : instance) : result instance :=
  obj <- to_float "amount" obj ;;
  obj <- to_float "warning_threshold" obj ;;
  obj <- to_float "critical_threshold" obj ;;
  obj <- to_float "rollover_cap_percent" obj ;;
  obj <- to_float "previous_rollover" obj ;;
  enabled <- Value.getattr obj "rollover_enabled" ;;
  let obj := setattr "allow_rollover" enabled obj in
  start <- Value.getattr obj "period_start" ;;
  match start with
  | VNone => Ok (setattr "period_start" (VDatetime (first_of_month now)) obj)
  | VStr s =>
      match Text.strptime s Text.fmt_ymd with
      | Some dt => Ok (setattr "period_start" (VDatetime dt) obj)
      | None =>
          match Text.strptime s Text.fmt_dmy_slash with
          | Some dt => Ok (setattr "period_start" (VDatetime dt) obj)
          | None =>
              Ok (setattr "period_start" (VDatetime (first_of_month now)) obj)
          end
      end
  | _ => Ok obj
  end.

(** The constructor call [Budget(...)]: the generated [__init__], then [__post_init__]. *)
Definition init (now : datetime) (uuid4 : string)
  (kwargs : list (string * value)) : result instance :=
  obj <- dataclass_init (fields now uuid4) kwargs ;;
  post_init now obj.

Definition to_dict (b : t) : list (string * value) :=
  [ ("budget_id", VStr (budget_id b));
    ("category", VStr (category b));
    ("subcategory", VStr (subcategory b));
    ("amount", VFloat (amount b));
    ("period_type", VStr (period_type b));
    ("period_start", VStr (Text.strftime Text.fmt_ymd (period_start b)));
    ("warning_threshold", VFloat (warning_threshold b));
    ("critical_threshold", VFloat (critical_threshold b));
    ("rollover_enabled", VBool (rollover_enabled b));
    ("rollover_cap_percent", VFloat (rollover_cap_percent b));
    ("previous_rollover", VFloat (previous_rollover b));
    ("notes", VStr (notes b));
    ("is_active", VBool (is_active b));
    ("created_at", VStr (Text.strftime Text.fmt_ymd_hms (created_at b)));
    ("updated_at", VStr (Text.strftime Text.fmt_ymd_hms (updated_at b))) ]%string.

(** [datetime.strptime(v, fmt)] under [try ... except ValueError: pass],
    guarded by [if v]: unparsable text leaves the default, a non-text
    argument is a [TypeError] that the handler does not catch. *)
Definition strptime_or (fmt : list Text.directive) (dflt : datetime)
  (v : value) : result datetime :=
  if truthy v then
    match v with
    | VStr s =>
        match Text.strptime s fmt with
        | Some dt => Ok dt
        | None => Ok dflt
        end
    | _ => Raise (TypeError "strptime() argument 1 must be str")
    end
  else Ok dflt.

(** [from_dict], with the [__post_init__] that follows the constructor: the
    runtime fields [spent] and [rollover_amount] take their defaults and
    [allow_rollover] is set from [rollover_enabled].  A flag that is not
    text is read by its truth value. *)
Definition from_dict (now : datetime) (uuid4 : string)
  (data : list (string * value)) : result t :=
  let rollover_enabled := parse_flag (dict_get "rollover_enabled" data) in
  let is_active := parse_flag (dict_get_or "is_active" (VBool true) data) in
  period_start <- strptime_or Text.fmt_ymd (first_of_month now)
                    (dict_get "period_start" data) ;;
  created_at <- strptime_or Text.fmt_ymd_hms now (dict_get "created_at" data) ;;
  updated_at <- strptime_or Text.fmt_ymd_hms now (dict_get "updated_at" data) ;;
  amount <- py_float (dict_get_or "amount" (VInt 0) data) ;;
  warning_threshold <-
    py_float (dict_get_or "warning_threshold" (VFloat 80) data) ;;
  critical_threshold <-
    py_float (dict_get_or "critical_threshold" (VFloat 95) data) ;;
  rollover_cap_percent <-
    py_float (dict_get_or "rollover_cap_percent" (VFloat 50) data) ;;
  previous_rollover <-
    py_float (dict_get_or "previous_rollover" (VFloat 0) data) ;;
  Ok {|
    budget_id :=
      (let v := dict_get "budget_id" data in
       if truthy v then as_str v else uuid4);
    category := as_str (dict_get_or "category" (VStr EmptyString) data);
    subcategory := as_str (dict_get_or "subcategory" (VStr EmptyString) data);
    amount := amount;
    period_type := as_str (dict_get_or "period_type" (VStr "monthly") data);
    period_start := period_start;
    warning_threshold := warning_threshold;
    critical_threshold := critical_threshold;
    rollover_enabled := rollover_enabled;
    rollover_cap_percent := rollover_cap_percent;
    previous_rollover := previous_rollover;
    notes := as_str (dict_get_or "notes" (VStr EmptyString) data);
    is_active := is_active;
    spent := 0;
    rollover_amount := 0;
    allow_rollover := rollover_enabled;
    created_at := created_at;
    updated_at := updated_at
  |}.

End Budget.

(** ** Rollover over binary64

    [Budget.calculate_rollover] once more, over the binary64 numbers that
    Python's [float] is, with the fields it reads as arguments
    ([effective_budget] is written out). *)

Module Binary64.

Import PrimFloat.

Local Open Scope float_scope.

(** [min(a, b)]: the first argument unless the second is smaller. *)
Definition py_min (a b : float) : float := if ltb b a then b else a.

Definition calculate_rollover (rollover_enabled : bool)
  (amount previous_rollover rollover_cap_percent spent : float) : float :=
  if negb rollover_enabled then 0
  else
    let effective_budget :=
      if rollover_enabled then amount + previous_rollover else amount in
    let remaining := effective_budget - spent in
    if leb remaining 0 then 0
    else
      let max_rollover := amount * (rollover_cap_percent / 100) in
      py_min remaining max_rollover.

End Binary64.

(** ** managers/budget_manager.py *)

Module BudgetManager.

Local Open Scope Q_scope.

Inductive BudgetStatus : Type :=
| UNDER_BUDGET
| WARNING
| CRITICAL
| OVER_BUDGET.

(** config.py *)
Definition WARNING_THRESHOLD : Q := 80.
Definition CRITICAL_THRESHOLD : Q := 95.

(** The manager object: the budget cache in insertion order and the two
    thresholds.  [saved] is the content last written by [save_budgets]. *)
Record t : Type := mk {
  budgets : list (string * Budget.t);
  loaded : bool;
  warning_threshold : Q;
  critical_threshold : Q;
  saved : list Budget.t
}.

(** [__init__] on a store holding [stored]. *)
Definition init (stored : list Budget.t) : t :=
  {| budgets := fold_left
                  (fun d b => Py.upd String.eqb (Budget.budget_id b)
                                (fun _ => b) b d)
                  stored [];
     loaded := true;
     warning_threshold := WARNING_THRESHOLD;
     critical_threshold := CRITICAL_THRESHOLD;
     saved := stored |}.

(** Methods run in a state monad over the manager object. *)
Definition M (A : Type) : Type := t -> A * t.

Definition ret {A : Type} (a : A) : M A := fun self => (a, self).

Definition mbind {A B : Type} (c : M A) (k : A -> M B) : M B :=
  fun self => let (a, self') := c self in k a self'.

Definition read : M t := fun self => (self, self).

Definition write (self' : t) : M unit := fun _ => (tt, self').

Definition values (self : t) : list Budget.t := map snd (budgets self).

Definition save_budgets : M unit :=
  fun self =>
    (tt, {| budgets := budgets self; loaded := loaded self;
            warning_threshold := warning_threshold self;
            critical_threshold := critical_threshold self;
            saved := values self |}).


(** One turn of the loop of [calculate_spent]. *)
Definition spent_step (budget : Budget.t) (total : Q) (expense : Expense.t) : Q :=
  if Expense.is_deleted expense then total
  else if negb (String.eqb (Expense.category expense) (Budget.category budget))
  then total
  else
    let expense_date := dt_date (Expense.date expense) in
    let start_date := dt_date (Budget.period_start budget) in
    let end_date := dt_date (Budget.period_end budget) in
    if date_leb start_date expense_date && date_leb expense_date end_date
    then total + Expense.amount expense
    else total.

Definition calculate_spent (budget : Budget.t) (expenses : list Expense.t)
  : M Q :=
  ret (fold_left (spent_step budget) expenses 0).

Definition set_spent (b : Budget.t) (s : Q) : Budget.t :=
  {| Budget.category := Budget.category b;
     Budget.amount := Budget.amount b;
     Budget.period_type := Budget.period_type b;
     Budget.period_start := Budget.period_start b;
     Budget.budget_id := Budget.budget_id b;
     Budget.subcategory := Budget.subcategory b;
     Budget.warning_threshold := Budget.warning_threshold b;
     Budget.critical_threshold := Budget.critical_threshold b;
     Budget.rollover_enabled := Budget.rollover_enabled b;
     Budget.rollover_cap_percent := Budget.rollover_cap_percent b;
     Budget.previous_rollover := Budget.previous_rollover b;
     Budget.notes := Budget.notes b;
     Budget.is_active := Budget.is_active b;
     Budget.spent := s;
     Budget.rollover_amount := Budget.rollover_amount b;
     Budget.allow_rollover := Budget.allow_rollover b;
     Budget.created_at := Budget.created_at b;
     Budget.updated_at := Budget.updated_at b |}.

Definition set_budgets (self : t) (bs : list (string * Budget.t)) : t :=
  {| budgets := bs; loaded := loaded self;
     warning_threshold := warning_threshold self;
     critical_threshold := critical_threshold self;
     saved := saved self |}.

Definition update_budget_spent (budget_id : string) (expenses : list Expense.t)
  : M Q :=
  mbind read (fun self =>
    match Py.get String.eqb budget_id (budgets self) with
    | None => ret 0
    | Some budget =>
        mbind (calculate_spent budget expenses) (fun s =>
        mbind (write (set_budgets self
                        (Py.upd String.eqb budget_id
                           (fun b => set_spent b s) budget (budgets self))))
              (fun _ =>
        mbind save_budgets (fun _ => ret s)))
    end).

Definition get_budget_status (budget : Budget.t) : M BudgetStatus :=
  mbind read (fun self =>
    if Qle_bool (Budget.amount budget) 0 then ret UNDER_BUDGET
    else
      let percentage := Budget.get_used_percentage budget in
      if Qle_bool 100 percentage then ret OVER_BUDGET
      else if Qle_bool (critical_threshold self) percentage then ret CRITICAL
      else if Qle_bool (warning_threshold self) percentage then ret WARNING
      else ret UNDER_BUDGET).




Definition calculate_rollover (budget : Budget.t) (rollover_cap_percentage : Q)
  : M Q :=
  if negb (Budget.allow_rollover budget) then ret 0
  else
    let remaining := Budget.get_remaining budget in
    if Qle_bool remaining 0 then ret 0
    else
      let max_rollover := Budget.amount budget * (rollover_cap_percentage / 100) in
      ret (Budget.py_min remaining max_rollover).

Definition get_budget (budget_id : string) : M (option Budget.t) :=
  mbind read (fun self => ret (Py.get String.eqb budget_id (budgets self))).

Definition delete_budget (budget_id : string) : M bool :=
  mbind read (fun self =>
    match Py.get String.eqb budget_id (budgets self) with
    | None => ret false
    | Some _ =>
        mbind (write (set_budgets self
                        (Py.del String.eqb budget_id (budgets self))))
              (fun _ =>
        mbind save_budgets (fun _ => ret true))
    end).

Definition get_active_budgets (now : datetime) : M (list Budget.t) :=
  mbind read (fun self =>
    let today := dt_date now in
    ret (filter (fun b =>
                   date_leb (dt_date (Budget.period_start b)) today
                   && date_leb today (dt_date (Budget.period_end b)))
                (values self))).

(** The loop of [update_all_budgets_spent] over the cached budgets. *)
Fixpoint spent_loop (expenses : list Expense.t)
  (bs : list (string * Budget.t)) : M (list (string * Budget.t)) :=
  match bs with
  | [] => ret []
  | (k, budget) :: bs' =>
      mbind (calculate_spent budget expenses) (fun s =>
      mbind (spent_loop expenses bs') (fun rest =>
      ret ((k, set_spent budget s) :: rest)))
  end.

Definition update_all_budgets_spent (expenses : list Expense.t) : M unit :=
  mbind read (fun self =>
  mbind (spent_loop expenses (budgets self)) (fun bs =>
  mbind (write (set_budgets self bs)) (fun _ => save_budgets))).

(** [create_next_period_budget]: the next period is taken to be a month. *)
Definition create_next_period_budget (now : datetime) (uuid4 : string)
  (budget : Budget.t) (include_rollover : bool) (rollover_cap_percentage : Q)
  : M (result Budget.instance) :=
  let next_start := add_days (Budget.period_end budget) 1 in
  let next_end := Budget.plus_months_minus_day next_start 1 in
  mbind (if include_rollover
         then calculate_rollover budget rollover_cap_percentage
         else ret 0) (fun rollover =>
  ret (Budget.init now uuid4
         [ ("category", VStr (Budget.category budget));
           ("amount", VFloat (Budget.amount budget));
           ("period_start", VDatetime next_start);
           ("period_end", VDatetime next_end);
           ("spent", VFloat 0);
           ("notes", VStr (Budget.notes budget));
           ("allow_rollover", VBool (Budget.allow_rollover budget));
           ("rollover_amount", VFloat rollover) ]%string)).

Definition apply_rollover (from_budget_id to_budget_id : string)
  (rollover_cap_percentage : Q) : M Q :=
  mbind read (fun self =>
    match Py.get String.eqb from_budget_id (budgets self),
          Py.get String.eqb to_budget_id (budgets self) with
    | Some from_budget, Some to_budget =>
        if negb (String.eqb (Budget.category from_budget)
                            (Budget.category to_budget))
        then ret 0
        else
          mbind (calculate_rollover from_budget rollover_cap_percentage)
                (fun rollover =>
          if Qlt_bool 0 rollover
          then
            mbind (write (set_budgets self
                            (Py.upd String.eqb to_budget_id
                               (fun b => Budget.set_rollover_amount b rollover)
                               to_budget (budgets self))))
                  (fun _ =>
            mbind save_budgets (fun _ => ret rollover))
          else ret rollover)
    | _, _ => ret 0
    end).

Definition get_categories_over_budget (now : datetime) : M (list string) :=
  mbind (get_active_budgets now) (fun active =>
    ret (map Budget.category
           (filter (fun b => Qle_bool 100 (Budget.get_used_percentage b))
                   active))).

(** [max(0, x)]: the first argument unless the second is larger. *)
Definition py_max0 (x : Q) : Q := if Qlt_bool 0 x then x else 0.

Definition get_budget_health_score (now : datetime) : M Q :=
  mbind (get_active_budgets now) (fun active_budgets =>
    match active_budgets with
    | [] => ret 100
    | _ =>
        let scores :=
          map (fun b => py_max0 (100 - Budget.get_used_percentage b))
              active_budgets in
        ret (fold_left Qplus scores 0
             / inject_Z (Z.of_nat (List.length scores)))
    end).

(** The alerts of [get_budget_alerts]; the message is text built from the
    other entries. *)
Record budget_alert : Type := mk_budget_alert {
  ba_budget_id : string;
  ba_category : string;
  ba_status : BudgetStatus;
  ba_percentage : Q;
  ba_remaining : Q;
  ba_amount : Q;
  ba_spent : Q;
  ba_severity : string
}.

Definition make_alert (budget : Budget.t) (status : BudgetStatus)
  : budget_alert :=
  mk_budget_alert (Budget.budget_id budget) (Budget.category budget) status
    (Budget.get_used_percentage budget) (Budget.get_remaining budget)
    (Budget.amount budget) (Budget.spent budget)
    (match status with
     | OVER_BUDGET => "error"
     | CRITICAL => "warning"
     | _ => "info"
     end)%string.

(** The loop over the active budgets. *)
Fixpoint alert_loop (active : list Budget.t) : M (list budget_alert) :=
  match active with
  | [] => ret []
  | budget :: active' =>
      mbind (get_budget_status budget) (fun status =>
      mbind (alert_loop active') (fun rest =>
      match status with
      | UNDER_BUDGET => ret rest
      | _ => ret (make_alert budget status :: rest)
      end))
  end.

Definition severity_order : list (string * Z) :=
  [("error", 0); ("warning", 1); ("info", 2)]%string%Z.

Definition severity_key (a : budget_alert) : Z :=
  Py.get_default String.eqb (ba_severity a) 3%Z severity_order.

(** [l.sort(key=...)]: the sort is stable, so insertion stands for it. *)
Fixpoint insert_asc {A : Type} (key : A -> Z) (x : A) (l : list A) : list A :=
  match l with
  | [] => [x]
  | y :: l' =>
      if (key y <? key x)%Z then y :: insert_asc key x l' else x :: l
  end.

Definition sort_asc {A : Type} (key : A -> Z) (l : list A) : list A :=
  fold_right (insert_asc key) [] l.

Definition get_budget_alerts (now : datetime) : M (list budget_alert) :=
  mbind (get_active_budgets now) (fun active =>
  mbind (alert_loop active) (fun alerts =>
  ret (sort_asc severity_key alerts))).

End BudgetManager.

(** ** models/statistical_summary.py *)

Module StatisticalSummary.

(** An instance is its [__dict__]. *)
Definition t : Type := list (string * value).

(** The declared fields with their defaults; [None] marks a field that has
    none. *)
Definition fields : list (string * option value) :=
  [ ("period_start", None);
    ("period_end", None);
    ("total_amount", Some (VFloat 0));
    ("expense_count", Some (VInt 0));
    ("average_amount", Some (VFloat 0));
    ("median_amount", Some (VFloat 0));
    ("min_amount", Some (VFloat 0));
    ("max_amount", Some (VFloat 0));
    ("std_deviation", Some (VFloat 0));
    ("by_category", Some (VTotals []));
    ("by_subcategory", Some (VTotals []));
    ("by_vendor", Some (VTotals []));
    ("by_payment_method", Some (VTotals []));
    ("by_month", Some (VTotals []));
    ("by_day_of_week", Some (VTotals []));
    ("trend_data", Some (VStrList []));
    ("comparison_data", Some (VTotals []));
    ("top_expenses", Some (VStrList []));
    ("recurring_total", Some (VFloat 0));
    ("recurring_count", Some (VInt 0));
    ("budget_status", Some (VTotals [])) ]%string.

Definition init (kwargs : list (string * value)) : result t :=
  dataclass_init fields kwargs.

(** The classmethod [empty]. *)
Definition empty (start end_ : datetime) : result t :=
  init [ ("period_start", VDatetime start);
         ("period_end", VDatetime end_);
         ("total_amount", VFloat 0);
         ("expense_count", VInt 0);
         ("average_amount", VFloat 0);
         ("median_amount", VFloat 0);
         ("min_amount", VFloat 0);
         ("max_amount", VFloat 0);
         ("std_deviation", VFloat 0) ]%string.

(** The numeric fields the report calls the summary statistics. *)
Definition numeric_fields : list string :=
  [ "expense_count"; "total_amount"; "average_amount"; "median_amount";
    "std_deviation"; "min_amount"; "max_amount" ]%string.

Definition is_zero (v : value) : bool :=
  match v with
  | VFloat q => Qeq_bool q 0
  | VInt n => n =? 0
  | _ => false
  end.

(** All the numeric fields of a summary are present and zero. *)
Definition all_zero (s : t) : bool :=
  forallb (fun name =>
             match Py.get String.eqb name s with
             | Some v => is_zero v
             | None => false
             end) numeric_fields.

End StatisticalSummary.

(** ** reports/report_generator.py *)

Module ReportGenerator.

Local Open Scope Q_scope.

(** [sum(amounts)] and [sum(e.amount for e in expenses)]. *)
Definition sum (amounts : list Q) : Q := fold_left Qplus amounts 0.

Definition sum_amounts (expenses : list Expense.t) : Q :=
  sum (map Expense.amount expenses).

(** [min] and [max] of a non-empty list: the first extremal element. *)
Definition min_list (a : Q) (l : list Q) : Q :=
  fold_left (fun m x => if Qlt_bool x m then x else m) l a.

Definition max_list (a : Q) (l : list Q) : Q :=
  fold_left (fun m x => if Qlt_bool m x then x else m) l a.

Definition min_datetime (a : datetime) (l : list datetime) : datetime :=
  fold_left (fun m x => if datetime_ltb x m then x else m) l a.

Definition max_datetime (a : datetime) (l : list datetime) : datetime :=
  fold_left (fun m x => if datetime_ltb m x then x else m) l a.

(** The entry [{'amount': 0.0, 'count': 0}] of the grouping dictionaries. *)
Record group : Type := mkgroup { g_amount : Q; g_count : Z }.

Definition group0 : group := mkgroup 0 0.

Definition add_amount (a : Q) (g : group) : group :=
  mkgroup (g_amount g + a) (g_count g).

Definition add_count (g : group) : group :=
  mkgroup (g_amount g) (g_count g + 1)%Z.

(** [data[key]['amount'] += e.amount; data[key]['count'] += 1]. *)
Definition tally (key : Expense.t -> string) (data : list (string * group))
  (e : Expense.t) : list (string * group) :=
  Py.upd String.eqb (key e) add_count group0
    (Py.upd String.eqb (key e) (add_amount (Expense.amount e)) group0 data).

Definition percentage_of (amount total_amount : Q) : Q :=
  if Qlt_bool 0 total_amount then amount / total_amount * 100 else 0.

Definition average_of (g : group) : Q :=
  if (0 <? g_count g)%Z then g_amount g / inject_Z (g_count g) else 0.

(** [l.sort(key=..., reverse=True)].  The sort is stable, also in reverse;
    a stable sort is determined by the key order, so insertion stands for
    it. *)
Section Sort.
Context {A : Type} (key : A -> Q).

Fixpoint insert_desc (x : A) (l : list A) : list A :=
  match l with
  | [] => [x]
  | y :: l' =>
      if Qlt_bool (key x) (key y) then y :: insert_desc x l' else x :: l
  end.

Definition sort_desc (l : list A) : list A := fold_right insert_desc [] l.
End Sort.

(** [sorted(keys)] on text. *)
Fixpoint insert_str (s : string) (l : list string) : list string :=
  match l with
  | [] => [s]
  | x :: l' => if String.ltb s x then s :: l else x :: insert_str s l'
  end.

Definition sorted_str (l : list string) : list string :=
  fold_right insert_str [] l.

(** *** Category, vendor and payment-method breakdowns *)

Record breakdown_row : Type := mkrow {
  row_key : string;
  row_amount : Q;
  row_count : Z;
  row_percentage : Q;
  row_average : Q
}.

Definition make_row (total_amount : Q) (kv : string * group) : breakdown_row :=
  mkrow (fst kv) (g_amount (snd kv)) (g_count (snd kv))
        (percentage_of (g_amount (snd kv)) total_amount)
        (average_of (snd kv)).

Definition get_category_breakdown (expenses : list Expense.t)
  : list breakdown_row :=
  match expenses with
  | [] => []
  | _ =>
      let st :=
        fold_left
          (fun st expense =>
             (tally Expense.category (fst st) expense,
              snd st + Expense.amount expense))
          expenses ([], 0) in
      let category_data := fst st in
      let total_amount := snd st in
      sort_desc row_amount (map (make_row total_amount) category_data)
  end.

(** [result[:n]]. *)
Definition slice_to {A : Type} (n : Z) (l : list A) : list A :=
  if (0 <=? n)%Z then firstn (Z.to_nat n) l
  else firstn (List.length l - Z.to_nat (- n))%nat l.

Definition get_top_vendors (expenses : list Expense.t) (n : Z)
  : list breakdown_row :=
  match expenses with
  | [] => []
  | _ =>
      let total_amount := fold_left (fun acc e => acc + Expense.amount e)
                                    expenses 0 in
      let vendor_data := fold_left (tally Expense.vendor) expenses [] in
      slice_to n (sort_desc row_amount (map (make_row total_amount) vendor_data))
  end.

(** The payment-method rows carry no average. *)
Record method_row : Type := mkmethod {
  method_name : string;
  method_amount : Q;
  method_count : Z;
  method_percentage : Q
}.

Definition make_method_row (total_amount : Q) (kv : string * group)
  : method_row :=
  mkmethod (fst kv) (g_amount (snd kv)) (g_count (snd kv))
           (percentage_of (g_amount (snd kv)) total_amount).

Definition get_payment_method_breakdown (expenses : list Expense.t)
  : list method_row :=
  match expenses with
  | [] => []
  | _ =>
      let total_amount := fold_left (fun acc e => acc + Expense.amount e)
                                    expenses 0 in
      let method_data := fold_left (tally Expense.payment_method) expenses [] in
      sort_desc method_amount (map (make_method_row total_amount) method_data)
  end.

(** *** Trends *)

Record trend_row : Type := mktrend {
  trend_key : string;     (* 'month', 'week' or 'date' *)
  trend_name : string;    (* 'month_name' or 'day_name'; empty for weeks *)
  trend_amount : Q;
  trend_count : Z
}.

Definition key_of (fmt : list Text.directive) (e : Expense.t) : string :=
  Text.strftime fmt (Expense.date e).

Definition make_trend_row (fmt name_fmt : list Text.directive)
  (data : list (string * group)) (current : datetime) : trend_row :=
  let key := Text.strftime fmt current in
  let g := Py.get_default String.eqb key group0 data in
  mktrend key (Text.strftime name_fmt current) (g_amount g) (g_count g).

(** [current.replace(day=1)]. *)
Definition replace_day1 (dt : datetime) : datetime :=
  mkdt (mkdate (year (dt_date dt)) (month (dt_date dt)) 1) (dt_time dt).

(** The step at the end of the monthly loop. *)
Definition next_month (current : datetime) : datetime :=
  let d := dt_date current in
  if (month d =? 12)%Z
  then mkdt (mkdate (year d + 1) 1 (day d)) (dt_time current)
  else mkdt (mkdate (year d) (month d + 1) (day d)) (dt_time current).

Fixpoint monthly_loop (fuel : nat) (data : list (string * group))
  (end_date current : datetime) (result : list trend_row)
  : option (list trend_row) :=
  match fuel with
  | O => None
  | S fuel' =>
      if datetime_leb current end_date
      then monthly_loop fuel' data end_date (next_month current)
             (result ++ [make_trend_row Text.fmt_ym Text.fmt_month_name
                           data current])
      else Some result
  end.

Definition get_monthly_trend (fuel : nat) (now : datetime)
  (expenses : list Expense.t) (months : Z) : option (list trend_row) :=
  match expenses with
  | [] => Some []
  | _ =>
      let end_date := now in
      let start_date := sub_days end_date (months * 30) in
      let filtered :=
        filter (fun e => datetime_geb (Expense.date e) start_date) expenses in
      let monthly_data := fold_left (tally (key_of Text.fmt_ym)) filtered [] in
      monthly_loop fuel monthly_data end_date (replace_day1 start_date) []
  end.

Definition get_weekly_trend (now : datetime) (expenses : list Expense.t)
  (weeks : Z) : list trend_row :=
  match expenses with
  | [] => []
  | _ =>
      let end_date := now in
      let start_date := sub_days end_date (weeks * 7) in
      let filtered :=
        filter (fun e => datetime_geb (Expense.date e) start_date) expenses in
      let weekly_data := fold_left (tally (key_of Text.fmt_week)) filtered [] in
      map (fun week_key =>
             let g := Py.get_default String.eqb week_key group0 weekly_data in
             mktrend week_key EmptyString (g_amount g) (g_count g))
          (sorted_str (map fst weekly_data))
  end.

Fixpoint daily_loop (fuel : nat) (data : list (string * group))
  (end_date current : datetime) (result : list trend_row)
  : option (list trend_row) :=
  match fuel with
  | O => None
  | S fuel' =>
      if datetime_leb current end_date
      then daily_loop fuel' data end_date (add_days current 1)
             (result ++ [make_trend_row Text.fmt_ymd Text.fmt_day_name
                           data current])
      else Some result
  end.

Definition get_daily_trend (fuel : nat) (now : datetime)
  (expenses : list Expense.t) (days : Z) : option (list trend_row) :=
  match expenses with
  | [] => Some []
  | _ =>
      let end_date := now in
      let start_date := sub_days end_date days in
      let filtered :=
        filter (fun e => datetime_geb (Expense.date e) start_date) expenses in
      let daily_data := fold_left (tally (key_of Text.fmt_ymd)) filtered [] in
      daily_loop fuel daily_data end_date start_date []
  end.

(** *** Budget and recurring reports *)

Record budget_row : Type := mkbudget_row {
  br_category : string;
  br_budget : Q;
  br_actual : Q;
  br_variance : Q;
  br_variance_percentage : Q;
  br_used_percentage : Q;
  br_over : bool;                 (* 'status': 'over' or 'under' *)
  br_period_start : datetime;
  br_period_end : datetime
}.

Definition get_budget_vs_actual (expenses : list Expense.t)
  (budgets : list Budget.t) : list budget_row :=
  map (fun budget =>
         let budget_expenses :=
           filter (fun e =>
                     String.eqb (Expense.category e) (Budget.category budget)
                     && (datetime_leb (Budget.period_start budget) (Expense.date e)
                         && datetime_leb (Expense.date e) (Budget.period_end budget))
                     && negb (Expense.is_deleted e))
                  expenses in
         let actual := sum_amounts budget_expenses in
         let variance := Budget.amount budget - actual in
         mkbudget_row
           (Budget.category budget) (Budget.amount budget) actual variance
           (percentage_of variance (Budget.amount budget))
           (percentage_of actual (Budget.amount budget))
           (Qlt_bool (Budget.amount budget) actual)
           (Budget.period_start budget) (Budget.period_end budget))
      budgets.

Record recurring_part : Type := mkpart {
  part_count : Z;
  part_total : Q;
  part_percentage : Q
}.

Record recurring_summary : Type := mkrecurring {
  rs_recurring : recurring_part;
  rs_non_recurring : recurring_part;
  rs_total : Q
}.

Definition get_recurring_expense_summary (expenses : list Expense.t)
  : recurring_summary :=
  let recurring :=
    filter (fun e => Expense.is_recurring e && negb (Expense.is_deleted e))
           expenses in
  let non_recurring :=
    filter (fun e => negb (Expense.is_recurring e) && negb (Expense.is_deleted e))
           expenses in
  let recurring_total := sum_amounts recurring in
  let non_recurring_total := sum_amounts non_recurring in
  let total := recurring_total + non_recurring_total in
  mkrecurring
    (mkpart (Z.of_nat (List.length recurring)) recurring_total
            (percentage_of recurring_total total))
    (mkpart (Z.of_nat (List.length non_recurring)) non_recurring_total
            (percentage_of non_recurring_total total))
    total.

(** [freq == 'text']. *)
Definition is_text (v : value) (s : string) : bool :=
  match v with
  | VStr x => String.eqb x s
  | _ => false
  end.

(** One turn of the loop of [estimate_monthly_recurring]. *)
Definition estimate_step (monthly_estimate : Q) (expense : Expense.t)
  : result Q :=
  freq <- Expense.getattr expense "recurring_frequency" ;;
  if is_text freq "daily" then Ok (monthly_estimate + Expense.amount expense * 30)
  else if is_text freq "weekly"
  then Ok (monthly_estimate + Expense.amount expense * 4)
  else if is_text freq "biweekly"
  then Ok (monthly_estimate + Expense.amount expense * 2)
  else if is_text freq "monthly"
  then Ok (monthly_estimate + Expense.amount expense)
  else if is_text freq "quarterly"
  then Ok (monthly_estimate + Expense.amount expense / 3)
  else if is_text freq "annually"
  then Ok (monthly_estimate + Expense.amount expense / 12)
  else Ok monthly_estimate.

Definition estimate_monthly_recurring (expenses : list Expense.t) : result Q :=
  let recurring :=
    filter (fun e => Expense.is_recurring e && negb (Expense.is_deleted e))
           expenses in
  fold_left (fun acc expense => m <- acc ;; estimate_step m expense)
            recurring (Ok 0).

(** *** Month boundaries of the full reports *)

(** [month.replace(day=1, hour=0, minute=0, second=0, microsecond=0)]. *)
Definition month_start_of (month : datetime) : datetime :=
  mkdt (mkdate (year (dt_date month)) (Calendar.month (dt_date month)) 1)
       midnight.

(** [(month_start + relativedelta(months=1)) - timedelta(seconds=1)]. *)
Definition month_end_of (month_start : datetime) : datetime :=
  sub_one_second (mkdt (add_months (dt_date month_start) 1) (dt_time month_start)).

(** The list [month_expenses] of [generate_monthly_report]. *)
Definition month_expenses (month : datetime) (expenses : list Expense.t)
  : list Expense.t :=
  let month_start := month_start_of month in
  let month_end := month_end_of month_start in
  filter (fun e =>
            datetime_leb month_start (Expense.date e)
            && datetime_leb (Expense.date e) month_end
            && negb (Expense.is_deleted e))
         expenses.

(** *** Statistics that go through numpy

    [np.mean], [np.median], [np.std] and [np.percentile] are taken as
    given. *)
(** *** Day of week and tags *)

Record day_row : Type := mkday {
  day_number : Z;
  day_name : string;
  day_amount : Q;
  day_count : Z;
  day_average : Q
}.

(** [data[day_num]['amount'] += e.amount; data[day_num]['count'] += 1]. *)
Definition tally_day (data : list (Z * group)) (e : Expense.t)
  : list (Z * group) :=
  let day_num := weekday (dt_date (Expense.date e)) in
  Py.upd Z.eqb day_num add_count group0
    (Py.upd Z.eqb day_num (add_amount (Expense.amount e)) group0 data).

Definition day_names : list string :=
  ["Monday"; "Tuesday"; "Wednesday"; "Thursday"; "Friday"; "Saturday";
   "Sunday"]%string.

Fixpoint enumerate {A : Type} (start : Z) (l : list A) : list (Z * A) :=
  match l with
  | [] => []
  | x :: l' => (start, x) :: enumerate (start + 1) l'
  end.

Definition make_day_row (day_data : list (Z * group)) (ix : Z * string)
  : day_row :=
  let data := Py.get_default Z.eqb (fst ix) group0 day_data in
  mkday (fst ix) (snd ix) (g_amount data) (g_count data) (average_of data).

Definition get_day_of_week_analysis (expenses : list Expense.t)
  : list day_row :=
  match expenses with
  | [] => []
  | _ =>
      let day_data := fold_left tally_day expenses [] in
      map (make_day_row day_data) (enumerate 0 day_names)
  end.






(** *** Subcategories *)








Section Numpy.

Variables np_mean np_median np_std : list Q -> Q.
Variable np_percentile : list Q -> Q -> Q.

Definition calculate_basic_stats (expenses : list Expense.t)
  : result StatisticalSummary.t :=
  match expenses with
  | [] =>
      StatisticalSummary.init
        [ ("total_amount", VFloat 0);
          ("average_amount", VFloat 0);
          ("min_amount", VFloat 0);
          ("max_amount", VFloat 0);
          ("expense_count", VInt 0);
          ("category_totals", VTotals []);
          ("payment_method_totals", VTotals []);
          ("date_from", VNone);
          ("date_to", VNone) ]%string
  | e0 :: rest =>
      let amounts := map Expense.amount expenses in
      let dates := map Expense.date expenses in
      let category_totals :=
        fold_left (fun d expense =>
                     Py.upd String.eqb (Expense.category expense)
                       (fun v => v + Expense.amount expense) 0 d)
                  expenses [] in
      let payment_totals :=
        fold_left (fun d expense =>
                     Py.upd String.eqb (Expense.payment_method expense)
                       (fun v => v + Expense.amount expense) 0 d)
                  expenses [] in
      StatisticalSummary.init
        [ ("total_amount", VFloat (sum amounts));
          ("average_amount", VFloat (np_mean amounts));
          ("min_amount",
            VFloat (min_list (Expense.amount e0) (map Expense.amount rest)));
          ("max_amount",
            VFloat (max_list (Expense.amount e0) (map Expense.amount rest)));
          ("expense_count", VInt (Z.of_nat (List.length expenses)));
          ("category_totals", VTotals category_totals);
          ("payment_method_totals", VTotals payment_totals);
          ("date_from",
            VDatetime (min_datetime (Expense.date e0) (map Expense.date rest)));
          ("date_to",
            VDatetime (max_datetime (Expense.date e0) (map Expense.date rest)));
          ("median_amount", VFloat (np_median amounts));
          ("std_deviation",
            VFloat (if (1 <? Z.of_nat (List.length amounts))%Z
                    then np_std amounts else 0)) ]%string
  end.

Definition calculate_percentiles (expenses : list Expense.t)
  (percentiles : list Q) : list (Q * Q) :=
  match expenses with
  | [] => map (fun p => (p, 0)) percentiles
  | _ =>
      let amounts := map Expense.amount expenses in
      map (fun p => (p, np_percentile amounts p)) percentiles
  end.

(** [stats.name] read as a number. *)
Definition number_attr (stats : StatisticalSummary.t) (name : string)
  : result Q :=
  v <- Value.getattr stats name ;; py_float v.

Record period_totals : Type := mkperiod {
    pt_start : datetime;
    pt_end : datetime;
    pt_total : Q;
    pt_count : Q;
    pt_average : Q
  }.

Record comparison : Type := mkcomparison {
    cmp_period1 : period_totals;
    cmp_period2 : period_totals;
    cmp_amount : Q;
    cmp_amount_percentage : Q;
    cmp_count : Q;
    cmp_count_percentage : Q;
    cmp_average : Q;
    cmp_average_percentage : Q
  }.

Definition compare_periods (expenses : list Expense.t)
  (period1_start period1_end period2_start period2_end : datetime)
  : result comparison :=
  let period1_expenses :=
    filter (fun e => datetime_leb period1_start (Expense.date e)
                     && datetime_leb (Expense.date e) period1_end) expenses in
  let period2_expenses :=
    filter (fun e => datetime_leb period2_start (Expense.date e)
                     && datetime_leb (Expense.date e) period2_end) expenses in
  stats1 <- calculate_basic_stats period1_expenses ;;
  stats2 <- calculate_basic_stats period2_expenses ;;
  total2 <- number_attr stats2 "total_amount" ;;
  total1 <- number_attr stats1 "total_amount" ;;
  count2 <- number_attr stats2 "expense_count" ;;
  count1 <- number_attr stats1 "expense_count" ;;
  average2 <- number_attr stats2 "average_amount" ;;
  average1 <- number_attr stats1 "average_amount" ;;
  let amount_change := total2 - total1 in
  let count_change := count2 - count1 in
  let avg_change := average2 - average1 in
  Ok (mkcomparison
        (mkperiod period1_start period1_end total1 count1 average1)
        (mkperiod period2_start period2_end total2 count2 average2)
        amount_change (percentage_of amount_change total1)
        count_change (percentage_of count_change count1)
        avg_change (percentage_of avg_change average1)).

Definition compare_months (expenses : list Expense.t) (month1 month2 : datetime)
  : result comparison :=
  let p1_start := month_start_of month1 in
  let p1_end := month_end_of p1_start in
  let p2_start := month_start_of month2 in
  let p2_end := month_end_of p2_start in
  compare_periods expenses p1_start p1_end p2_start p2_end.

Record monthly_report : Type := mkreport {
    rep_start : datetime;
    rep_end : datetime;
    rep_summary : StatisticalSummary.t;
    rep_by_category : list breakdown_row;
    rep_by_vendor : list breakdown_row;
    rep_by_payment_method : list method_row;
    rep_by_day : list trend_row;
    rep_recurring : recurring_summary;
    rep_budget_status : list budget_row;
    rep_vs_previous_month : comparison
  }.

(** [generate_monthly_report]; [None] is the daily loop out of fuel. *)
Definition generate_monthly_report (fuel : nat) (now : datetime)
  (expenses : list Expense.t) (budgets : list Budget.t)
  (month : option datetime) : option (result monthly_report) :=
  let month := match month with Some m => m | None => now end in
  let month_start := month_start_of month in
  let month_end := month_end_of month_start in
  let month_expenses := month_expenses month expenses in
  match calculate_basic_stats month_expenses with
  | Raise e => Some (Raise e)
  | Ok summary =>
      let by_category := get_category_breakdown month_expenses in
      let by_vendor := get_top_vendors month_expenses 10 in
      let by_payment_method := get_payment_method_breakdown month_expenses in
      match get_daily_trend fuel now month_expenses 31 with
      | None => None
      | Some by_day =>
          let recurring := get_recurring_expense_summary month_expenses in
          let budget_status := get_budget_vs_actual month_expenses budgets in
          let prev_month :=
            mkdt (add_months (dt_date month_start) (-1)) (dt_time month_start) in
          Some (vs <- compare_months expenses prev_month month_start ;;
                Ok (mkreport month_start month_end summary by_category
                      by_vendor by_payment_method by_day recurring
                      budget_status vs))
      end
  end.

(** [dt.replace(year=y)]: a [ValueError] when that year has no such day. *)
Definition replace_year (dt : datetime) (y : Z) : result datetime :=
  let d := mkdate y (month (dt_date dt)) (day (dt_date dt)) in
  if valid_dateb d then Ok (mkdt d (dt_time dt))
  else Raise (ValueError "day is out of range for month").

Definition get_year_over_year (now : datetime) (expenses : list Expense.t)
  : result comparison :=
  let current_year_start := mkdt (mkdate (year (dt_date now)) 1 1) midnight in
  let current_year_end := now in
  prev_year_start <-
    replace_year current_year_start (year (dt_date current_year_start) - 1) ;;
  prev_year_end <- replace_year now (year (dt_date now) - 1) ;;
  compare_periods expenses prev_year_start prev_year_end
    current_year_start current_year_end.





End Numpy.

End ReportGenerator.

(** ** Vocabulary of the statements *)

Module Spec.

Local Open Scope Q_scope.

(** The active (not soft-deleted) records of a list. *)
Definition active_only (expenses : list Expense.t) : list Expense.t :=
  filter (fun e => negb (Expense.is_deleted e)) expenses.

(** An expense counted against a budget: active, of the budget's category,
    dated (time of day dropped) within the period, both ends included. *)
Definition counts_for (budget : Budget.t) (e : Expense.t) : bool :=
  negb (Expense.is_deleted e)
  && String.eqb (Expense.category e) (Budget.category budget)
  && date_leb (dt_date (Budget.period_start budget)) (dt_date (Expense.date e))
  && date_leb (dt_date (Expense.date e)) (dt_date (Budget.period_end budget)).






(** An active recurring expense. *)
Definition active_recurring (e : Expense.t) : bool :=
  Expense.is_recurring e && negb (Expense.is_deleted e).

(** The same expense with its soft-delete flag set to [flag]. *)
Definition reflag (flag : bool) (e : Expense.t) : Expense.t :=
  {| Expense.amount := Expense.amount e;
     Expense.date := Expense.date e;
     Expense.category := Expense.category e;
     Expense.vendor := Expense.vendor e;
     Expense.payment_method := Expense.payment_method e;
     Expense.expense_id := Expense.expense_id e;
     Expense.subcategory := Expense.subcategory e;
     Expense.description := Expense.description e;
     Expense.tags := Expense.tags e;
     Expense.is_recurring := Expense.is_recurring e;
     Expense.recurring_type := Expense.recurring_type e;
     Expense.recurring_action := Expense.recurring_action e;
     Expense.next_due_date := Expense.next_due_date e;
     Expense.last_recurring_date := Expense.last_recurring_date e;
     Expense.recurring_parent_id := Expense.recurring_parent_id e;
     Expense.is_deleted := flag;
     Expense.deleted_at := Expense.deleted_at e;
     Expense.created_at := Expense.created_at e;
     Expense.updated_at := Expense.updated_at e |}.

(** A list with the flags of its records set by [flags]. *)
Definition reflagged (flags : Expense.t -> bool) (expenses : list Expense.t)
  : list Expense.t :=
  map (fun e => reflag (flags e) e) expenses.

(** The keys of a list in the order in which they are first seen. *)
Fixpoint first_seen (keys : list string) : list string :=
  match keys with
  | [] => []
  | k :: keys' => k :: filter (fun x => negb (String.eqb x k)) (first_seen keys')
  end.

(** [x] occurs at some place of [l] and [y] at a later one. *)
Definition occurs_before {A : Type} (x y : A) (l : list A) : Prop :=
  exists l1 l2 l3, l = l1 ++ x :: l2 ++ y :: l3.

(** Sum of a list of amounts. *)
Definition Qsum (l : list Q) : Q := fold_right Qplus 0 l.

(** A list in descending order of [key]. *)
Definition descending {A : Type} (key : A -> Q) (l : list A) : Prop :=
  Sorted (fun a b => key b <= key a) l.

(** Sum of the amounts held by a grouping dictionary. *)
Definition group_total (d : list (string * ReportGenerator.group)) : Q :=
  Qsum (map (fun kv => ReportGenerator.g_amount (snd kv)) d).

(** [[x; f x; f (f x); ...]], [n] elements. *)
Fixpoint iterate {A : Type} (f : A -> A) (x : A) (n : nat) : list A :=
  match n with
  | O => []
  | S n' => x :: iterate f (f x) n'
  end.

(** Months are counted from year 0. *)
Definition month_index (d : Calendar.date) : Z := 12 * year d + (month d - 1).

(** Number of calendar months from the month of [start] to the month of
    [end_], both included. *)
Definition months_between (start end_ : datetime) : nat :=
  Z.to_nat (month_index (dt_date end_) - month_index (dt_date start) + 1).

(** The bucket of a trend for the key [key]: the sum and the number of the
    records of [filtered] whose date prints as [key] under [fmt]; both are 0
    when there is none. *)
Definition bucket (fmt : list Text.directive) (filtered : list Expense.t)
  (key name : string) : ReportGenerator.trend_row :=
  let matching :=
    filter (fun e => String.eqb (ReportGenerator.key_of fmt e) key) filtered in
  ReportGenerator.mktrend key name
    (ReportGenerator.sum (map Expense.amount matching))
    (Z.of_nat (List.length matching)).

(** The bucket of the calendar unit [current] falls in. *)
Definition bucket_at (fmt name_fmt : list Text.directive)
  (filtered : list Expense.t) (current : datetime) : ReportGenerator.trend_row :=
  bucket fmt filtered (Text.strftime fmt current) (Text.strftime name_fmt current).

(** The records dated at or after [start]. *)
Definition since (start : datetime) (expenses : list Expense.t)
  : list Expense.t :=
  filter (fun e => datetime_geb (Expense.date e) start) expenses.

(** What one record does to the entry of [k] in a grouping dictionary. *)
Definition tally_entry (key : Expense.t -> string) (k : string)
  (g : ReportGenerator.group) (e : Expense.t) : ReportGenerator.group :=
  if String.eqb (key e) k
  then ReportGenerator.add_count
         (ReportGenerator.add_amount (Expense.amount e) g)
  else g.

(** The instant [dt] as the row keeps it: only the day, or the day and the
    time to the second. *)
Definition day_only (dt : datetime) : datetime := mkdt (dt_date dt) midnight.

Definition whole_second (dt : datetime) : datetime :=
  mkdt (dt_date dt)
       (mktime (hour (dt_time dt)) (minute (dt_time dt)) (second (dt_time dt)) 0).

(** An instant that [strftime] prints with a four-digit year. *)
Definition printable (dt : datetime) : bool :=
  valid_dateb (dt_date dt) && valid_timeb (dt_time dt)
  && (1000 <=? year (dt_date dt))%Z && (year (dt_date dt) <=? 9999)%Z.

Definition printable_opt (o : option datetime) : bool :=
  match o with
  | Some dt => printable dt
  | None => true
  end.

Fixpoint has_char (c : ascii) (s : string) : bool :=
  match s with
  | EmptyString => false
  | String a s' => Ascii.eqb a c || has_char c s'
  end.

(** A tag that survives the comma-joined cell: not empty, without comma,
    without white space, as [strip] removes it, at either end. *)
Definition clean_tag (t : string) : bool :=
  negb (Text.is_empty t) && negb (has_char "," t) && String.eqb (Text.strip t) t.

(** An optional text field that is not the empty text. *)
Definition text_or_absent (o : option string) : bool :=
  match o with
  | Some s => negb (Text.is_empty s)
  | None => true
  end.

(** The records the row format can hold without loss other than time
    precision. *)
Definition storable (e : Expense.t) : bool :=
  negb (Text.is_empty (Expense.expense_id e))
  && forallb clean_tag (Expense.tags e)
  && text_or_absent (Expense.recurring_type e)
  && text_or_absent (Expense.recurring_action e)
  && text_or_absent (Expense.recurring_parent_id e)
  && printable (Expense.date e)
  && printable_opt (Expense.next_due_date e)
  && printable_opt (Expense.last_recurring_date e)
  && printable_opt (Expense.deleted_at e)
  && printable (Expense.created_at e)
  && printable (Expense.updated_at e).

(** A record with its instants replaced: [on_day] is applied to the fields
    the row prints as a day, [on_stamp] to the timestamps. *)
Definition with_instants (on_day on_stamp : datetime -> datetime)
  (e : Expense.t) : Expense.t :=
  {| Expense.amount := Expense.amount e;
     Expense.date := on_day (Expense.date e);
     Expense.category := Expense.category e;
     Expense.vendor := Expense.vendor e;
     Expense.payment_method := Expense.payment_method e;
     Expense.expense_id := Expense.expense_id e;
     Expense.subcategory := Expense.subcategory e;
     Expense.description := Expense.description e;
     Expense.tags := Expense.tags e;
     Expense.is_recurring := Expense.is_recurring e;
     Expense.recurring_type := Expense.recurring_type e;
     Expense.recurring_action := Expense.recurring_action e;
     Expense.next_due_date := option_map on_day (Expense.next_due_date e);
     Expense.last_recurring_date :=
       option_map on_day (Expense.last_recurring_date e);
     Expense.recurring_parent_id := Expense.recurring_parent_id e;
     Expense.is_deleted := Expense.is_deleted e;
     Expense.deleted_at := option_map on_stamp (Expense.deleted_at e);
     Expense.created_at := on_stamp (Expense.created_at e);
     Expense.updated_at := on_stamp (Expense.updated_at e) |}.

(** What a round trip through the row gives back. *)
Definition stored (e : Expense.t) : Expense.t :=
  with_instants day_only whole_second e.

(** The record with only the day-printed fields brought to day precision. *)
Definition day_normalized (e : Expense.t) : Expense.t :=
  with_instants day_only (fun dt => dt) e.

(** Severity order of the statuses. *)
Definition severity (s : BudgetManager.BudgetStatus) : Z :=
  match s with
  | BudgetManager.UNDER_BUDGET => 0
  | BudgetManager.WARNING => 1
  | BudgetManager.CRITICAL => 2
  | BudgetManager.OVER_BUDGET => 3
  end.

(** Length of a budget period in months, as [period_end] reads
    [period_type]. *)
Definition period_months (b : Budget.t) : Z :=
  if String.eqb (Budget.period_type b) "monthly" then 1
  else if String.eqb (Budget.period_type b) "quarterly" then 3
  else if String.eqb (Budget.period_type b) "yearly" then 12
  else 1.

(** The last day of the month of index [i]. *)
Definition last_day_of_month (i : Z) : Calendar.date :=
  mkdate (i / 12) (i mod 12 + 1) (days_in_month (i / 12) (i mod 12 + 1)).

(** The budgets the stored row can hold. *)
Definition budget_storable (b : Budget.t) : bool :=
  negb (Text.is_empty (Budget.budget_id b))
  && printable (Budget.period_start b)
  && printable (Budget.created_at b)
  && printable (Budget.updated_at b).

(** What a round trip through the stored row gives back: the start of the
    period as a day, the timestamps to the second, and the runtime fields
    reset. *)
Definition budget_stored (b : Budget.t) : Budget.t :=
  {| Budget.category := Budget.category b;
     Budget.amount := Budget.amount b;
     Budget.period_type := Budget.period_type b;
     Budget.period_start := day_only (Budget.period_start b);
     Budget.budget_id := Budget.budget_id b;
     Budget.subcategory := Budget.subcategory b;
     Budget.warning_threshold := Budget.warning_threshold b;
     Budget.critical_threshold := Budget.critical_threshold b;
     Budget.rollover_enabled := Budget.rollover_enabled b;
     Budget.rollover_cap_percent := Budget.rollover_cap_percent b;
     Budget.previous_rollover := Budget.previous_rollover b;
     Budget.notes := Budget.notes b;
     Budget.is_active := Budget.is_active b;
     Budget.spent := 0;
     Budget.rollover_amount := 0;
     Budget.allow_rollover := Budget.rollover_enabled b;
     Budget.created_at := whole_second (Budget.created_at b);
     Budget.updated_at := whole_second (Budget.updated_at b) |}.

(** The day-first reading of the text that writes the day [dt] month-first:
    the month and the day change places, when that is a date. *)
Definition swapped (dt : datetime) : datetime :=
  mkdt (mkdate (year (dt_date dt)) (day (dt_date dt)) (month (dt_date dt)))
       midnight.

(** What one item, a key with the amount it carries, does to a grouping
    dictionary. *)
Definition entry_step {K : Type} (eqb : K -> K -> bool)
  (d : list (K * ReportGenerator.group)) (p : K * Q)
  : list (K * ReportGenerator.group) :=
  Py.upd eqb (fst p) ReportGenerator.add_count ReportGenerator.group0
    (Py.upd eqb (fst p) (ReportGenerator.add_amount (snd p))
       ReportGenerator.group0 d).

(** The group that the items of key [k] add up to. *)
Definition items_of {K : Type} (eqb : K -> K -> bool) (k : K)
  (items : list (K * Q)) : list Q :=
  map snd (filter (fun p => eqb (fst p) k) items).

(** The weekday of each record with its amount. *)
Definition weekday_items (expenses : list Expense.t) : list (Z * Q) :=
  map (fun e => (weekday (dt_date (Expense.date e)), Expense.amount e))
      expenses.


Definition Zsum (l : list Z) : Z := fold_right Z.add 0%Z l.

(** The active budgets that the manager gives the status [s]. *)
Definition with_status (now : datetime) (self : BudgetManager.t)
  (s : BudgetManager.BudgetStatus) : list Budget.t :=
  filter (fun b => (severity (fst (BudgetManager.get_budget_status b self))
                    =? severity s)%Z)
         (fst (BudgetManager.get_active_budgets now self)).

(** The records that [get_subcategory_breakdown] looks at. *)
Definition in_category (category : option string) (expenses : list Expense.t)
  : list Expense.t :=
  match category with
  | Some c =>
      if Text.is_empty c then expenses
      else filter (fun e => String.eqb (Expense.category e) c) expenses
  | None => expenses
  end.



(** What is left of a budget after [spent]: its amount, with the rollover of
    the previous period added when rollover is enabled, less [spent]. *)
Definition remaining_after (b : Budget.t) (spent : Q) : Q :=
  (if Budget.rollover_enabled b
   then Budget.amount b + Budget.previous_rollover b
   else Budget.amount b) - spent.

(** The most that is carried over, as the code forms it: the amount times
    the hundredth part of the cap percentage.  In binary floating point this
    product need not be the same number as amount * cap / 100. *)
Definition rollover_cap (b : Budget.t) : Q :=
  Budget.amount b * (Budget.rollover_cap_percent b / 100).

End Spec.

(** ** Sample data used by the counterexamples and the instances *)

Module Sample.

Local Open Scope Q_scope.

Definition status_example : Budget.t :=
  {| Budget.category := "Supplies";
     Budget.amount := 1000;
     Budget.period_type := "monthly";
     Budget.period_start := mkdt (mkdate 2026 11 1) midnight;
     Budget.budget_id := "b1";
     Budget.subcategory := "";
     Budget.warning_threshold := 50;
     Budget.critical_threshold := 95;
     Budget.rollover_enabled := false;
     Budget.rollover_cap_percent := 50;
     Budget.previous_rollover := 0;
     Budget.notes := "";
     Budget.is_active := true;
     Budget.spent := 600;
     Budget.rollover_amount := 0;
     Budget.allow_rollover := false;
     Budget.created_at := mkdt (mkdate 2026 11 1) midnight;
     Budget.updated_at := mkdt (mkdate 2026 11 1) midnight |}.

Definition now0 : datetime := mkdt (mkdate 2026 11 4) (mktime 9 0 0 0).

(** An expense made at 10:30:00.000500 on day [d]. *)
Definition expense (a : Q) (d : Calendar.date) (c v p : string)
  (deleted recurring : bool) : Expense.t :=
  {| Expense.amount := a;
     Expense.date := mkdt d (mktime 10 30 0 500);
     Expense.category := c;
     Expense.vendor := v;
     Expense.payment_method := p;
     Expense.expense_id := "e1";
     Expense.subcategory := "";
     Expense.description := "";
     Expense.tags := [];
     Expense.is_recurring := recurring;
     Expense.recurring_type := if recurring then Some "monthly"%string else None;
     Expense.recurring_action :=
       if recurring then Some "reminder"%string else None;
     Expense.next_due_date := None;
     Expense.last_recurring_date := None;
     Expense.recurring_parent_id := None;
     Expense.is_deleted := deleted;
     Expense.deleted_at := None;
     Expense.created_at := mkdt d (mktime 10 30 0 500);
     Expense.updated_at := mkdt d (mktime 10 30 0 500) |}.

(** A monthly budget of 1000 for November 2026 with 750 spent. *)
Definition budget75 : Budget.t :=
  {| Budget.category := "Supplies";
     Budget.amount := 1000;
     Budget.period_type := "monthly";
     Budget.period_start := mkdt (mkdate 2026 11 1) midnight;
     Budget.budget_id := "b75";
     Budget.subcategory := "";
     Budget.warning_threshold := 80;
     Budget.critical_threshold := 95;
     Budget.rollover_enabled := true;
     Budget.rollover_cap_percent := 50;
     Budget.previous_rollover := 0;
     Budget.notes := "";
     Budget.is_active := true;
     Budget.spent := 750;
     Budget.rollover_amount := 0;
     Budget.allow_rollover := true;
     Budget.created_at := mkdt (mkdate 2026 11 1) midnight;
     Budget.updated_at := mkdt (mkdate 2026 11 1) midnight |}.

Definition recorded_750 : list Expense.t :=
  [ expense 500 (mkdate 2026 11 1) "Supplies" "Vendor A" "Cash" false false;
    expense 250 (mkdate 2026 11 2) "Supplies" "Vendor B" "Cash" false false ].

Definition candidate_70 : Expense.t :=
  expense 70 (mkdate 2026 11 4) "Supplies" "Vendor A" "Cash" false false.

(** One soft-deleted record. *)
Definition one_deleted : list Expense.t :=
  [ expense 100 (mkdate 2026 11 2) "Supplies" "Vendor A" "Cash" true false ].

(** A recurring, soft-deleted record with tags and every optional instant
    set; its timestamps carry microseconds. *)
Definition stamped : Expense.t :=
  {| Expense.amount := 2500;
     Expense.date := mkdt (mkdate 2026 10 15) (mktime 14 5 9 0);
     Expense.category := "Facilities";
     Expense.vendor := "Landlord";
     Expense.payment_method := "Bank Transfer";
     Expense.expense_id := "e-2026-10-15";
     Expense.subcategory := "Rent";
     Expense.description := "October rent";
     Expense.tags := ["rent"; "fixed cost"]%string;
     Expense.is_recurring := true;
     Expense.recurring_type := Some "monthly"%string;
     Expense.recurring_action := Some "reminder"%string;
     Expense.next_due_date := Some (mkdt (mkdate 2026 11 15) (mktime 8 0 0 0));
     Expense.last_recurring_date := None;
     Expense.recurring_parent_id := None;
     Expense.is_deleted := true;
     Expense.deleted_at :=
       Some (mkdt (mkdate 2026 10 20) (mktime 9 30 1 250000));
     Expense.created_at := mkdt (mkdate 2026 10 15) (mktime 14 5 9 123456);
     Expense.updated_at := mkdt (mkdate 2026 10 20) (mktime 9 30 1 250000) |}.

(** A record of 100 on the last day of November 2026, at 10:30. *)
Definition last_day_expense : Expense.t :=
  expense 100 (mkdate 2026 11 30) "Supplies" "Vendor A" "Cash" false false.

(** The budget that follows [budget75]: December 2026, nothing spent. *)
Definition december : Budget.t :=
  {| Budget.category := "Supplies";
     Budget.amount := 1000;
     Budget.period_type := "monthly";
     Budget.period_start := mkdt (mkdate 2026 12 1) midnight;
     Budget.budget_id := "b-dec";
     Budget.subcategory := "";
     Budget.warning_threshold := 80;
     Budget.critical_threshold := 95;
     Budget.rollover_enabled := true;
     Budget.rollover_cap_percent := 50;
     Budget.previous_rollover := 0;
     Budget.notes := "";
     Budget.is_active := true;
     Budget.spent := 0;
     Budget.rollover_amount := 0;
     Budget.allow_rollover := true;
     Budget.created_at := mkdt (mkdate 2026 11 1) midnight;
     Budget.updated_at := mkdt (mkdate 2026 11 1) midnight |}.




(** [budget75] with a cap percentage of -10, which [validate_budget]
    refuses and the constructor accepts. *)
Definition negative_cap : Budget.t :=
  {| Budget.category := "Supplies";
     Budget.amount := 1000;
     Budget.period_type := "monthly";
     Budget.period_start := mkdt (mkdate 2026 11 1) midnight;
     Budget.budget_id := "b75";
     Budget.subcategory := "";
     Budget.warning_threshold := 80;
     Budget.critical_threshold := 95;
     Budget.rollover_enabled := true;
     Budget.rollover_cap_percent := -(10);
     Budget.previous_rollover := 0;
     Budget.notes := "";
     Budget.is_active := true;
     Budget.spent := 750;
     Budget.rollover_amount := 0;
     Budget.allow_rollover := true;
     Budget.created_at := mkdt (mkdate 2026 11 1) midnight;
     Budget.updated_at := mkdt (mkdate 2026 11 1) midnight |}.

(** [budget75] with 250 spent. *)
Definition spent_250 : Budget.t := BudgetManager.set_spent budget75 250.

End Sample.

(** * Properties *)

(** ** Calling the summary constructor *)

Section BasicStats.

Variables np_mean np_median np_std : list Q -> Q.

(** The constructor used by the sibling path [StatisticalSummary.empty]
    accepts its arguments and yields the all-zero summary. *)
Lemma empty_summary_all_zero (start end_ : datetime) :
  exists s, StatisticalSummary.empty start end_ = Ok s
            /\ StatisticalSummary.all_zero s = true.
Proof.
  eexists. split; reflexivity.
Qed.

Lemma basic_stats_type_error (expenses : list Expense.t) :
  ReportGenerator.calculate_basic_stats np_mean np_median np_std expenses
  = Raise (TypeError
             "__init__() got an unexpected keyword argument: category_totals").
Proof.
  destruct expenses as [|e0 rest]; reflexivity.
Qed.

(** The monthly report asks for the summary first, so it fails the same
    way on every input. *)
Lemma monthly_report_type_error (fuel : nat) (now : datetime)
  (expenses : list Expense.t) (budgets : list Budget.t)
  (month : option datetime) :
  ReportGenerator.generate_monthly_report np_mean np_median np_std fuel now
    expenses budgets month
  = Some (Raise (TypeError
                   "__init__() got an unexpected keyword argument: category_totals")).
Proof.
  unfold ReportGenerator.generate_monthly_report. cbv zeta.
  now rewrite basic_stats_type_error.
Qed.

(** C1 (code defect).  [calculate_basic_stats] never returns a summary:
    on every list, the empty one included, the call of the
    [StatisticalSummary] constructor is rejected with a [TypeError],
    because [category_totals] names no field of the dataclass. *)
Theorem C1_calculate_basic_stats_raises (expenses : list Expense.t) :
  ReportGenerator.calculate_basic_stats np_mean np_median np_std expenses
  = Raise (TypeError
             "__init__() got an unexpected keyword argument: category_totals").
Proof.
  apply basic_stats_type_error.
Qed.

End BasicStats.

(** ** Monthly estimate of recurring expenses *)

Lemma estimate_fold_raise (l : list Expense.t) (e : exn) :
  fold_left (fun acc expense => m <- acc ;; ReportGenerator.estimate_step m expense)
            l (Raise e) = Raise e.
Proof.
  induction l as [|x l IH]; simpl; auto.
Qed.

Lemma estimate_step_raises (m : Q) (e : Expense.t) :
  ReportGenerator.estimate_step m e = Raise (AttributeError "recurring_frequency").
Proof.
  reflexivity.
Qed.

(** C9 (code defect).  [estimate_monthly_recurring] reads the attribute
    [recurring_frequency], which an expense does not have (the field is
    [recurring_type]): as soon as the list holds one active recurring
    expense the call raises [AttributeError]; otherwise it returns 0. *)
Theorem C9_estimate_monthly_recurring_raises (expenses : list Expense.t) :
  ReportGenerator.estimate_monthly_recurring expenses
  = if existsb Spec.active_recurring expenses
    then Raise (AttributeError "recurring_frequency")
    else Ok 0%Q.
Proof.
  unfold ReportGenerator.estimate_monthly_recurring.
  induction expenses as [|e l IH]; simpl; [reflexivity|].
  fold (Spec.active_recurring e).
  destruct (Spec.active_recurring e) eqn:He; simpl.
  - rewrite estimate_step_raises. apply estimate_fold_raise.
  - exact IH.
Qed.

(** ** Comparisons of amounts *)

Lemma Qle_bool_false (a b : Q) : Qle_bool a b = false -> (b < a)%Q.
Proof.
  intros H. apply Qnot_le_lt. intros Hle.
  apply Qle_bool_iff in Hle. congruence.
Qed.

Lemma Qlt_bool_true (a b : Q) : Qlt_bool a b = true -> (a < b)%Q.
Proof.
  unfold Qlt_bool. intros H. apply negb_true_iff in H.
  now apply Qle_bool_false.
Qed.

Lemma Qlt_bool_false (a b : Q) : Qlt_bool a b = false -> (b <= a)%Q.
Proof.
  unfold Qlt_bool. intros H. apply negb_false_iff in H.
  now apply Qle_bool_iff.
Qed.

Lemma Qlt_bool_iff (a b : Q) : Qlt_bool a b = true <-> (a < b)%Q.
Proof.
  split; [apply Qlt_bool_true|].
  intros H. destruct (Qlt_bool a b) eqn:E; [reflexivity|].
  apply Qlt_bool_false in E. exfalso. apply (Qlt_not_le _ _ H E).
Qed.

(** Turns boolean comparisons of amounts in the context into propositions. *)
Ltac qprop :=
  repeat match goal with
    | H : Qle_bool _ _ = true |- _ => apply Qle_bool_iff in H
    | H : Qle_bool _ _ = false |- _ => apply Qle_bool_false in H
    | H : Qlt_bool _ _ = true |- _ => apply Qlt_bool_true in H
    | H : Qlt_bool _ _ = false |- _ => apply Qlt_bool_false in H
    end.

Lemma Qlt_bool_compat (a b a' b' : Q) :
  (a == a')%Q -> (b == b')%Q -> Qlt_bool a b = Qlt_bool a' b'.
Proof.
  intros Ha Hb. unfold Qlt_bool. now rewrite Ha, Hb.
Qed.

Lemma py_min_is_Qmin (a b : Q) : (Budget.py_min a b == Qmin a b)%Q.
Proof.
  unfold Budget.py_min. destruct (Qlt_bool b a) eqn:E; qprop.
  - symmetry. apply Q.min_r. now apply Qlt_le_weak.
  - symmetry. now apply Q.min_l.
Qed.

(** ** Budget status *)

Section BudgetStatus.

Import BudgetManager.
Local Open Scope Q_scope.

(** What [get_budget_status] computes.  The status of a budget is decided
    by the manager-wide thresholds, not by the thresholds stored in the
    budget: with warning <= critical <= 100 on the manager and
    percentage = spent/amount*100, a budget with amount > 0 is
    UNDER_BUDGET iff percentage < warning, WARNING iff
    warning <= percentage < critical, CRITICAL iff
    critical <= percentage < 100 and OVER_BUDGET iff percentage >= 100; a
    budget with amount <= 0 is UNDER_BUDGET; the manager is unchanged. *)
Lemma status_by_manager_thresholds (self : BudgetManager.t)
  (budget : Budget.t)
  (Hwc : warning_threshold self <= critical_threshold self)
  (Hc : critical_threshold self <= 100) :
  let status := fst (get_budget_status budget self) in
  let percentage := Budget.spent budget / Budget.amount budget * 100 in
  snd (get_budget_status budget self) = self
  /\ (Budget.amount budget <= 0 -> status = UNDER_BUDGET)
  /\ (0 < Budget.amount budget ->
      (status = UNDER_BUDGET <-> percentage < warning_threshold self)
      /\ (status = WARNING <->
          warning_threshold self <= percentage
          /\ percentage < critical_threshold self)
      /\ (status = CRITICAL <->
          critical_threshold self <= percentage /\ percentage < 100)
      /\ (status = OVER_BUDGET <-> 100 <= percentage)).
Proof.
  cbv zeta.
  unfold get_budget_status, mbind, read, ret, Budget.get_used_percentage.
  set (p := Budget.spent budget / Budget.amount budget * 100).
  clearbody p.
  destruct (Qle_bool (Budget.amount budget) 0) eqn:Ea; simpl.
  - qprop. split; [reflexivity|]. split; [reflexivity|].
    intros Hpos. exfalso. apply (Qlt_not_le _ _ Hpos Ea).
  - qprop.
    destruct (Qle_bool 100 p) eqn:E1; simpl;
      [|destruct (Qle_bool (critical_threshold self) p) eqn:E2; simpl;
        [|destruct (Qle_bool (warning_threshold self) p) eqn:E3; simpl]];
      qprop;
      (split; [reflexivity|]);
      (split; [intros Hle; exfalso; apply (Qlt_not_le _ _ Ea Hle)|]);
      intros _; repeat split; intros;
      repeat match goal with H : _ /\ _ |- _ => destruct H end;
      try discriminate; try lra; exfalso; lra.
Qed.

End BudgetStatus.

Section BudgetStatusInstances.

Import BudgetManager.
Local Open Scope Q_scope.

Lemma status_by_manager_thresholds_instance :
  warning_threshold (init []) <= critical_threshold (init [])
  /\ critical_threshold (init []) <= 100
  /\ (fst (get_budget_status Sample.status_example (init [])) = UNDER_BUDGET
      <-> Budget.spent Sample.status_example
          / Budget.amount Sample.status_example * 100
          < warning_threshold (init [])).
Proof.
  assert (H1 : warning_threshold (init []) <= critical_threshold (init []))
    by (unfold Qle; simpl; lia).
  assert (H2 : critical_threshold (init []) <= 100)
    by (unfold Qle; simpl; lia).
  split; [exact H1|]. split; [exact H2|].
  destruct (status_by_manager_thresholds (init []) Sample.status_example
              H1 H2) as (_ & _ & H).
  apply H. unfold Qlt; simpl; lia.
Defined.

(** Reading the thresholds off the budget does not describe
    [get_budget_status]: a budget whose own warning threshold is 50 and
    whose usage is 60% is not reported as WARNING. *)
Lemma own_thresholds_do_not_decide :
  ~ (forall (self : BudgetManager.t) (budget : Budget.t),
        0 < Budget.amount budget ->
        (fst (get_budget_status budget self) = WARNING
         <-> Budget.warning_threshold budget
             <= Budget.spent budget / Budget.amount budget * 100
             /\ Budget.spent budget / Budget.amount budget * 100
                < Budget.critical_threshold budget)).
Proof.
  intros H.
  specialize (H (init []) Sample.status_example).
  destruct H as [_ H]; [unfold Qlt; simpl; lia|].
  assert (E : fst (get_budget_status Sample.status_example (init [])) = WARNING).
  { apply H. split; [unfold Qle|unfold Qlt]; simpl; lia. }
  vm_compute in E. discriminate E.
Qed.

(** C3, at the failing input.  The manager as [__init__] sets it up holds
    the thresholds 80 and 95.  A budget of 1000 with 600 spent, whose own
    warning and critical thresholds are 50 and 95, is at 60 percent: at or
    above its own warning threshold and below its own critical threshold.
    [get_budget_status] answers [UNDER_BUDGET] for it, not [WARNING], and
    answers the same for every budget of this amount and spend whatever
    thresholds it carries: the thresholds of the budget are not read. *)
Theorem C3_status_ignores_own_thresholds :
  let self := init [Sample.status_example] in
  let budget := Sample.status_example in
  warning_threshold self == 80 /\ critical_threshold self == 95
  /\ Budget.get_used_percentage budget == 60
  /\ Budget.warning_threshold budget <= Budget.get_used_percentage budget
  /\ Budget.get_used_percentage budget < Budget.critical_threshold budget
  /\ fst (get_budget_status budget self) = UNDER_BUDGET
  /\ (forall other : Budget.t,
        Budget.amount other = Budget.amount budget ->
        Budget.spent other = Budget.spent budget ->
        fst (get_budget_status other self) = UNDER_BUDGET).
Proof.
  cbv zeta.
  split; [reflexivity|]. split; [reflexivity|].
  split; [vm_compute; reflexivity|].
  split; [vm_compute; discriminate|].
  split; [vm_compute; reflexivity|].
  split; [vm_compute; reflexivity|].
  intros other Ha Hs.
  unfold get_budget_status, mbind, read, ret, Budget.get_used_percentage.
  rewrite Ha, Hs. vm_compute. reflexivity.
Qed.

End BudgetStatusInstances.

(** ** Spending of a budget and threshold crossing *)

Section Spending.

Import BudgetManager.
Local Open Scope Q_scope.

Lemma spent_step_counts (budget : Budget.t) (total : Q) (e : Expense.t) :
  spent_step budget total e
  = if Spec.counts_for budget e then total + Expense.amount e else total.
Proof.
  unfold spent_step, Spec.counts_for.
  destruct (Expense.is_deleted e); simpl; [reflexivity|].
  destruct (String.eqb (Expense.category e) (Budget.category budget)); simpl;
    [|reflexivity].
  reflexivity.
Qed.

Lemma spent_fold (budget : Budget.t) (expenses : list Expense.t) (total : Q) :
  fold_left (spent_step budget) expenses total
  = fold_left Qplus
      (map Expense.amount (filter (Spec.counts_for budget) expenses)) total.
Proof.
  revert total.
  induction expenses as [|e l IH]; intros total; simpl; [reflexivity|].
  rewrite spent_step_counts.
  destruct (Spec.counts_for budget e); simpl; apply IH.
Qed.

Lemma calculate_spent_sum (self : BudgetManager.t) (budget : Budget.t)
  (expenses : list Expense.t) :
  calculate_spent budget expenses self
  = (ReportGenerator.sum
       (map Expense.amount (filter (Spec.counts_for budget) expenses)), self).
Proof.
  unfold calculate_spent, ret, ReportGenerator.sum.
  rewrite spent_fold. reflexivity.
Qed.

(** C6.  [calculate_spent] returns the sum of the amounts of the active
    expenses of the budget's category dated, time of day dropped, within
    [period_start, period_end] inclusive; it leaves the manager as it was,
    and a second call returns the same amount. *)
Theorem C6_calculate_spent (self : BudgetManager.t) (budget : Budget.t)
  (expenses : list Expense.t) :
  calculate_spent budget expenses self
  = (ReportGenerator.sum
       (map Expense.amount (filter (Spec.counts_for budget) expenses)), self)
  /\ mbind (calculate_spent budget expenses)
       (fun first => mbind (calculate_spent budget expenses)
                       (fun second => ret (first, second))) self
     = ((fst (calculate_spent budget expenses self),
         fst (calculate_spent budget expenses self)), self).
Proof.
  unfold mbind, ret. rewrite !calculate_spent_sum. split; reflexivity.
Qed.

End Spending.

Section ThresholdCrossing.

Import BudgetManager.
Local Open Scope Q_scope.









End ThresholdCrossing.

(** ** Rollover *)

Section Rollover.

Local Open Scope Q_scope.

Lemma capped_rollover (remaining max_rollover : Q) :
  Budget.py_min remaining max_rollover == Qmin remaining max_rollover
  /\ (Budget.py_min remaining max_rollover = remaining
      \/ Budget.py_min remaining max_rollover = max_rollover)
  /\ Budget.py_min remaining max_rollover <= remaining
  /\ Budget.py_min remaining max_rollover <= max_rollover.
Proof.
  unfold Budget.py_min.
  destruct (Qlt_bool max_rollover remaining) eqn:E; qprop.
  - split; [symmetry; apply Q.min_r; lra|].
    split; [right; reflexivity|]. split; lra.
  - split; [symmetry; apply Q.min_l; lra|].
    split; [left; reflexivity|]. split; lra.
Qed.

Lemma rollover_cap_nonneg (budget : Budget.t) :
  0 <= Budget.amount budget -> 0 <= Budget.rollover_cap_percent budget ->
  0 <= Spec.rollover_cap budget.
Proof.
  intros Ha Hc. unfold Spec.rollover_cap.
  apply Qmult_le_0_compat; [exact Ha|].
  apply Qle_shift_div_l; [reflexivity|]. ring_simplify. exact Hc.
Qed.

Lemma rollover_unfold (budget : Budget.t) (spent : Q) :
  Budget.rollover_enabled budget = true ->
  Budget.calculate_rollover budget spent
  = if Qle_bool (Spec.remaining_after budget spent) 0 then 0
    else Budget.py_min (Spec.remaining_after budget spent)
                       (Spec.rollover_cap budget).
Proof.
  intros He.
  unfold Budget.calculate_rollover, Budget.effective_budget,
    Spec.remaining_after, Spec.rollover_cap.
  rewrite He. reflexivity.
Qed.

(** C5 (as amended).  [Budget.calculate_rollover] returns 0 when rollover
    is disabled or nothing remains, where what remains is the amount, with
    the previous rollover added when rollover is enabled, less the amount
    spent.  Otherwise it returns the smaller of what remains and the cap
    [amount * (rollover_cap_percent / 100)], formed in this order, and the
    result is one of the two.  The result is never above the cap once
    something remains and rollover is enabled; for a budget whose amount
    and cap percentage are not negative it is never negative and never above
    the cap. *)
Theorem C5_rollover_capped (budget : Budget.t) (spent : Q) :
  let rollover := Budget.calculate_rollover budget spent in
  let remaining := Spec.remaining_after budget spent in
  let max_rollover := Spec.rollover_cap budget in
  (Budget.rollover_enabled budget = false \/ remaining <= 0 -> rollover = 0)
  /\ (Budget.rollover_enabled budget = true -> 0 < remaining ->
      rollover == Qmin remaining max_rollover
      /\ (rollover = remaining \/ rollover = max_rollover)
      /\ rollover <= remaining
      /\ rollover <= max_rollover)
  /\ (0 <= Budget.amount budget ->
      0 <= Budget.rollover_cap_percent budget ->
      0 <= rollover /\ rollover <= max_rollover).
Proof.
  cbv zeta. split; [|split].
  - intros [H|H].
    + unfold Budget.calculate_rollover. rewrite H. reflexivity.
    + destruct (Budget.rollover_enabled budget) eqn:He.
      * rewrite (rollover_unfold budget spent He).
        apply Qle_bool_iff in H. rewrite H. reflexivity.
      * unfold Budget.calculate_rollover. rewrite He. reflexivity.
  - intros He Hr. rewrite (rollover_unfold budget spent He).
    destruct (Qle_bool (Spec.remaining_after budget spent) 0) eqn:E; qprop;
      [exfalso; lra|].
    apply capped_rollover.
  - intros Ha Hc.
    pose proof (rollover_cap_nonneg budget Ha Hc) as Hmax.
    destruct (Budget.rollover_enabled budget) eqn:He.
    + rewrite (rollover_unfold budget spent He).
      destruct (Qle_bool (Spec.remaining_after budget spent) 0) eqn:E; qprop;
        [split; [lra|exact Hmax]|].
      destruct (capped_rollover (Spec.remaining_after budget spent)
                  (Spec.rollover_cap budget)) as (_ & [Hmin|Hmin] & _ & Hle).
      * rewrite Hmin in *. split; lra.
      * rewrite Hmin in *. split; lra.
    + unfold Budget.calculate_rollover. rewrite He. simpl.
      split; [lra|exact Hmax].
Qed.

Lemma C5_rollover_witness :
  Budget.rollover_enabled Sample.budget75 = true
  /\ 0 < Spec.remaining_after Sample.budget75 750
  /\ 0 <= Budget.amount Sample.budget75
  /\ 0 <= Budget.rollover_cap_percent Sample.budget75
  /\ Budget.calculate_rollover Sample.budget75 750
     == Qmin (Spec.remaining_after Sample.budget75 750)
             (Spec.rollover_cap Sample.budget75)
  /\ 0 <= Budget.calculate_rollover Sample.budget75 750
  /\ Budget.calculate_rollover Sample.budget75 750
     <= Spec.rollover_cap Sample.budget75.
Proof.
  assert (He : Budget.rollover_enabled Sample.budget75 = true)
    by reflexivity.
  assert (Hr : 0 < Spec.remaining_after Sample.budget75 750)
    by (vm_compute; reflexivity).
  assert (Ha : 0 <= Budget.amount Sample.budget75)
    by (unfold Qle; simpl; lia).
  assert (Hc : 0 <= Budget.rollover_cap_percent Sample.budget75)
    by (unfold Qle; simpl; lia).
  split; [exact He|]. split; [exact Hr|].
  split; [exact Ha|]. split; [exact Hc|].
  split.
  - exact (proj1 (proj1 (proj2 (C5_rollover_capped Sample.budget75 750))
                    He Hr)).
  - exact (proj2 (proj2 (C5_rollover_capped Sample.budget75 750)) Ha Hc).
Defined.

(** The manager's [calculate_rollover] reads the flag [allow_rollover],
    takes what remains from the stored [spent], and caps by its argument,
    not by the cap percentage of the budget; the manager is unchanged. *)
Lemma manager_rollover_by_argument (self : BudgetManager.t)
  (budget : Budget.t) (cap : Q) :
  let rollover := fst (BudgetManager.calculate_rollover budget cap self) in
  let remaining := Spec.remaining_after budget (Budget.spent budget) in
  (Budget.allow_rollover budget = false \/ remaining <= 0 -> rollover = 0)
  /\ (Budget.allow_rollover budget = true -> 0 < remaining ->
      rollover == Qmin remaining (Budget.amount budget * (cap / 100)))
  /\ snd (BudgetManager.calculate_rollover budget cap self) = self.
Proof.
  cbv zeta.
  assert (Hrem : Budget.get_remaining budget
                 = Spec.remaining_after budget (Budget.spent budget))
    by reflexivity.
  unfold BudgetManager.calculate_rollover, BudgetManager.ret.
  rewrite Hrem. split; [|split].
  - intros [H|H].
    + rewrite H. reflexivity.
    + destruct (negb (Budget.allow_rollover budget)); [reflexivity|].
      apply Qle_bool_iff in H. rewrite H. reflexivity.
  - intros He Hr. rewrite He. simpl.
    destruct (Qle_bool (Spec.remaining_after budget (Budget.spent budget)) 0)
      eqn:E; qprop; [exfalso; lra|].
    simpl. apply capped_rollover.
  - destruct (negb (Budget.allow_rollover budget)); [reflexivity|].
    destruct (Qle_bool (Spec.remaining_after budget (Budget.spent budget)) 0);
      reflexivity.
Qed.

(** With 750 remaining of an amount of 1000 and the default argument 100
    the manager carries over 750, above the 500 that the budget's own cap
    percentage of 50 allows. *)
Example manager_rollover_above_own_cap :
  fst (BudgetManager.calculate_rollover Sample.spent_250 100
         (BudgetManager.init [])) == 750
  /\ Budget.calculate_rollover Sample.spent_250 250 == 500.
Proof. split; vm_compute; reflexivity. Qed.

End Rollover.

Section RolloverBounds.

Import PrimFloat.

(** C5 (as stated) fails in two ways.  The result can be negative: the
    constructor accepts a cap percentage of -10, and with 250 remaining of
    an amount of 1000 the rollover is the cap, -100.  And the result can
    exceed amount * rollover_cap_percent / 100: over binary64, with an
    amount of 1500, a cap percentage of 7 and nothing spent, the rollover is
    the cap [1500 * (7 / 100)], which is above [1500 * 7 / 100]. *)
Lemma C5_rollover_bounds_counterexample :
  Budget.rollover_enabled Sample.negative_cap = true
  /\ (Spec.remaining_after Sample.negative_cap 750 == 250)%Q
  /\ (Budget.calculate_rollover Sample.negative_cap 750 == -(100))%Q
  /\ (Budget.calculate_rollover Sample.negative_cap 750 < 0)%Q
  /\ (Binary64.calculate_rollover true 1500 0 7 0 = 1500 * (7 / 100))%float
  /\ (1500 * 7 / 100 <? Binary64.calculate_rollover true 1500 0 7 0)%float
     = true.
Proof.
  split; [reflexivity|].
  split; [vm_compute; reflexivity|].
  split; [vm_compute; reflexivity|].
  split; [vm_compute; reflexivity|].
  split; vm_compute; reflexivity.
Qed.

End RolloverBounds.

(** ** Soft-deleted records *)

Section ListFusion.

Context {A B C : Type}.

Lemma fold_left_map_fuse (f : C -> B -> C) (g : A -> B) (l : list A) (c : C) :
  fold_left f (map g l) c = fold_left (fun c a => f c (g a)) l c.
Proof.
  revert c. induction l as [|a l IH]; intros c; simpl; [reflexivity|apply IH].
Qed.

Lemma filter_map_fuse (p : B -> bool) (g : A -> B) (l : list A) :
  filter p (map g l) = map g (filter (fun a => p (g a)) l).
Proof.
  induction l as [|a l IH]; simpl; [reflexivity|].
  destruct (p (g a)); simpl; now rewrite IH.
Qed.

End ListFusion.

Lemma fold_left_pointwise {A C : Type} (f g : C -> A -> C)
  (H : forall c a, f c a = g c a) (l : list A) (c : C) :
  fold_left f l c = fold_left g l c.
Proof.
  revert c. induction l as [|a l IH]; intros c; simpl; [reflexivity|].
  rewrite H. apply IH.
Qed.

Lemma filter_filter_and {A : Type} (p q : A -> bool) (l : list A) :
  filter p (filter q l) = filter (fun a => p a && q a) l.
Proof.
  induction l as [|a l IH]; simpl; [reflexivity|].
  destruct (q a); simpl.
  - rewrite andb_true_r. destruct (p a); now rewrite IH.
  - rewrite andb_false_r. exact IH.
Qed.

Section SoftDelete.

Import ReportGenerator.
Variable np_percentile : list Q -> Q -> Q.

Lemma tally_reflagged (key : Expense.t -> string) (flags : Expense.t -> bool)
  (Hkey : forall e, key (Spec.reflag (flags e) e) = key e)
  (l : list Expense.t) (data : list (string * group)) :
  fold_left (tally key) (Spec.reflagged flags l) data
  = fold_left (tally key) l data.
Proof.
  unfold Spec.reflagged. rewrite fold_left_map_fuse.
  apply fold_left_pointwise. intros d e. unfold tally. rewrite Hkey. reflexivity.
Qed.

Lemma filter_reflagged (p : Expense.t -> bool) (flags : Expense.t -> bool)
  (Hp : forall e, p (Spec.reflag (flags e) e) = p e) (l : list Expense.t) :
  filter p (Spec.reflagged flags l) = Spec.reflagged flags (filter p l).
Proof.
  unfold Spec.reflagged. rewrite filter_map_fuse.
  f_equal. apply filter_ext. exact Hp.
Qed.

Lemma reflagged_nil_iff (flags : Expense.t -> bool) (l : list Expense.t) :
  Spec.reflagged flags l = [] <-> l = [].
Proof.
  destruct l; simpl; split; intros H; try reflexivity; discriminate.
Qed.

Lemma category_breakdown_reflagged (flags : Expense.t -> bool)
  (l : list Expense.t) :
  get_category_breakdown (Spec.reflagged flags l) = get_category_breakdown l.
Proof.
  destruct l as [|e l]; [reflexivity|].
  unfold get_category_breakdown.
  change (Spec.reflagged flags (e :: l))
    with (Spec.reflag (flags e) e :: Spec.reflagged flags l).
  cbv iota. change (Spec.reflag (flags e) e :: Spec.reflagged flags l)
    with (Spec.reflagged flags (e :: l)).
  unfold Spec.reflagged. rewrite fold_left_map_fuse. reflexivity.
Qed.

Lemma top_vendors_reflagged (flags : Expense.t -> bool) (l : list Expense.t)
  (n : Z) :
  get_top_vendors (Spec.reflagged flags l) n = get_top_vendors l n.
Proof.
  destruct l as [|e l]; [reflexivity|].
  unfold get_top_vendors.
  change (Spec.reflagged flags (e :: l))
    with (Spec.reflag (flags e) e :: Spec.reflagged flags l).
  cbv iota. change (Spec.reflag (flags e) e :: Spec.reflagged flags l)
    with (Spec.reflagged flags (e :: l)).
  rewrite tally_reflagged by reflexivity.
  unfold Spec.reflagged. rewrite fold_left_map_fuse. reflexivity.
Qed.

Lemma payment_breakdown_reflagged (flags : Expense.t -> bool)
  (l : list Expense.t) :
  get_payment_method_breakdown (Spec.reflagged flags l)
  = get_payment_method_breakdown l.
Proof.
  destruct l as [|e l]; [reflexivity|].
  unfold get_payment_method_breakdown.
  change (Spec.reflagged flags (e :: l))
    with (Spec.reflag (flags e) e :: Spec.reflagged flags l).
  cbv iota. change (Spec.reflag (flags e) e :: Spec.reflagged flags l)
    with (Spec.reflagged flags (e :: l)).
  rewrite tally_reflagged by reflexivity.
  unfold Spec.reflagged. rewrite fold_left_map_fuse. reflexivity.
Qed.

Lemma trend_data_reflagged (fmt : list Text.directive) (start : datetime)
  (flags : Expense.t -> bool) (l : list Expense.t) :
  fold_left (tally (key_of fmt))
    (filter (fun e => datetime_geb (Expense.date e) start)
       (Spec.reflagged flags l)) []
  = fold_left (tally (key_of fmt))
      (filter (fun e => datetime_geb (Expense.date e) start) l) [].
Proof.
  rewrite filter_reflagged by reflexivity.
  apply tally_reflagged. reflexivity.
Qed.

Lemma monthly_trend_reflagged (fuel : nat) (now : datetime)
  (flags : Expense.t -> bool) (l : list Expense.t) (months : Z) :
  get_monthly_trend fuel now (Spec.reflagged flags l) months
  = get_monthly_trend fuel now l months.
Proof.
  destruct l as [|e l]; [reflexivity|].
  unfold get_monthly_trend.
  change (Spec.reflagged flags (e :: l))
    with (Spec.reflag (flags e) e :: Spec.reflagged flags l).
  cbv iota. change (Spec.reflag (flags e) e :: Spec.reflagged flags l)
    with (Spec.reflagged flags (e :: l)).
  cbv zeta. rewrite trend_data_reflagged. reflexivity.
Qed.

Lemma weekly_trend_reflagged (now : datetime) (flags : Expense.t -> bool)
  (l : list Expense.t) (weeks : Z) :
  get_weekly_trend now (Spec.reflagged flags l) weeks
  = get_weekly_trend now l weeks.
Proof.
  destruct l as [|e l]; [reflexivity|].
  unfold get_weekly_trend.
  change (Spec.reflagged flags (e :: l))
    with (Spec.reflag (flags e) e :: Spec.reflagged flags l).
  cbv iota. change (Spec.reflag (flags e) e :: Spec.reflagged flags l)
    with (Spec.reflagged flags (e :: l)).
  cbv zeta. rewrite trend_data_reflagged. reflexivity.
Qed.

Lemma daily_trend_reflagged (fuel : nat) (now : datetime)
  (flags : Expense.t -> bool) (l : list Expense.t) (days : Z) :
  get_daily_trend fuel now (Spec.reflagged flags l) days
  = get_daily_trend fuel now l days.
Proof.
  destruct l as [|e l]; [reflexivity|].
  unfold get_daily_trend.
  change (Spec.reflagged flags (e :: l))
    with (Spec.reflag (flags e) e :: Spec.reflagged flags l).
  cbv iota. change (Spec.reflag (flags e) e :: Spec.reflagged flags l)
    with (Spec.reflagged flags (e :: l)).
  cbv zeta. rewrite trend_data_reflagged. reflexivity.
Qed.

Lemma percentiles_reflagged (flags : Expense.t -> bool) (l : list Expense.t)
  (points : list Q) :
  calculate_percentiles np_percentile (Spec.reflagged flags l) points
  = calculate_percentiles np_percentile l points.
Proof.
  destruct l as [|e l]; [reflexivity|].
  unfold calculate_percentiles.
  change (Spec.reflagged flags (e :: l))
    with (Spec.reflag (flags e) e :: Spec.reflagged flags l).
  cbv iota. change (Spec.reflag (flags e) e :: Spec.reflagged flags l)
    with (Spec.reflagged flags (e :: l)).
  unfold Spec.reflagged. rewrite map_map. reflexivity.
Qed.

Lemma filter_active_only (p : Expense.t -> bool) (l : list Expense.t) :
  filter (fun e => p e && negb (Expense.is_deleted e)) (Spec.active_only l)
  = filter (fun e => p e && negb (Expense.is_deleted e)) l.
Proof.
  unfold Spec.active_only. rewrite filter_filter_and.
  apply filter_ext. intros e.
  destruct (p e), (Expense.is_deleted e); reflexivity.
Qed.

End SoftDelete.

Section SoftDeleteClaim.

Import ReportGenerator.
Variable np_percentile : list Q -> Q -> Q.

Lemma month_expenses_active (month : datetime) (l : list Expense.t) :
  month_expenses month (Spec.active_only l) = month_expenses month l
  /\ Forall (fun e => Expense.is_deleted e = false) (month_expenses month l).
Proof.
  unfold month_expenses. cbv zeta. split.
  - apply filter_active_only.
  - apply Forall_forall. intros e He. apply filter_In in He.
    destruct He as [_ He]. apply andb_true_iff in He.
    destruct He as [_ He]. now apply negb_true_iff in He.
Qed.

Lemma counts_for_active (budget : Budget.t) (l : list Expense.t) :
  filter (Spec.counts_for budget) (Spec.active_only l)
  = filter (Spec.counts_for budget) l.
Proof.
  unfold Spec.active_only. rewrite filter_filter_and.
  apply filter_ext. intros e. unfold Spec.counts_for.
  destruct (Expense.is_deleted e); simpl; [reflexivity|].
  now rewrite andb_true_r.
Qed.

(** C7 (as amended).  Soft-deleted records are kept out by the callers and
    by the functions that test the flag, not by every aggregation.  The
    category, vendor and payment-method breakdowns, the three trends and the
    percentiles aggregate every record they are given, whatever its flag:
    their result does not change when the flags of the input are changed.
    The list the monthly report hands to them, [month_expenses], holds active
    records only and is the same as the one built from the active sub-list.
    [get_recurring_expense_summary], [get_budget_vs_actual],
    [estimate_monthly_recurring] and [calculate_spent] test the flag
    themselves: their result equals the result on the active sub-list. *)
Theorem C7_deleted_excluded_by_callers (fuel : nat) (now month : datetime)
  (self : BudgetManager.t) (budget : Budget.t) (budgets : list Budget.t)
  (flags : Expense.t -> bool) (expenses : list Expense.t)
  (n months weeks days : Z) (points : list Q) :
  (get_category_breakdown (Spec.reflagged flags expenses)
   = get_category_breakdown expenses
   /\ get_top_vendors (Spec.reflagged flags expenses) n
      = get_top_vendors expenses n
   /\ get_payment_method_breakdown (Spec.reflagged flags expenses)
      = get_payment_method_breakdown expenses
   /\ get_monthly_trend fuel now (Spec.reflagged flags expenses) months
      = get_monthly_trend fuel now expenses months
   /\ get_weekly_trend now (Spec.reflagged flags expenses) weeks
      = get_weekly_trend now expenses weeks
   /\ get_daily_trend fuel now (Spec.reflagged flags expenses) days
      = get_daily_trend fuel now expenses days
   /\ calculate_percentiles np_percentile (Spec.reflagged flags expenses) points
      = calculate_percentiles np_percentile expenses points)
  /\ (month_expenses month expenses
      = month_expenses month (Spec.active_only expenses)
      /\ Forall (fun e => Expense.is_deleted e = false)
           (month_expenses month expenses))
  /\ (get_recurring_expense_summary expenses
      = get_recurring_expense_summary (Spec.active_only expenses)
      /\ get_budget_vs_actual expenses budgets
         = get_budget_vs_actual (Spec.active_only expenses) budgets
      /\ estimate_monthly_recurring expenses
         = estimate_monthly_recurring (Spec.active_only expenses)
      /\ BudgetManager.calculate_spent budget expenses self
         = BudgetManager.calculate_spent budget (Spec.active_only expenses) self).
Proof.
  split; [|split].
  - repeat split.
    + apply category_breakdown_reflagged.
    + apply top_vendors_reflagged.
    + apply payment_breakdown_reflagged.
    + apply monthly_trend_reflagged.
    + apply weekly_trend_reflagged.
    + apply daily_trend_reflagged.
    + apply percentiles_reflagged.
  - destruct (month_expenses_active month expenses) as [H1 H2].
    split; [symmetry; exact H1|exact H2].
  - repeat split.
    + unfold get_recurring_expense_summary.
      rewrite (filter_active_only Expense.is_recurring).
      rewrite (filter_active_only (fun e => negb (Expense.is_recurring e))).
      reflexivity.
    + unfold get_budget_vs_actual. apply map_ext. intros b.
      rewrite (filter_active_only
                 (fun e => String.eqb (Expense.category e) (Budget.category b)
                           && (datetime_leb (Budget.period_start b) (Expense.date e)
                               && datetime_leb (Expense.date e)
                                    (Budget.period_end b)))).
      reflexivity.
    + unfold estimate_monthly_recurring.
      rewrite (filter_active_only Expense.is_recurring). reflexivity.
    + rewrite !calculate_spent_sum, counts_for_active. reflexivity.
Qed.

(** C7 (as stated) fails: the category breakdown of a list holding one
    soft-deleted record reports that record, while the active sub-list is
    empty and has an empty breakdown. *)
Lemma C7_breakdown_counts_deleted_counterexample :
  Spec.active_only Sample.one_deleted = []
  /\ get_category_breakdown (Spec.active_only Sample.one_deleted) = []
  /\ map row_key (get_category_breakdown Sample.one_deleted)
     = ["Supplies"%string]
  /\ get_category_breakdown Sample.one_deleted
     <> get_category_breakdown (Spec.active_only Sample.one_deleted).
Proof.
  repeat split; try reflexivity.
  intros H. apply (f_equal (@List.length _)) in H.
  vm_compute in H. discriminate H.
Qed.

End SoftDeleteClaim.

(** ** Stable descending sort *)

Section SortFacts.

Import ReportGenerator.
Local Open Scope Q_scope.
Context {A : Type} (key : A -> Q).

Lemma insert_desc_perm (x : A) (l : list A) :
  Permutation (insert_desc key x l) (x :: l).
Proof.
  induction l as [|y l IH]; simpl; [apply Permutation_refl|].
  destruct (Qlt_bool (key x) (key y)); [|apply Permutation_refl].
  eapply Permutation_trans; [apply perm_skip, IH|apply perm_swap].
Qed.

Lemma sort_desc_perm (l : list A) : Permutation (sort_desc key l) l.
Proof.
  induction l as [|x l IH]; simpl; [apply Permutation_refl|].
  eapply Permutation_trans; [apply insert_desc_perm|now apply perm_skip].
Qed.

Lemma insert_desc_hd (x y : A) (l : list A) :
  key x <= key y ->
  HdRel (fun a b => key b <= key a) y l ->
  HdRel (fun a b => key b <= key a) y (insert_desc key x l).
Proof.
  intros Hxy Hhd. destruct l as [|z l]; simpl.
  - now constructor.
  - destruct (Qlt_bool (key x) (key z)); constructor.
    + now inversion Hhd.
    + exact Hxy.
Qed.

Lemma insert_desc_sorted (x : A) (l : list A) :
  Spec.descending key l -> Spec.descending key (insert_desc key x l).
Proof.
  unfold Spec.descending.
  induction l as [|y l IH]; intros Hs; simpl.
  - repeat constructor.
  - inversion Hs as [|? ? Hs' Hhd]; subst.
    destruct (Qlt_bool (key x) (key y)) eqn:E; qprop.
    + constructor; [now apply IH|].
      apply insert_desc_hd; [now apply Qlt_le_weak|exact Hhd].
    + constructor; [exact Hs|]. now constructor.
Qed.

Lemma sort_desc_sorted (l : list A) : Spec.descending key (sort_desc key l).
Proof.
  induction l as [|x l IH]; simpl.
  - constructor.
  - now apply insert_desc_sorted.
Qed.

Lemma occurs_before_cons (x y a : A) (l : list A) :
  Spec.occurs_before x y (a :: l) <->
  (a = x /\ In y l) \/ Spec.occurs_before x y l.
Proof.
  unfold Spec.occurs_before. split.
  - intros (l1 & l2 & l3 & H). destruct l1 as [|b l1]; simpl in H.
    + injection H as -> ->. left. split; [reflexivity|].
      apply in_or_app. right. now left.
    + injection H as -> ->. right. now exists l1, l2, l3.
  - intros [[-> Hy]|(l1 & l2 & l3 & ->)].
    + apply in_split in Hy. destruct Hy as (l2 & l3 & ->).
      now exists [], l2, l3.
    + now exists (a :: l1), l2, l3.
Qed.

Lemma occurs_before_nil (x y : A) : ~ Spec.occurs_before x y [].
Proof.
  intros (l1 & l2 & l3 & H). destruct l1; discriminate H.
Qed.

Lemma occurs_before_insert (x y a : A) (s : list A) :
  Spec.occurs_before x y (insert_desc key a s) ->
  Spec.occurs_before x y s
  \/ (x = a /\ In y s)
  \/ (y = a /\ In x s /\ key a < key x).
Proof.
  induction s as [|b s IH]; simpl; intros H.
  - apply occurs_before_cons in H. destruct H as [[_ []]|H].
    now apply occurs_before_nil in H.
  - destruct (Qlt_bool (key a) (key b)) eqn:E; qprop.
    + apply occurs_before_cons in H. destruct H as [[-> Hy]|H].
      * apply (Permutation_in _ (insert_desc_perm a s)) in Hy.
        destruct Hy as [<-|Hy].
        -- right. right. repeat split; [now left|exact E].
        -- left. apply occurs_before_cons. left. now split.
      * destruct (IH H) as [H'|[[-> Hy]|(-> & Hx & Hlt)]].
        -- left. apply occurs_before_cons. now right.
        -- right. left. split; [reflexivity|now right].
        -- right. right. repeat split; [now right|exact Hlt].
    + apply occurs_before_cons in H. destruct H as [[-> Hy]|H].
      * right. left. now split.
      * now left.
Qed.

(** Stability: equal keys keep the order they had in the input. *)
Lemma sort_desc_stable (x y : A) (l : list A) :
  Spec.occurs_before x y (sort_desc key l) ->
  key x == key y ->
  Spec.occurs_before x y l.
Proof.
  induction l as [|a l IH]; simpl; intros H Heq.
  - now apply occurs_before_nil in H.
  - apply occurs_before_insert in H.
    destruct H as [H|[[-> Hy]|(-> & _ & Hlt)]].
    + apply occurs_before_cons. right. now apply IH.
    + apply occurs_before_cons. left. split; [reflexivity|].
      now apply (Permutation_in _ (sort_desc_perm l)).
    + exfalso. rewrite Heq in Hlt. now apply Qlt_irrefl in Hlt.
Qed.

End SortFacts.

Lemma occurs_before_map {A B : Type} (f : A -> B) (u v : B) (l : list A) :
  Spec.occurs_before u v (map f l) ->
  exists x y, u = f x /\ v = f y /\ Spec.occurs_before x y l.
Proof.
  intros (l1 & l2 & l3 & H).
  apply map_eq_app in H. destruct H as (m1 & m & -> & <- & H).
  apply map_eq_cons in H. destruct H as (x & m' & -> & <- & H).
  apply map_eq_app in H. destruct H as (m2 & m'' & -> & <- & H).
  apply map_eq_cons in H. destruct H as (y & m3 & -> & <- & <-).
  exists x, y. repeat split. now exists m1, m2, m3.
Qed.

Lemma occurs_before_map_intro {A B : Type} (f : A -> B) (x y : A)
  (l : list A) :
  Spec.occurs_before x y l -> Spec.occurs_before (f x) (f y) (map f l).
Proof.
  intros (l1 & l2 & l3 & ->).
  exists (map f l1), (map f l2), (map f l3).
  now rewrite map_app, (map_cons f x), map_app, (map_cons f y).
Qed.

(** ** Grouping dictionaries *)

Section Grouping.

Import ReportGenerator.
Local Open Scope Q_scope.

Lemma mem_app (x : string) (l1 l2 : list string) :
  Text.mem x (l1 ++ l2) = Text.mem x l1 || Text.mem x l2.
Proof.
  induction l1 as [|a l1 IH]; simpl; [reflexivity|].
  now rewrite IH, orb_assoc.
Qed.

Lemma upd_keys {V : Type} (k : string) (f : V -> V) (dflt : V)
  (d : list (string * V)) :
  map fst (Py.upd String.eqb k f dflt d)
  = if Text.mem k (map fst d) then map fst d else map fst d ++ [k].
Proof.
  induction d as [|[k' v] d IH]; simpl; [reflexivity|].
  destruct (String.eqb k k'); simpl; [reflexivity|].
  rewrite IH. now destruct (Text.mem k (map fst d)).
Qed.

Lemma tally_keys (key : Expense.t -> string) (d : list (string * group))
  (e : Expense.t) :
  map fst (tally key d e)
  = if Text.mem (key e) (map fst d) then map fst d else map fst d ++ [key e].
Proof.
  unfold tally. rewrite !upd_keys.
  destruct (Text.mem (key e) (map fst d)) eqn:E.
  - now rewrite E.
  - rewrite mem_app. simpl. rewrite String.eqb_refl, orb_true_r.
    reflexivity.
Qed.

Lemma fold_tally_keys (key : Expense.t -> string) (l : list Expense.t)
  (d : list (string * group)) :
  map fst (fold_left (tally key) l d)
  = map fst d
    ++ filter (fun x => negb (Text.mem x (map fst d)))
         (Spec.first_seen (map key l)).
Proof.
  revert d. induction l as [|e l IH]; intros d; simpl.
  - now rewrite app_nil_r.
  - rewrite IH, tally_keys.
    destruct (Text.mem (key e) (map fst d)) eqn:E; simpl.
    + f_equal. rewrite filter_filter_and. apply filter_ext. intros x.
      destruct (String.eqb x (key e)) eqn:Ex; simpl.
      * apply String.eqb_eq in Ex. subst x. now rewrite E.
      * now rewrite andb_true_r.
    + rewrite <- app_assoc. simpl. f_equal. f_equal.
      rewrite filter_filter_and. apply filter_ext. intros x.
      rewrite mem_app. simpl. rewrite orb_false_r.
      now rewrite negb_orb.
Qed.

(** The keys of a grouping dictionary are the keys of the input in
    first-seen order. *)
Lemma tally_first_seen (key : Expense.t -> string) (l : list Expense.t) :
  map fst (fold_left (tally key) l []) = Spec.first_seen (map key l).
Proof.
  rewrite fold_tally_keys. simpl.
  induction (Spec.first_seen (map key l)) as [|x s IH]; simpl;
    [reflexivity|now rewrite IH].
Qed.

Lemma upd_amount_total (k : string) (a : Q) (d : list (string * group)) :
  Spec.group_total (Py.upd String.eqb k (add_amount a) group0 d)
  == Spec.group_total d + a.
Proof.
  unfold Spec.group_total.
  induction d as [|[k' g] d IH]; simpl.
  - ring.
  - destruct (String.eqb k k'); simpl.
    + ring.
    + rewrite IH. ring.
Qed.

Lemma upd_count_total (k : string) (d : list (string * group)) :
  Spec.group_total (Py.upd String.eqb k add_count group0 d) == Spec.group_total d.
Proof.
  unfold Spec.group_total.
  induction d as [|[k' g] d IH]; simpl.
  - ring.
  - destruct (String.eqb k k'); simpl.
    + reflexivity.
    + now rewrite IH.
Qed.

Lemma fold_tally_total (key : Expense.t -> string) (l : list Expense.t)
  (d : list (string * group)) :
  Spec.group_total (fold_left (tally key) l d)
  == Spec.group_total d + Spec.Qsum (map Expense.amount l).
Proof.
  revert d. induction l as [|e l IH]; intros d; simpl.
  - ring.
  - rewrite IH. unfold tally. rewrite upd_count_total, upd_amount_total. ring.
Qed.

Lemma fold_plus_total (l : list Expense.t) (t : Q) :
  fold_left (fun acc e => acc + Expense.amount e) l t
  == t + Spec.Qsum (map Expense.amount l).
Proof.
  revert t. induction l as [|e l IH]; intros t; simpl.
  - ring.
  - rewrite IH. ring.
Qed.

Lemma sum_amounts_Qsum (l : list Expense.t) :
  sum_amounts l == Spec.Qsum (map Expense.amount l).
Proof.
  unfold sum_amounts, sum.
  rewrite fold_left_map_fuse.
  rewrite (fold_plus_total l 0). ring.
Qed.

Lemma fold_pair_split (key : Expense.t -> string) (l : list Expense.t)
  (d : list (string * group)) (t : Q) :
  fold_left (fun st e => (tally key (fst st) e, snd st + Expense.amount e))
    l (d, t)
  = (fold_left (tally key) l d,
     fold_left (fun acc e => acc + Expense.amount e) l t).
Proof.
  revert d t. induction l as [|e l IH]; intros d t; simpl;
    [reflexivity|apply IH].
Qed.

Lemma Qsum_perm (l l' : list Q) :
  Permutation l l' -> Spec.Qsum l == Spec.Qsum l'.
Proof.
  induction 1; simpl.
  - reflexivity.
  - now rewrite IHPermutation.
  - ring.
  - now rewrite IHPermutation1.
Qed.

Lemma percentage_total (total : Q) (d : list (string * group)) :
  Spec.Qsum (map (fun kv => percentage_of (g_amount (snd kv)) total) d)
  == percentage_of (Spec.group_total d) total.
Proof.
  unfold percentage_of, Spec.group_total.
  destruct (Qlt_bool 0 total) eqn:E; qprop.
  - induction d as [|kv d IH]; simpl.
    + field. intros H. rewrite H in E. now apply Qlt_irrefl in E.
    + rewrite IH. field. intros H. rewrite H in E. now apply Qlt_irrefl in E.
  - induction d as [|kv d IH]; simpl; [reflexivity|].
    rewrite IH. ring.
Qed.

Lemma percentage_of_whole (amount total : Q) :
  amount == total ->
  percentage_of amount total == (if Qlt_bool 0 total then 100 else 0).
Proof.
  intros H. unfold percentage_of.
  destruct (Qlt_bool 0 total) eqn:E; qprop; [|reflexivity].
  rewrite H. field. intros H0. rewrite H0 in E. now apply Qlt_irrefl in E.
Qed.

End Grouping.

(** ** Breakdowns *)

Section BreakdownRows.

Import ReportGenerator.
Local Open Scope Q_scope.

(** The two breakdowns differ by the shape of their rows only. *)
Context {R : Type} (make : Q -> string * group -> R).
Context (amount_of percentage : R -> Q) (key_of_row : R -> string).
Hypothesis make_percentage :
  forall t kv, percentage (make t kv) = percentage_of (g_amount (snd kv)) t.
Hypothesis make_key : forall t kv, key_of_row (make t kv) = fst kv.

Variable key : Expense.t -> string.
Variable expenses : list Expense.t.
Variable total_amount : Q.
Hypothesis total_amount_sum :
  total_amount == Spec.Qsum (map Expense.amount expenses).

Let rows : list R :=
  sort_desc amount_of
    (map (make total_amount) (fold_left (tally key) expenses [])).

Lemma rows_percentage_sum :
  Spec.Qsum (map percentage rows)
  == (if Qlt_bool 0 (sum_amounts expenses) then 100 else 0).
Proof.
  unfold rows.
  rewrite (Qsum_perm _ _ (Permutation_map percentage (sort_desc_perm amount_of _))).
  rewrite map_map.
  rewrite (map_ext _ (fun kv => percentage_of (g_amount (snd kv)) total_amount))
    by (intros kv; apply make_percentage).
  rewrite percentage_total.
  rewrite percentage_of_whole.
  - rewrite (Qlt_bool_compat 0 total_amount 0 (sum_amounts expenses));
      [reflexivity|reflexivity|].
    now rewrite total_amount_sum, sum_amounts_Qsum.
  - rewrite fold_tally_total, total_amount_sum. unfold Spec.group_total.
    simpl. ring.
Qed.

Lemma rows_descending : Spec.descending amount_of rows.
Proof.
  apply sort_desc_sorted.
Qed.

Lemma rows_stable (r1 r2 : R) :
  Spec.occurs_before r1 r2 rows ->
  amount_of r1 == amount_of r2 ->
  Spec.occurs_before (key_of_row r1) (key_of_row r2)
    (Spec.first_seen (map key expenses)).
Proof.
  intros Hb Heq. unfold rows in Hb.
  apply sort_desc_stable in Hb; [|exact Heq].
  apply occurs_before_map in Hb. destruct Hb as (kv1 & kv2 & -> & -> & Hb).
  rewrite !make_key, <- tally_first_seen.
  now apply occurs_before_map_intro.
Qed.

End BreakdownRows.

(** ** Calendar facts *)

Section CalendarFacts.

Local Open Scope Z_scope.

Lemma days_in_month_bounds (y m : Z) : 28 <= days_in_month y m <= 31.
Proof.
  unfold days_in_month.
  destruct (m =? 2); [destruct (is_leap y); lia|].
  destruct ((m =? 4) || (m =? 6) || (m =? 9) || (m =? 11)); lia.
Qed.

(** Turns the boolean comparisons of dates into arithmetic. *)
Ltac date_arith :=
  unfold datetime_leb, datetime_ltb, date_leb, date_ltb, date_eqb,
    time_leb, time_ltb, time_eqb in *;
  repeat match goal with
    | H : _ = true |- _ =>
        rewrite ?orb_true_iff, ?andb_true_iff, ?Z.ltb_lt, ?Z.eqb_eq,
          ?Z.leb_le in H
    | H : _ = false |- _ =>
        rewrite ?orb_false_iff, ?andb_false_iff, ?Z.ltb_ge, ?Z.eqb_neq,
          ?Z.leb_gt in H
    end;
  rewrite ?orb_true_iff, ?andb_true_iff, ?orb_false_iff, ?andb_false_iff,
    ?Z.ltb_lt, ?Z.eqb_eq, ?Z.leb_le, ?Z.ltb_ge, ?Z.eqb_neq, ?Z.leb_gt.

Lemma date_leb_refl (d : Calendar.date) : date_leb d d = true.
Proof.
  date_arith. lia.
Qed.

Lemma date_leb_trans (a b c : Calendar.date) :
  date_leb a b = true -> date_leb b c = true -> date_leb a c = true.
Proof.
  intros H1 H2. date_arith. lia.
Qed.

Lemma prev_day_valid (d : Calendar.date) : valid_date d -> valid_date (prev_day d).
Proof.
  unfold valid_date, prev_day. intros [Hm Hd].
  destruct (1 <? day d) eqn:E1; simpl.
  - apply Z.ltb_lt in E1. lia.
  - destruct (1 <? month d) eqn:E2; simpl.
    + apply Z.ltb_lt in E2.
      pose proof (days_in_month_bounds (year d) (month d - 1)). lia.
    + pose proof (days_in_month_bounds (year d - 1) 12).
      change (days_in_month (year d - 1) 12) with 31 in *. lia.
Qed.

Lemma next_day_valid (d : Calendar.date) : valid_date d -> valid_date (next_day d).
Proof.
  unfold valid_date, next_day. intros [Hm Hd].
  destruct (day d <? days_in_month (year d) (month d)) eqn:E1; simpl.
  - apply Z.ltb_lt in E1. lia.
  - destruct (month d <? 12) eqn:E2; simpl.
    + apply Z.ltb_lt in E2.
      pose proof (days_in_month_bounds (year d) (month d + 1)). lia.
    + pose proof (days_in_month_bounds (year d + 1) 1). lia.
Qed.

Lemma next_prev_day (d : Calendar.date) : valid_date d -> next_day (prev_day d) = d.
Proof.
  destruct d as [y m dd]. unfold valid_date, prev_day, next_day. simpl.
  intros [Hm Hd].
  destruct (1 <? dd) eqn:E1; simpl.
  - apply Z.ltb_lt in E1.
    assert (E : (dd - 1 <? days_in_month y m) = true) by (apply Z.ltb_lt; lia).
    rewrite E. f_equal. lia.
  - apply Z.ltb_ge in E1. assert (dd = 1) by lia. subst dd.
    destruct (1 <? m) eqn:E2; simpl.
    + apply Z.ltb_lt in E2. rewrite Z.ltb_irrefl.
      assert (E : (m - 1 <? 12) = true) by (apply Z.ltb_lt; lia).
      rewrite E. f_equal. lia.
    + apply Z.ltb_ge in E2. assert (m = 1) by lia. subst m.
      change (days_in_month (y - 1) 12) with 31. simpl. f_equal. lia.
Qed.

Lemma prev_day_before (d : Calendar.date) :
  valid_date d -> date_ltb (prev_day d) d = true.
Proof.
  destruct d as [y m dd]. unfold valid_date, prev_day. simpl.
  intros [Hm Hd].
  destruct (1 <? dd) eqn:E1; [|destruct (1 <? m) eqn:E2];
    date_arith; simpl; lia.
Qed.

Lemma next_day_after (d : Calendar.date) :
  valid_date d -> date_leb (next_day d) d = false.
Proof.
  destruct d as [y m dd]. unfold valid_date, next_day. simpl.
  intros [Hm Hd].
  destruct (dd <? days_in_month y m) eqn:E1; [|destruct (m <? 12) eqn:E2];
    date_arith; simpl; lia.
Qed.

Lemma iter_prev_day_valid (n : nat) (d : Calendar.date) :
  valid_date d -> valid_date (Nat.iter n prev_day d).
Proof.
  intros H. induction n as [|n IH]; simpl; [exact H|now apply prev_day_valid].
Qed.

Lemma iter_next_day_valid (n : nat) (d : Calendar.date) :
  valid_date d -> valid_date (Nat.iter n next_day d).
Proof.
  intros H. induction n as [|n IH]; simpl; [exact H|now apply next_day_valid].
Qed.

Lemma date_add_days_valid (d : Calendar.date) (n : Z) :
  valid_date d -> valid_date (date_add_days d n).
Proof.
  intros H. unfold date_add_days.
  destruct (0 <=? n); [now apply iter_next_day_valid|now apply iter_prev_day_valid].
Qed.

Lemma iter_prev_day_before (n : nat) (d : Calendar.date) :
  valid_date d -> date_leb (Nat.iter n prev_day d) d = true.
Proof.
  intros H. induction n as [|n IH]; simpl; [apply date_leb_refl|].
  apply (date_leb_trans _ (Nat.iter n prev_day d)); [|exact IH].
  unfold date_leb. rewrite prev_day_before; [reflexivity|].
  now apply iter_prev_day_valid.
Qed.

Lemma date_sub_days (d : Calendar.date) (n : Z) :
  0 <= n -> date_add_days d (- n) = Nat.iter (Z.to_nat n) prev_day d.
Proof.
  intros Hn. unfold date_add_days.
  destruct (0 <=? - n) eqn:E.
  - apply Z.leb_le in E. assert (n = 0) by lia. subst n. reflexivity.
  - now rewrite Z.opp_involutive.
Qed.

Lemma datetime_leb_same_time (a b : Calendar.date) (t : time) :
  datetime_leb (mkdt a t) (mkdt b t) = date_leb a b.
Proof.
  unfold datetime_leb, date_leb. simpl.
  destruct (date_ltb a b); simpl; [reflexivity|].
  destruct (date_eqb a b); simpl; [|reflexivity].
  unfold time_leb, time_eqb. rewrite !Z.eqb_refl. simpl. apply orb_true_r.
Qed.

End CalendarFacts.

(** ** Trend buckets *)

Section TrendBuckets.

Import ReportGenerator.
Local Open Scope Q_scope.

Lemma get_default_upd {V : Type} (k k' : string) (f : V -> V) (dflt : V)
  (d : list (string * V)) :
  Py.get_default String.eqb k dflt (Py.upd String.eqb k' f dflt d)
  = if String.eqb k k' then f (Py.get_default String.eqb k dflt d)
    else Py.get_default String.eqb k dflt d.
Proof.
  unfold Py.get_default.
  induction d as [|[k'' v] d IH]; simpl.
  - destruct (String.eqb k k'); reflexivity.
  - destruct (String.eqb k' k'') eqn:E1; simpl.
    + apply String.eqb_eq in E1. subst k''.
      destruct (String.eqb k k'); reflexivity.
    + destruct (String.eqb k k'') eqn:E2.
      * apply String.eqb_eq in E2. subst k''.
        rewrite String.eqb_sym in E1. now rewrite E1.
      * exact IH.
Qed.

Lemma get_default_fold_tally (key : Expense.t -> string) (k : string)
  (l : list Expense.t) (d : list (string * group)) :
  Py.get_default String.eqb k group0 (fold_left (tally key) l d)
  = fold_left (Spec.tally_entry key k) l (Py.get_default String.eqb k group0 d).
Proof.
  revert d. induction l as [|e l IH]; intros d; simpl; [reflexivity|].
  rewrite IH. f_equal. unfold tally, Spec.tally_entry.
  rewrite !get_default_upd, (String.eqb_sym k (key e)).
  destruct (String.eqb (key e) k); reflexivity.
Qed.

Lemma fold_tally_entry (key : Expense.t -> string) (k : string)
  (l : list Expense.t) (g : group) :
  fold_left (Spec.tally_entry key k) l g
  = mkgroup
      (fold_left Qplus
         (map Expense.amount (filter (fun e => String.eqb (key e) k) l))
         (g_amount g))
      (g_count g
       + Z.of_nat (List.length (filter (fun e => String.eqb (key e) k) l)))%Z.
Proof.
  revert g. induction l as [|e l IH]; intros g; simpl.
  - destruct g as [a c]. simpl. f_equal. lia.
  - rewrite IH. unfold Spec.tally_entry.
    destruct (String.eqb (key e) k); simpl; f_equal; lia.
Qed.

(** A row built from the grouping dictionary is the bucket of its key. *)
Lemma make_trend_row_bucket (fmt name_fmt : list Text.directive)
  (filtered : list Expense.t) (current : datetime) :
  make_trend_row fmt name_fmt (fold_left (tally (key_of fmt)) filtered [])
    current
  = Spec.bucket_at fmt name_fmt filtered current.
Proof.
  unfold make_trend_row, Spec.bucket_at, Spec.bucket. cbv zeta.
  rewrite get_default_fold_tally, fold_tally_entry. reflexivity.
Qed.

End TrendBuckets.

(** ** The loops of the trends *)

Section TrendLoops.

Import ReportGenerator.
Local Open Scope Z_scope.

Lemma iterate_length {A : Type} (f : A -> A) (n : nat) (x : A) :
  List.length (Spec.iterate f x n) = n.
Proof.
  revert x. induction n as [|n IH]; intros x; simpl; [reflexivity|].
  now rewrite IH.
Qed.

Lemma time_leb_refl (t : time) : time_leb t t = true.
Proof.
  unfold time_leb, time_eqb. rewrite !Z.eqb_refl. apply orb_true_r.
Qed.

(** A first-of-month instant with the time of day of [end_date] is at or
    before [end_date] exactly when its month is. *)
Lemma aligned_leb (current end_date : datetime) :
  1 <= month (dt_date current) <= 12 ->
  day (dt_date current) = 1 ->
  dt_time current = dt_time end_date ->
  valid_date (dt_date end_date) ->
  datetime_leb current end_date
  = (Spec.month_index (dt_date current) <=? Spec.month_index (dt_date end_date)).
Proof.
  destruct current as [[yc mc dc] tc], end_date as [[ye me de] te].
  unfold valid_date, Spec.month_index.
  cbn [dt_date dt_time year month day].
  intros Hmc -> -> [Hme Hde].
  unfold datetime_leb. cbn [dt_date dt_time].
  rewrite time_leb_refl, andb_true_r.
  pose proof (days_in_month_bounds ye me) as Hb.
  destruct (Z.leb_spec (12 * yc + (mc - 1)) (12 * ye + (me - 1))) as [H|H].
  - unfold date_ltb, date_eqb. cbn [year month day].
    rewrite ?orb_true_iff, ?andb_true_iff, ?Z.ltb_lt, ?Z.eqb_eq. lia.
  - unfold date_ltb, date_eqb. cbn [year month day].
    rewrite ?orb_false_iff, ?andb_false_iff, ?Z.ltb_ge, ?Z.eqb_neq. lia.
Qed.

Lemma next_month_aligned (current : datetime) :
  1 <= month (dt_date current) <= 12 ->
  1 <= month (dt_date (next_month current)) <= 12
  /\ day (dt_date (next_month current)) = day (dt_date current)
  /\ dt_time (next_month current) = dt_time current
  /\ Spec.month_index (dt_date (next_month current))
     = Spec.month_index (dt_date current) + 1.
Proof.
  intros Hm. unfold next_month, Spec.month_index.
  destruct (month (dt_date current) =? 12) eqn:E;
    cbn [dt_date dt_time year month day].
  - apply Z.eqb_eq in E. repeat split; try reflexivity; lia.
  - apply Z.eqb_neq in E. repeat split; try reflexivity; lia.
Qed.

Lemma monthly_loop_runs (data : list (string * group)) (end_date : datetime)
  (Hend : valid_date (dt_date end_date)) (n : nat) :
  forall (current : datetime) (result : list trend_row) (fuel : nat),
    1 <= month (dt_date current) <= 12 ->
    day (dt_date current) = 1 ->
    dt_time current = dt_time end_date ->
    n = Z.to_nat (Spec.month_index (dt_date end_date)
                  - Spec.month_index (dt_date current) + 1) ->
    (n < fuel)%nat ->
    monthly_loop fuel data end_date current result
    = Some (result
            ++ map (make_trend_row Text.fmt_ym Text.fmt_month_name data)
                 (Spec.iterate next_month current n)).
Proof.
  induction n as [|n IH]; intros current result fuel Hm Hd Ht Hn Hfuel;
    (destruct fuel as [|fuel]; [lia|]); simpl;
    rewrite (aligned_leb current end_date Hm Hd Ht Hend).
  - destruct (Z.leb_spec (Spec.month_index (dt_date current))
                (Spec.month_index (dt_date end_date))) as [H|H]; [lia|].
    now rewrite app_nil_r.
  - destruct (Z.leb_spec (Spec.month_index (dt_date current))
                (Spec.month_index (dt_date end_date))) as [H|H]; [|lia].
    destruct (next_month_aligned current Hm) as (Hm' & Hd' & Ht' & Hi).
    rewrite (IH (next_month current)); try lia; try congruence.
    now rewrite <- app_assoc.
Qed.

Lemma add_one_day (d : Calendar.date) (t : time) :
  add_days (mkdt d t) 1 = mkdt (next_day d) t.
Proof.
  reflexivity.
Qed.

Lemma daily_loop_runs (data : list (string * group)) (end_date : datetime)
  (Hend : valid_date (dt_date end_date)) (n : nat) :
  forall (result : list trend_row) (fuel : nat),
    (S n < fuel)%nat ->
    daily_loop fuel data end_date
      (mkdt (Nat.iter n prev_day (dt_date end_date)) (dt_time end_date)) result
    = Some (result
            ++ map (make_trend_row Text.fmt_ymd Text.fmt_day_name data)
                 (Spec.iterate (fun c => add_days c 1)
                    (mkdt (Nat.iter n prev_day (dt_date end_date))
                       (dt_time end_date))
                    (S n))).
Proof.
  destruct end_date as [d t]. simpl in Hend. simpl dt_date. simpl dt_time.
  induction n as [|n IH]; intros result fuel Hfuel.
  - destruct fuel as [|[|fuel]]; try lia.
    simpl Nat.iter. cbn [daily_loop].
    rewrite datetime_leb_same_time, date_leb_refl, add_one_day.
    rewrite datetime_leb_same_time, (next_day_after d Hend). reflexivity.
  - destruct fuel as [|fuel]; [lia|].
    cbn [daily_loop].
    rewrite datetime_leb_same_time, (iter_prev_day_before (S n) d Hend).
    rewrite add_one_day.
    change (Nat.iter (S n) prev_day d) with (prev_day (Nat.iter n prev_day d)).
    rewrite (next_prev_day _ (iter_prev_day_valid n d Hend)).
    rewrite IH by lia. rewrite <- app_assoc.
    change (Spec.iterate (fun c => add_days c 1)
              (mkdt (prev_day (Nat.iter n prev_day d)) t) (S (S n)))
      with (mkdt (prev_day (Nat.iter n prev_day d)) t
            :: Spec.iterate (fun c => add_days c 1)
                 (add_days (mkdt (prev_day (Nat.iter n prev_day d)) t) 1)
                 (S n)).
    rewrite add_one_day.
    rewrite (next_prev_day _ (iter_prev_day_valid n d Hend)).
    reflexivity.
Qed.

Lemma insert_str_length (s : string) (l : list string) :
  List.length (insert_str s l) = S (List.length l).
Proof.
  induction l as [|x l IH]; simpl; [reflexivity|].
  destruct (String.ltb s x); simpl; [reflexivity|now rewrite IH].
Qed.

Lemma sorted_str_length (l : list string) :
  List.length (sorted_str l) = List.length l.
Proof.
  induction l as [|x l IH]; simpl; [reflexivity|].
  now rewrite insert_str_length, IH.
Qed.

End TrendLoops.

Section TrendClaim.

Import ReportGenerator.
Local Open Scope Z_scope.

Lemma monthly_trend_buckets (now : datetime) (e0 : Expense.t)
  (rest : list Expense.t) (months : Z) (fuel : nat) :
  valid_date (dt_date now) ->
  (Spec.months_between (sub_days now (months * 30)) now < fuel)%nat ->
  get_monthly_trend fuel now (e0 :: rest) months
  = Some (map (Spec.bucket_at Text.fmt_ym Text.fmt_month_name
                 (Spec.since (sub_days now (months * 30)) (e0 :: rest)))
            (Spec.iterate next_month
               (replace_day1 (sub_days now (months * 30)))
               (Spec.months_between (sub_days now (months * 30)) now))).
Proof.
  intros Hnow Hfuel. unfold get_monthly_trend. cbv zeta iota.
  assert (Hstart : valid_date (dt_date (sub_days now (months * 30))))
    by (apply date_add_days_valid; exact Hnow).
  rewrite (monthly_loop_runs _ now Hnow
             (Spec.months_between (sub_days now (months * 30)) now)).
  - cbn [app]. f_equal. apply map_ext. intros current.
    apply make_trend_row_bucket.
  - apply Hstart.
  - reflexivity.
  - reflexivity.
  - reflexivity.
  - exact Hfuel.
Qed.

Lemma daily_trend_buckets (now : datetime) (e0 : Expense.t)
  (rest : list Expense.t) (days : Z) (fuel : nat) :
  valid_date (dt_date now) ->
  0 <= days ->
  (S (Z.to_nat days) < fuel)%nat ->
  get_daily_trend fuel now (e0 :: rest) days
  = Some (map (Spec.bucket_at Text.fmt_ymd Text.fmt_day_name
                 (Spec.since (sub_days now days) (e0 :: rest)))
            (Spec.iterate (fun c => add_days c 1) (sub_days now days)
               (S (Z.to_nat days)))).
Proof.
  intros Hnow Hdays Hfuel. unfold get_daily_trend. cbv zeta iota.
  assert (Hstart : sub_days now days
                   = mkdt (Nat.iter (Z.to_nat days) prev_day (dt_date now))
                       (dt_time now)).
  { unfold sub_days, add_days. now rewrite date_sub_days. }
  rewrite Hstart.
  rewrite (daily_loop_runs _ now Hnow (Z.to_nat days)) by exact Hfuel.
  cbn [app]. f_equal. apply map_ext. intros current.
  apply make_trend_row_bucket.
Qed.

Lemma weekly_trend_buckets (now : datetime) (e0 : Expense.t)
  (rest : list Expense.t) (weeks : Z) :
  get_weekly_trend now (e0 :: rest) weeks
  = map (fun week_key =>
           Spec.bucket Text.fmt_week
             (Spec.since (sub_days now (weeks * 7)) (e0 :: rest))
             week_key EmptyString)
      (sorted_str
         (Spec.first_seen
            (map (key_of Text.fmt_week)
               (Spec.since (sub_days now (weeks * 7)) (e0 :: rest))))).
Proof.
  unfold get_weekly_trend. cbv zeta iota.
  rewrite tally_first_seen. apply map_ext. intros week_key.
  rewrite get_default_fold_tally, fold_tally_entry. reflexivity.
Qed.

(** C2 (as amended).  On a non-empty record list, with [now] a valid date:
    the monthly trend returns exactly one bucket per calendar month from the
    month of [now - months*30 days] to the month of [now], and the daily
    trend (for days >= 0) one bucket per day from [now - days] to [now],
    that is days + 1 buckets; each bucket holds the sum and the number of the
    in-range records of its month or day, both 0 when there is none, so that
    the number of buckets does not depend on the records.  On the empty list
    the monthly, the weekly and the daily trend return the empty list. *)
Theorem C2_trend_buckets (now : datetime) (e0 : Expense.t)
  (rest : list Expense.t) (months weeks days : Z)
  (Hnow : valid_date (dt_date now)) (Hdays : 0 <= days) :
  let expenses := e0 :: rest in
  let month_start := sub_days now (months * 30) in
  let day_start := sub_days now days in
  (exists fuel0, forall fuel, (fuel0 <= fuel)%nat ->
     exists rows,
       get_monthly_trend fuel now expenses months = Some rows
       /\ rows = map (Spec.bucket_at Text.fmt_ym Text.fmt_month_name
                        (Spec.since month_start expenses))
                   (Spec.iterate next_month (replace_day1 month_start)
                      (Spec.months_between month_start now))
       /\ List.length rows = Spec.months_between month_start now)
  /\ (exists fuel0, forall fuel, (fuel0 <= fuel)%nat ->
        exists rows,
          get_daily_trend fuel now expenses days = Some rows
          /\ rows = map (Spec.bucket_at Text.fmt_ymd Text.fmt_day_name
                           (Spec.since day_start expenses))
                      (Spec.iterate (fun c => add_days c 1) day_start
                         (S (Z.to_nat days)))
          /\ List.length rows = S (Z.to_nat days))
  /\ (forall fuel,
        get_monthly_trend fuel now [] months = Some []
        /\ get_daily_trend fuel now [] days = Some []
        /\ get_weekly_trend now [] weeks = []).
Proof.
  cbv zeta. repeat split.
  - exists (S (Spec.months_between (sub_days now (months * 30)) now)).
    intros fuel Hfuel. eexists. split; [|split; [reflexivity|]].
    + apply monthly_trend_buckets; [exact Hnow|lia].
    + now rewrite length_map, iterate_length.
  - exists (S (S (Z.to_nat days))).
    intros fuel Hfuel. eexists. split; [|split; [reflexivity|]].
    + apply daily_trend_buckets; [exact Hnow|exact Hdays|lia].
    + now rewrite length_map, iterate_length.
Qed.

Lemma C2_trend_witness :
  valid_date (dt_date Sample.now0)
  /\ 0 <= 30
  /\ exists fuel0, forall fuel, (fuel0 <= fuel)%nat ->
       exists rows,
         get_daily_trend fuel Sample.now0
           (Sample.candidate_70 :: Sample.recorded_750) 30 = Some rows
         /\ List.length rows = 31%nat.
Proof.
  assert (H1 : valid_date (dt_date Sample.now0))
    by (repeat split; apply Z.leb_le; reflexivity).
  assert (H2 : 0 <= 30) by lia.
  split; [exact H1|]. split; [exact H2|].
  destruct (C2_trend_buckets Sample.now0 Sample.candidate_70
              Sample.recorded_750 12 12 30 H1 H2) as (_ & Hd & _).
  destruct Hd as (fuel0 & Hd). exists fuel0. intros fuel Hfuel.
  destruct (Hd fuel Hfuel) as (rows & Hr & _ & Hl).
  exists rows. split; [exact Hr|exact Hl].
Defined.

(** C2 (as stated) fails.  On the empty record list the monthly trend over
    12 months is empty although the range spans 13 calendar months; and the
    weekly trend over 12 weeks of a list with records in two weeks has two
    buckets only: week 2026-W40, which lies in the range, has none. *)
Lemma C2_trend_gaps_counterexample :
  (get_monthly_trend 100 Sample.now0 [] 12 = Some []
   /\ Spec.months_between (sub_days Sample.now0 (12 * 30)) Sample.now0 = 13%nat)
  /\ (map trend_key (get_weekly_trend Sample.now0 Sample.recorded_750 12)
      = ["2026-W43"; "2026-W44"]%string
      /\ datetime_leb (sub_days Sample.now0 (12 * 7))
           (mkdt (mkdate 2026 10 7) (mktime 9 0 0 0)) = true
      /\ datetime_leb (mkdt (mkdate 2026 10 7) (mktime 9 0 0 0)) Sample.now0
         = true
      /\ Text.strftime Text.fmt_week (mkdt (mkdate 2026 10 7) (mktime 9 0 0 0))
         = "2026-W40"%string).
Proof.
  repeat split; vm_compute; reflexivity.
Qed.

End TrendClaim.

(** ** Printing and parsing of dates *)

Section DateText.

Import Text.
Local Open Scope Z_scope.

Lemma digit_range (k : Z) :
  0 <= k < 10 ->
  k = 0 \/ k = 1 \/ k = 2 \/ k = 3 \/ k = 4 \/ k = 5 \/ k = 6 \/ k = 7
  \/ k = 8 \/ k = 9.
Proof.
  lia.
Qed.

(** Case analysis on a decimal digit. *)
Ltac each_digit H :=
  apply digit_range in H;
  repeat (destruct H as [H|H]; [subst|]); subst.

Lemma digit_val_digit (k : Z) : 0 <= k < 10 -> digit_val (digit k) = Some k.
Proof.
  intros H. each_digit H; reflexivity.
Qed.

Lemma is_space_digit (k : Z) : 0 <= k < 10 -> is_space (digit k) = false.
Proof.
  intros H. each_digit H; reflexivity.
Qed.

Lemma take2_pad2 (n : Z) (s : string) :
  0 <= n < 100 -> take2 (pad2 n ++ s)%string = Some (n, s).
Proof.
  intros H. unfold pad2, take2. cbn [String.append].
  rewrite !digit_val_digit by (Z.div_mod_to_equations; lia).
  repeat f_equal. Z.div_mod_to_equations. lia.
Qed.

Lemma take4_pad4 (n : Z) (s : string) :
  0 <= n < 10000 -> take4 (pad4 n ++ s)%string = Some (n, s).
Proof.
  intros H. unfold pad4, take4, pad2, take2. cbn [String.append].
  rewrite !digit_val_digit by (Z.div_mod_to_equations; lia).
  repeat f_equal. Z.div_mod_to_equations. lia.
Qed.

Lemma strptime_go_year (n : Z) (fmt : list directive) (s : string)
  (acc : fields) :
  0 <= n < 10000 ->
  strptime_go (DY :: fmt) (pad4 n ++ s)%string acc
  = strptime_go fmt s (set_field DY n acc).
Proof.
  intros H. cbn [strptime_go]. now rewrite take4_pad4.
Qed.

Lemma strptime_go_two (d : directive) (n : Z) (fmt : list directive)
  (s : string) (acc : fields) :
  d = Dm \/ d = Dd \/ d = DH \/ d = DM \/ d = DS ->
  0 <= n < 100 ->
  strptime_go (d :: fmt) (pad2 n ++ s)%string acc
  = strptime_go fmt s (set_field d n acc).
Proof.
  intros Hd H.
  destruct Hd as [ -> | [ -> | [ -> | [ -> | -> ] ] ] ]; cbn [strptime_go];
    now rewrite take2_pad2.
Qed.

Lemma strptime_go_lit (c : ascii) (fmt : list directive) (s : string)
  (acc : fields) :
  strptime_go (Lit c :: fmt) (String c s) acc = strptime_go fmt s acc.
Proof.
  cbn [strptime_go]. now rewrite Ascii.eqb_refl.
Qed.

Lemma valid_dateb_true (d : Calendar.date) : valid_dateb d = true <-> valid_date d.
Proof.
  unfold valid_dateb, valid_date.
  rewrite !andb_true_iff, !Z.leb_le. tauto.
Qed.

Lemma valid_timeb_true (t : time) : valid_timeb t = true <-> valid_time t.
Proof.
  unfold valid_timeb, valid_time.
  rewrite !andb_true_iff, !Z.leb_le, !Z.ltb_lt. tauto.
Qed.

Lemma printable_facts (dt : datetime) :
  Spec.printable dt = true ->
  valid_date (dt_date dt) /\ valid_time (dt_time dt)
  /\ 1000 <= year (dt_date dt) <= 9999.
Proof.
  unfold Spec.printable. rewrite !andb_true_iff, !Z.leb_le.
  rewrite valid_dateb_true, valid_timeb_true. tauto.
Qed.

Lemma strftime_ymd_shape (dt : datetime) :
  strftime fmt_ymd dt
  = (pad4 (year (dt_date dt))
     ++ String "-" (pad2 (month (dt_date dt))
     ++ String "-" (pad2 (day (dt_date dt)) ++ "")))%string.
Proof.
  reflexivity.
Qed.

Lemma strftime_ymd_hms_shape (dt : datetime) :
  strftime fmt_ymd_hms dt
  = (pad4 (year (dt_date dt))
     ++ String "-" (pad2 (month (dt_date dt))
     ++ String "-" (pad2 (day (dt_date dt))
     ++ String " " (pad2 (hour (dt_time dt))
     ++ String ":" (pad2 (minute (dt_time dt))
     ++ String ":" (pad2 (second (dt_time dt)) ++ ""))))))%string.
Proof.
  reflexivity.
Qed.

Lemma strptime_strftime_ymd (dt : datetime) :
  Spec.printable dt = true ->
  strptime (strftime fmt_ymd dt) fmt_ymd = Some (Spec.day_only dt).
Proof.
  intros H. apply printable_facts in H. destruct H as (Hd & Ht & Hy).
  pose proof (days_in_month_bounds (year (dt_date dt)) (month (dt_date dt))).
  destruct Hd as [Hm Hday].
  rewrite strftime_ymd_shape. unfold strptime, fmt_ymd.
  rewrite strptime_go_year by lia. rewrite strptime_go_lit.
  rewrite strptime_go_two by (auto; lia). rewrite strptime_go_lit.
  rewrite strptime_go_two by (auto; lia).
  cbn [strptime_go set_field fields0 f_year f_month f_day f_hour f_minute
         f_second].
  assert (Hv : valid_dateb (mkdate (year (dt_date dt)) (month (dt_date dt))
                              (day (dt_date dt))) = true).
  { apply valid_dateb_true. split; assumption. }
  rewrite Hv. cbn [andb]. unfold Spec.day_only, midnight.
  destruct dt as [[y m d] t]. reflexivity.
Qed.

Lemma strptime_strftime_ymd_hms (dt : datetime) :
  Spec.printable dt = true ->
  strptime (strftime fmt_ymd_hms dt) fmt_ymd_hms = Some (Spec.whole_second dt).
Proof.
  intros H. apply printable_facts in H. destruct H as (Hd & Ht & Hy).
  pose proof (days_in_month_bounds (year (dt_date dt)) (month (dt_date dt))).
  destruct Hd as [Hm Hday]. destruct Ht as (Hh & Hmi & Hs & Hus).
  rewrite strftime_ymd_hms_shape. unfold strptime, fmt_ymd_hms.
  rewrite strptime_go_year by lia. rewrite strptime_go_lit.
  rewrite strptime_go_two by (auto; lia). rewrite strptime_go_lit.
  rewrite strptime_go_two by (auto; lia). rewrite strptime_go_lit.
  rewrite strptime_go_two by (auto 6; lia). rewrite strptime_go_lit.
  rewrite strptime_go_two by (auto 6; lia). rewrite strptime_go_lit.
  rewrite strptime_go_two by (auto 6; lia).
  cbn [strptime_go set_field fields0 f_year f_month f_day f_hour f_minute
         f_second].
  assert (Hv : valid_dateb (mkdate (year (dt_date dt)) (month (dt_date dt))
                              (day (dt_date dt))) = true).
  { apply valid_dateb_true. split; assumption. }
  assert (Hv' : valid_timeb (mktime (hour (dt_time dt)) (minute (dt_time dt))
                               (second (dt_time dt)) 0) = true).
  { apply valid_timeb_true. unfold valid_time. cbn. lia. }
  rewrite Hv, Hv'. cbn [andb]. unfold Spec.whole_second.
  destruct dt as [[y m d] t]. reflexivity.
Qed.

End DateText.

(** ** Cells of a row *)

Section RowCells.

Import Text.
Local Open Scope Z_scope.

Lemma rstrip_keeps_last (s : string) (c : ascii) :
  is_space c = false ->
  rstrip (s ++ String c "")%string = (s ++ String c "")%string.
Proof.
  intros Hc. induction s as [|a s IH]; cbn [String.append rstrip].
  - now rewrite Hc.
  - rewrite IH. destruct s; reflexivity.
Qed.

Lemma strip_keeps (c c' : ascii) (s : string) :
  is_space c = false -> is_space c' = false ->
  strip (String c (s ++ String c' ""))%string
  = (String c (s ++ String c' ""))%string.
Proof.
  intros Hc Hc'. unfold strip. cbn [lstrip]. rewrite Hc.
  apply (rstrip_keeps_last (String c s) c' Hc').
Qed.

Lemma digit_text_not_missing (k : Z) (s : string) :
  0 <= k < 10 ->
  mem (lower (String (digit k) s)) ["nan"; "nat"; "none"; ""]%string = false.
Proof.
  intros H. apply digit_range in H.
  repeat (destruct H as [H|H]; [subst; reflexivity|]). subst. reflexivity.
Qed.

Lemma parse_date_strftime (dt : datetime) :
  Spec.printable dt = true ->
  parse_date (VStr (strftime fmt_ymd dt)) = Some (Spec.day_only dt).
Proof.
  intros H. pose proof (strptime_strftime_ymd dt H) as Hparse.
  apply printable_facts in H. destruct H as (Hd & Ht & Hy).
  unfold parse_date.
  assert (Hstrip : strip (strftime fmt_ymd dt) = strftime fmt_ymd dt).
  { change (strftime fmt_ymd dt)
      with (String (digit (year (dt_date dt) / 1000 mod 10))
              (String (digit (year (dt_date dt) / 100 mod 10))
                 (String (digit (year (dt_date dt) / 10 mod 10))
                    (String (digit (year (dt_date dt) mod 10))
                       (String "-"
                          (String (digit (month (dt_date dt) / 10 mod 10))
                             (String (digit (month (dt_date dt) mod 10))
                                (String "-"
                                   (String (digit (day (dt_date dt) / 10 mod 10))
                                      "")))))))
               ++ String (digit (day (dt_date dt) mod 10)) ""))%string.
    apply strip_keeps; apply is_space_digit; Z.div_mod_to_equations; lia. }
  rewrite Hstrip.
  change (is_empty (strftime fmt_ymd dt)) with false. cbn [orb].
  change (strftime fmt_ymd dt)
    with (String (digit (year (dt_date dt) / 1000 mod 10))
            (String (digit (year (dt_date dt) / 100 mod 10))
               (pad2 (year (dt_date dt))
                ++ String "-" (pad2 (month (dt_date dt))
                ++ String "-" (pad2 (day (dt_date dt)) ++ "")))))%string at 1.
  rewrite digit_text_not_missing by (Z.div_mod_to_equations; lia).
  unfold parse_date_formats. cbn [try_formats]. now rewrite Hparse.
Qed.

Lemma parse_date_strftime_opt (o : option datetime) :
  Spec.printable_opt o = true ->
  parse_date (VStr (Expense.strftime_opt fmt_ymd o))
  = option_map Spec.day_only o.
Proof.
  destruct o as [dt|];
    cbn [Expense.strftime_opt option_map Spec.printable_opt]; intros H.
  - now apply parse_date_strftime.
  - reflexivity.
Qed.

Lemma strptime_or_stamp {A : Type} (inj : datetime -> A) (dflt : A)
  (dt : datetime) :
  Spec.printable dt = true ->
  Expense.strptime_or inj dflt (VStr (strftime fmt_ymd_hms dt))
  = Ok (inj (Spec.whole_second dt)).
Proof.
  intros H. unfold Expense.strptime_or.
  change (truthy (VStr (strftime fmt_ymd_hms dt))) with true. cbn iota.
  now rewrite strptime_strftime_ymd_hms.
Qed.

Lemma strptime_or_stamp_opt (o : option datetime) :
  Spec.printable_opt o = true ->
  Expense.strptime_or Some None (VStr (Expense.strftime_opt fmt_ymd_hms o))
  = Ok (option_map Spec.whole_second o).
Proof.
  destruct o as [dt|];
    cbn [Expense.strftime_opt option_map Spec.printable_opt]; intros H.
  - now apply strptime_or_stamp.
  - reflexivity.
Qed.

Lemma str_or_none_round (o : option string) :
  Spec.text_or_absent o = true -> str_or_none (VStr (opt_or_empty o)) = o.
Proof.
  destruct o as [s|]; simpl; intros H; [|reflexivity].
  apply negb_true_iff in H. now rewrite H.
Qed.

(** Comma-joined tags *)

Lemma split_no_comma (t : string) :
  Spec.has_char "," t = false -> split "," t = [t].
Proof.
  induction t as [|c t IH]; simpl; intros H; [reflexivity|].
  apply orb_false_iff in H. destruct H as [Hc Ht].
  rewrite Hc, (IH Ht). reflexivity.
Qed.

Lemma split_at_comma (t rest : string) :
  Spec.has_char "," t = false ->
  split "," (t ++ String "," rest)%string = t :: split "," rest.
Proof.
  induction t as [|c t IH]; simpl; intros H; [reflexivity|].
  apply orb_false_iff in H. destruct H as [Hc Ht].
  rewrite Hc, (IH Ht). reflexivity.
Qed.

Lemma clean_tag_facts (t : string) :
  Spec.clean_tag t = true ->
  is_empty t = false /\ Spec.has_char "," t = false /\ strip t = t.
Proof.
  unfold Spec.clean_tag. rewrite !andb_true_iff, !negb_true_iff.
  intros [[H1 H2] H3]. apply String.eqb_eq in H3. auto.
Qed.

Lemma split_join (t : string) (ts : list string) :
  forallb Spec.clean_tag (t :: ts) = true ->
  split "," (join "," (t :: ts)) = t :: ts.
Proof.
  revert t. induction ts as [|t' ts IH]; intros t H.
  - simpl in H. rewrite andb_true_r in H.
    apply clean_tag_facts in H. simpl. now apply split_no_comma.
  - cbn [forallb] in H. apply andb_true_iff in H. destruct H as [Ht H].
    apply clean_tag_facts in Ht. destruct Ht as (_ & Hc & _).
    change (join "," (t :: t' :: ts))
      with (t ++ String "," (join "," (t' :: ts)))%string.
    rewrite split_at_comma by exact Hc. now rewrite IH.
Qed.

Lemma strip_clean_tags (ts : list string) :
  forallb Spec.clean_tag ts = true ->
  map strip (filter (fun t => negb (is_empty (strip t))) ts) = ts.
Proof.
  induction ts as [|t ts IH]; simpl; intros H; [reflexivity|].
  apply andb_true_iff in H. destruct H as [Ht H].
  apply clean_tag_facts in Ht. destruct Ht as (He & _ & Hs).
  rewrite Hs, He. simpl. now rewrite Hs, IH.
Qed.

Lemma tags_round (ts : list string) :
  forallb Spec.clean_tag ts = true ->
  Expense.tags_of_value
    (VStr (match ts with
           | [] => EmptyString
           | _ => join "," ts
           end)) = ts.
Proof.
  intros H. destruct ts as [|t ts]; [reflexivity|].
  unfold Expense.tags_of_value, parse_tags.
  rewrite split_join by exact H. now apply strip_clean_tags.
Qed.

End RowCells.

(** ** Round trip of a record through its row *)

Section RoundTrip.

Local Open Scope Z_scope.

Lemma to_dict_cells (e : Expense.t) :
  dict_get "is_recurring" (Expense.to_dict e) = VBool (Expense.is_recurring e)
  /\ dict_get "is_deleted" (Expense.to_dict e) = VBool (Expense.is_deleted e)
  /\ dict_get_or "tags" (VStr "") (Expense.to_dict e)
     = VStr (match Expense.tags e with
             | [] => EmptyString
             | _ => Text.join "," (Expense.tags e)
             end)
  /\ dict_get "deleted_at" (Expense.to_dict e)
     = VStr (Expense.strftime_opt Text.fmt_ymd_hms (Expense.deleted_at e))
  /\ dict_get "created_at" (Expense.to_dict e)
     = VStr (Text.strftime Text.fmt_ymd_hms (Expense.created_at e))
  /\ dict_get "updated_at" (Expense.to_dict e)
     = VStr (Text.strftime Text.fmt_ymd_hms (Expense.updated_at e))
  /\ dict_get_or "amount" (VInt 0) (Expense.to_dict e)
     = VFloat (Expense.amount e)
  /\ dict_get "expense_id" (Expense.to_dict e) = VStr (Expense.expense_id e)
  /\ dict_get "date" (Expense.to_dict e)
     = VStr (Text.strftime Text.fmt_ymd (Expense.date e))
  /\ dict_get_or "category" (VStr "") (Expense.to_dict e)
     = VStr (Expense.category e)
  /\ dict_get_or "subcategory" (VStr "") (Expense.to_dict e)
     = VStr (Expense.subcategory e)
  /\ dict_get_or "vendor" (VStr "") (Expense.to_dict e)
     = VStr (Expense.vendor e)
  /\ dict_get_or "payment_method" (VStr "") (Expense.to_dict e)
     = VStr (Expense.payment_method e)
  /\ dict_get_or "description" (VStr "") (Expense.to_dict e)
     = VStr (Expense.description e)
  /\ dict_get "recurring_type" (Expense.to_dict e)
     = VStr (opt_or_empty (Expense.recurring_type e))
  /\ dict_get "recurring_action" (Expense.to_dict e)
     = VStr (opt_or_empty (Expense.recurring_action e))
  /\ dict_get "next_due_date" (Expense.to_dict e)
     = VStr (Expense.strftime_opt Text.fmt_ymd (Expense.next_due_date e))
  /\ dict_get "last_recurring_date" (Expense.to_dict e)
     = VStr (Expense.strftime_opt Text.fmt_ymd (Expense.last_recurring_date e))
  /\ dict_get "recurring_parent_id" (Expense.to_dict e)
     = VStr (opt_or_empty (Expense.recurring_parent_id e)).
Proof.
  repeat split; reflexivity.
Qed.

Lemma storable_facts (e : Expense.t) :
  Spec.storable e = true ->
  Text.is_empty (Expense.expense_id e) = false
  /\ forallb Spec.clean_tag (Expense.tags e) = true
  /\ Spec.text_or_absent (Expense.recurring_type e) = true
  /\ Spec.text_or_absent (Expense.recurring_action e) = true
  /\ Spec.text_or_absent (Expense.recurring_parent_id e) = true
  /\ Spec.printable (Expense.date e) = true
  /\ Spec.printable_opt (Expense.next_due_date e) = true
  /\ Spec.printable_opt (Expense.last_recurring_date e) = true
  /\ Spec.printable_opt (Expense.deleted_at e) = true
  /\ Spec.printable (Expense.created_at e) = true
  /\ Spec.printable (Expense.updated_at e) = true.
Proof.
  unfold Spec.storable. rewrite !andb_true_iff, negb_true_iff. tauto.
Qed.

Lemma from_dict_to_dict (now : datetime) (uuid4 : string) (e : Expense.t) :
  Spec.storable e = true ->
  Expense.from_dict now uuid4 (Expense.to_dict e) = Ok (Spec.stored e).
Proof.
  intros Hs. apply storable_facts in Hs.
  destruct Hs as (Hid & Htags & Hrt & Hra & Hrp & Hdate & Hnext & Hlast
                  & Hdel & Hcre & Hupd).
  destruct (to_dict_cells e)
    as (C1 & C2 & C3 & C4 & C5 & C6 & C7 & C8 & C9 & C10 & C11 & C12 & C13
        & C14 & C15 & C16 & C17 & C18 & C19).
  unfold Expense.from_dict.
  rewrite C1, C2, C3, C4, C5, C6, C7, C8, C9, C10, C11, C12, C13, C14, C15,
    C16, C17, C18, C19.
  rewrite (strptime_or_stamp_opt _ Hdel).
  rewrite (strptime_or_stamp (fun dt => dt) now _ Hcre).
  rewrite (strptime_or_stamp (fun dt => dt) now _ Hupd).
  cbn [Py.bind py_float parse_flag truthy as_str].
  rewrite Hid. cbn [negb].
  rewrite (tags_round _ Htags).
  rewrite (parse_date_strftime _ Hdate).
  rewrite (parse_date_strftime_opt _ Hnext), (parse_date_strftime_opt _ Hlast).
  rewrite (str_or_none_round _ Hrt), (str_or_none_round _ Hra),
    (str_or_none_round _ Hrp).
  reflexivity.
Qed.

(** C10 (as amended).  For a record whose id is not empty, whose tags are
    non-empty, comma-free and without blanks at either end, whose optional
    text fields are not the empty text and whose instants are valid with a
    four-digit year, [from_dict (to_dict e)] succeeds and gives back the
    record with every field equal, except that [date], [next_due_date] and
    [last_recurring_date] are brought to day precision and [deleted_at],
    [created_at] and [updated_at] to whole seconds. *)
Theorem C10_row_round_trip (now : datetime) (uuid4 : string) (e : Expense.t)
  (Hstorable : Spec.storable e = true) :
  Expense.from_dict now uuid4 (Expense.to_dict e) = Ok (Spec.stored e).
Proof.
  now apply from_dict_to_dict.
Qed.

Lemma C10_round_trip_witness :
  Spec.storable Sample.stamped = true
  /\ Expense.from_dict Sample.now0 "fresh" (Expense.to_dict Sample.stamped)
     = Ok (Spec.stored Sample.stamped).
Proof.
  assert (H : Spec.storable Sample.stamped = true) by (vm_compute; reflexivity).
  split; [exact H|].
  exact (C10_row_round_trip Sample.now0 "fresh" Sample.stamped H).
Defined.

(** C10 (as stated) fails: the timestamps of a record lose their
    microseconds in the row, although the row keeps their time of day, so
    the record read back differs from the original also after its
    day-printed fields are brought to day precision. *)
Lemma C10_microseconds_lost_counterexample :
  Spec.storable Sample.stamped = true
  /\ Expense.from_dict Sample.now0 "fresh" (Expense.to_dict Sample.stamped)
     <> Ok (Spec.day_normalized Sample.stamped)
  /\ Expense.from_dict Sample.now0 "fresh" (Expense.to_dict Sample.stamped)
     <> Ok Sample.stamped.
Proof.
  split; [vm_compute; reflexivity|].
  rewrite (from_dict_to_dict _ _ _ (eq_refl : Spec.storable Sample.stamped = true)).
  split; intros H;
    apply (f_equal (fun r => match r with
                             | Ok x => microsecond (dt_time (Expense.created_at x))
                             | Raise _ => 0
                             end)) in H;
    vm_compute in H; discriminate H.
Qed.

End RoundTrip.

(** * Further properties of the modelled code *)

(** ** Reports built on the summary *)

Section SummaryCallers.

Variables np_mean np_median np_std : list Q -> Q.

(** Every caller of [calculate_basic_stats] fails with it:
    [compare_periods], [compare_months] and [generate_monthly_report] raise
    the [TypeError] of the summary constructor on every input, so no
    period comparison and no monthly report is ever produced. *)
Theorem comparisons_and_report_raise (fuel : nat) (now : datetime)
  (expenses : list Expense.t) (budgets : list Budget.t)
  (month : option datetime) (s1 e1 s2 e2 m1 m2 : datetime) :
  ReportGenerator.compare_periods np_mean np_median np_std expenses s1 e1 s2 e2
  = Raise (TypeError
             "__init__() got an unexpected keyword argument: category_totals")
  /\ ReportGenerator.compare_months np_mean np_median np_std expenses m1 m2
     = Raise (TypeError
                "__init__() got an unexpected keyword argument: category_totals")
  /\ ReportGenerator.generate_monthly_report np_mean np_median np_std fuel now
       expenses budgets month
     = Some (Raise (TypeError
                "__init__() got an unexpected keyword argument: category_totals")).
Proof.
  assert (Hcmp : forall a b c d,
             ReportGenerator.compare_periods np_mean np_median np_std expenses
               a b c d
             = Raise (TypeError
                 "__init__() got an unexpected keyword argument: category_totals")).
  { intros a b c d. unfold ReportGenerator.compare_periods. cbv zeta.
    now rewrite basic_stats_type_error. }
  split; [apply Hcmp|]. split.
  - unfold ReportGenerator.compare_months. cbv zeta. apply Hcmp.
  - apply monthly_report_type_error.
Qed.

End SummaryCallers.

(** ** Severity of a budget's status *)

Section StatusOrder.

Import BudgetManager.
Local Open Scope Q_scope.

Lemma used_percentage_monotone (budget : Budget.t) (s1 s2 : Q) :
  s1 <= s2 ->
  Budget.get_used_percentage (set_spent budget s1)
  <= Budget.get_used_percentage (set_spent budget s2).
Proof.
  intros Hle. unfold Budget.get_used_percentage. cbn [Budget.amount Budget.spent set_spent].
  destruct (Qle_bool (Budget.amount budget) 0) eqn:E; qprop; [lra|].
  apply Qmult_le_compat_r; [|lra].
  unfold Qdiv. apply Qmult_le_compat_r; [exact Hle|].
  apply Qinv_le_0_compat. lra.
Qed.

(** The status never becomes less severe when more is spent: for the same
    budget and manager, a larger [spent] gives a status at least as high
    in the order UNDER_BUDGET < WARNING < CRITICAL < OVER_BUDGET, whatever
    the thresholds are. *)
Theorem status_monotone_in_spent (self : BudgetManager.t) (budget : Budget.t)
  (s1 s2 : Q) (Hle : s1 <= s2) :
  (Spec.severity (fst (get_budget_status (set_spent budget s1) self))
   <= Spec.severity (fst (get_budget_status (set_spent budget s2) self)))%Z.
Proof.
  pose proof (used_percentage_monotone budget s1 s2 Hle) as Hp.
  unfold get_budget_status, mbind, read, ret.
  cbn [Budget.amount set_spent].
  destruct (Qle_bool (Budget.amount budget) 0); [simpl; lia|].
  set (p1 := Budget.get_used_percentage (set_spent budget s1)) in *.
  set (p2 := Budget.get_used_percentage (set_spent budget s2)) in *.
  clearbody p1 p2.
  destruct (Qle_bool 100 p1) eqn:A1; destruct (Qle_bool 100 p2) eqn:A2;
    destruct (Qle_bool (critical_threshold self) p1) eqn:B1;
    destruct (Qle_bool (critical_threshold self) p2) eqn:B2;
    destruct (Qle_bool (warning_threshold self) p1) eqn:C1;
    destruct (Qle_bool (warning_threshold self) p2) eqn:C2;
    cbn [fst Spec.severity]; try lia; qprop; exfalso; lra.
Qed.

Lemma status_monotone_witness :
  750 <= 960
  /\ (Spec.severity
        (fst (get_budget_status (set_spent Sample.budget75 750) (init [])))
      <= Spec.severity
           (fst (get_budget_status (set_spent Sample.budget75 960) (init []))))%Z.
Proof.
  assert (H : 750 <= 960) by (unfold Qle; simpl; lia).
  split; [exact H|].
  exact (status_monotone_in_spent (init []) Sample.budget75 750 960 H).
Defined.

End StatusOrder.

(** ** Recurring summary and budget comparison *)

Section BudgetReports.

Import ReportGenerator.
Local Open Scope Q_scope.





Lemma datetime_leb_date (a b : datetime) :
  datetime_leb a b = true -> date_leb (dt_date a) (dt_date b) = true.
Proof.
  unfold datetime_leb, date_leb. intros H.
  apply orb_true_iff in H. destruct H as [H|H].
  - now rewrite H.
  - apply andb_true_iff in H. destruct H as [H _]. rewrite H.
    apply orb_true_r.
Qed.

Lemma Qsum_filter_le (p q : Expense.t -> bool) (l : list Expense.t) :
  (forall e, p e = true -> q e = true) ->
  Forall (fun e => 0 <= Expense.amount e) l ->
  Spec.Qsum (map Expense.amount (filter p l))
  <= Spec.Qsum (map Expense.amount (filter q l)).
Proof.
  intros Hpq Hl. induction Hl as [|e l He Hl IH]; simpl; [lra|].
  destruct (p e) eqn:Ep.
  - rewrite (Hpq e Ep). simpl. lra.
  - destruct (q e); simpl; lra.
Qed.

Lemma sum_Qsum (l : list Q) : sum l == Spec.Qsum l.
Proof.
  unfold sum.
  assert (H : forall a, fold_left Qplus l a == a + Spec.Qsum l).
  { induction l as [|x l IH]; intros a; simpl; [ring|]. rewrite IH. ring. }
  rewrite H. ring.
Qed.

(** [get_budget_vs_actual] gives one row per budget, in the order of the
    budgets.  In each row variance + actual is the budget amount, the used
    and variance percentages add up to 100 when the amount is positive, and
    the row is marked over exactly when actual > amount.  The rows compare
    full instants with [period_end], which carries the time of day of
    [period_start], so every record a row counts is also counted by
    [calculate_spent] (which compares days) but not conversely: with
    non-negative amounts, actual <= calculate_spent, and a record made at
    10:30 on the last day of a period that starts at midnight is counted by
    [calculate_spent] only. *)
Theorem budget_vs_actual_rows (self : BudgetManager.t)
  (expenses : list Expense.t) (budgets : list Budget.t)
  (Hamounts : Forall (fun e => 0 <= Expense.amount e) expenses) :
  let rows := get_budget_vs_actual expenses budgets in
  map br_category rows = map Budget.category budgets
  /\ map br_budget rows = map Budget.amount budgets
  /\ Forall2
       (fun budget row =>
          br_variance row + br_actual row == Budget.amount budget
          /\ (0 < Budget.amount budget ->
              br_used_percentage row + br_variance_percentage row == 100)
          /\ (br_over row = true <-> Budget.amount budget < br_actual row)
          /\ br_actual row
             <= fst (BudgetManager.calculate_spent budget expenses self))
       budgets rows
  /\ (map br_actual
        (get_budget_vs_actual [Sample.last_day_expense] [Sample.budget75])
      = [0]
      /\ fst (BudgetManager.calculate_spent Sample.budget75
                [Sample.last_day_expense] self) == 100).
Proof.
  cbv zeta. unfold get_budget_vs_actual.
  rewrite !map_map. split; [reflexivity|]. split; [reflexivity|].
  split; [|split; vm_compute; reflexivity].
  induction budgets as [|b bs IH]; cbn [map]; constructor; [|exact IH].
  cbn [br_variance br_actual br_used_percentage br_variance_percentage br_over].
  split; [|split; [|split; [split|]]].
  - ring.
  - intros Hpos. unfold percentage_of.
    apply Qlt_bool_iff in Hpos. rewrite Hpos.
    apply Qlt_bool_iff in Hpos. field.
    intros H0. rewrite H0 in Hpos. now apply Qlt_irrefl in Hpos.
  - apply Qlt_bool_iff.
  - apply Qlt_bool_iff.
  - rewrite calculate_spent_sum. cbn [fst].
    rewrite sum_amounts_Qsum, sum_Qsum.
    apply Qsum_filter_le; [|exact Hamounts].
    intros e He. unfold Spec.counts_for.
    rewrite !andb_true_iff in He. destruct He as [[Hc [H1 H2]] Hd].
    rewrite Hd, Hc. simpl.
    now rewrite (datetime_leb_date _ _ H1), (datetime_leb_date _ _ H2).
Qed.

Lemma budget_vs_actual_witness :
  Forall (fun e => 0 <= Expense.amount e) Sample.recorded_750
  /\ map br_category (get_budget_vs_actual Sample.recorded_750 [Sample.budget75])
     = map Budget.category [Sample.budget75].
Proof.
  assert (H : Forall (fun e => 0 <= Expense.amount e) Sample.recorded_750).
  { repeat constructor; unfold Qle; simpl; lia. }
  split; [exact H|].
  exact (proj1 (budget_vs_actual_rows (BudgetManager.init [])
                  Sample.recorded_750 [Sample.budget75] H)).
Defined.

End BudgetReports.

(** ** Month and period boundaries *)

Section Boundaries.

Local Open Scope Z_scope.

Lemma month_index_split (i : Z) :
  12 * (i / 12) + (i mod 12 + 1 - 1) = i /\ 1 <= i mod 12 + 1 <= 12.
Proof.
  Z.div_mod_to_equations. lia.
Qed.

(** The day before the first day of the month [k] months after a first of
    month is the last day of the month [k - 1] months after it. *)
Lemma day_before_month_start (y mo k : Z) :
  1 <= mo <= 12 ->
  prev_day (add_months (mkdate y mo 1) k)
  = Spec.last_day_of_month (12 * y + (mo - 1) + k - 1).
Proof.
  intros Hmo. unfold add_months, Spec.last_day_of_month.
  cbn [year month day].
  set (idx := y * 12 + (mo - 1) + k).
  replace (12 * y + (mo - 1) + k - 1) with (idx - 1) by (unfold idx; lia).
  pose proof (days_in_month_bounds (idx / 12) (idx mod 12 + 1)) as Hb.
  rewrite Z.min_l by lia.
  unfold prev_day. cbn [year month day].
  rewrite Z.ltb_irrefl.
  destruct (1 <? idx mod 12 + 1) eqn:E.
  - apply Z.ltb_lt in E.
    assert (H1 : (idx - 1) / 12 = idx / 12) by (Z.div_mod_to_equations; lia).
    assert (H2 : (idx - 1) mod 12 + 1 = idx mod 12 + 1 - 1)
      by (Z.div_mod_to_equations; lia).
    now rewrite H1, H2.
  - apply Z.ltb_ge in E.
    assert (H1 : (idx - 1) / 12 = idx / 12 - 1)
      by (Z.div_mod_to_equations; lia).
    assert (H2 : (idx - 1) mod 12 + 1 = 12) by (Z.div_mod_to_equations; lia).
    now rewrite H1, H2.
Qed.

Lemma add_months_first_valid (y mo k : Z) :
  valid_date (add_months (mkdate y mo 1) k).
Proof.
  unfold add_months, valid_date. cbn [year month day].
  set (idx := y * 12 + (mo - 1) + k).
  pose proof (days_in_month_bounds (idx / 12) (idx mod 12 + 1)) as Hb.
  rewrite Z.min_l by lia.
  split; [Z.div_mod_to_equations; lia|lia].
Qed.

Lemma add_years_first (y mo : Z) :
  1 <= mo <= 12 -> add_years (mkdate y mo 1) 1 = add_months (mkdate y mo 1) 12.
Proof.
  intros Hmo. unfold add_years, add_months. cbn [year month day].
  assert (H1 : (y * 12 + (mo - 1) + 12) / 12 = y + 1)
    by (Z.div_mod_to_equations; lia).
  assert (H2 : (y * 12 + (mo - 1) + 12) mod 12 + 1 = mo)
    by (Z.div_mod_to_equations; lia).
  now rewrite H1, H2.
Qed.

Lemma period_end_as_months (b : Budget.t) :
  1 <= month (dt_date (Budget.period_start b)) <= 12 ->
  day (dt_date (Budget.period_start b)) = 1 ->
  Budget.period_end b
  = mkdt (prev_day (add_months (dt_date (Budget.period_start b))
                      (Spec.period_months b)))
         (dt_time (Budget.period_start b)).
Proof.
  intros Hmo Hday. unfold Budget.period_end, Spec.period_months.
  destruct (String.eqb (Budget.period_type b) "monthly"); [reflexivity|].
  destruct (String.eqb (Budget.period_type b) "quarterly"); [reflexivity|].
  destruct (String.eqb (Budget.period_type b) "yearly"); [|reflexivity].
  unfold Budget.plus_years_minus_day.
  destruct (dt_date (Budget.period_start b)) as [y mo d].
  cbn [year month day] in *. subst d.
  now rewrite add_years_first.
Qed.

Lemma period_months_positive (b : Budget.t) : 1 <= Spec.period_months b.
Proof.
  unfold Spec.period_months.
  destruct (String.eqb _ "monthly"); [lia|].
  destruct (String.eqb _ "quarterly"); [lia|].
  destruct (String.eqb _ "yearly"); lia.
Qed.

(** A budget that starts on the first day of a month ends on the last day
    of a month: of the same month for a monthly budget (and for an unknown
    period type), of the third month for a quarterly and of the twelfth for
    a yearly one.  [period_end] keeps the time of day of [period_start], is
    not before it, and the day after it is the first day of the next
    period. *)
Theorem period_end_last_day (b : Budget.t)
  (Hmonth : 1 <= month (dt_date (Budget.period_start b)) <= 12)
  (Hday : day (dt_date (Budget.period_start b)) = 1) :
  let start := dt_date (Budget.period_start b) in
  let k := Spec.period_months b in
  dt_date (Budget.period_end b)
  = Spec.last_day_of_month (Spec.month_index start + k - 1)
  /\ dt_time (Budget.period_end b) = dt_time (Budget.period_start b)
  /\ date_leb start (dt_date (Budget.period_end b)) = true
  /\ next_day (dt_date (Budget.period_end b)) = add_months start k.
Proof.
  cbv zeta. rewrite (period_end_as_months b Hmonth Hday). cbn [dt_date dt_time].
  pose proof (period_months_positive b) as Hk.
  destruct (dt_date (Budget.period_start b)) as [y mo d] eqn:Es.
  cbn [year month day] in *. subst d. unfold Spec.month_index.
  cbn [year month day].
  rewrite day_before_month_start by exact Hmonth.
  split; [reflexivity|]. split; [reflexivity|]. split.
  - unfold Spec.last_day_of_month, date_leb, date_ltb, date_eqb.
    cbn [year month day].
    set (i := 12 * y + (mo - 1) + Spec.period_months b - 1).
    pose proof (days_in_month_bounds (i / 12) (i mod 12 + 1)) as Hb.
    destruct (month_index_split i) as [Hi Hm].
    rewrite ?orb_true_iff, ?andb_true_iff, ?Z.ltb_lt, ?Z.eqb_eq.
    assert (Hge : 12 * y + (mo - 1) <= i) by (unfold i; lia).
    lia.
  - rewrite <- day_before_month_start by exact Hmonth.
    apply next_prev_day. apply add_months_first_valid.
Qed.

Lemma period_end_witness :
  1 <= month (dt_date (Budget.period_start Sample.budget75)) <= 12
  /\ day (dt_date (Budget.period_start Sample.budget75)) = 1
  /\ dt_date (Budget.period_end Sample.budget75) = mkdate 2026 11 30.
Proof.
  assert (H1 : 1 <= month (dt_date (Budget.period_start Sample.budget75)) <= 12)
    by (simpl; lia).
  assert (H2 : day (dt_date (Budget.period_start Sample.budget75)) = 1)
    by reflexivity.
  split; [exact H1|]. split; [exact H2|].
  rewrite (proj1 (period_end_last_day Sample.budget75 H1 H2)).
  reflexivity.
Defined.

End Boundaries.

Section MonthFilter.

Import ReportGenerator.
Local Open Scope Z_scope.

Lemma month_end_of_start (m : datetime) :
  1 <= month (dt_date m) <= 12 ->
  month_end_of (month_start_of m)
  = mkdt (mkdate (year (dt_date m)) (month (dt_date m))
            (days_in_month (year (dt_date m)) (month (dt_date m))))
         (mktime 23 59 59 0).
Proof.
  intros Hm. unfold month_end_of, month_start_of, sub_one_second, midnight.
  cbn [dt_date dt_time hour minute second microsecond Z.ltb Z.compare].
  rewrite day_before_month_start by exact Hm.
  unfold Spec.last_day_of_month.
  set (y := year (dt_date m)). set (mo := month (dt_date m)) in *.
  assert (H1 : (12 * y + (mo - 1) + 1 - 1) / 12 = y)
    by (Z.div_mod_to_equations; lia).
  assert (H2 : (12 * y + (mo - 1) + 1 - 1) mod 12 + 1 = mo)
    by (Z.div_mod_to_equations; lia).
  now rewrite H1, H2.
Qed.

(** [month_expenses] keeps exactly the active records dated in the calendar
    month of [month], except that a record dated in the last second of the
    month with a non-zero microsecond is left out, because the end of the
    month is taken at 23:59:59.000000. *)
Theorem month_expenses_exact (month_ : datetime) (expenses : list Expense.t)
  (e : Expense.t)
  (Hmonth : 1 <= month (dt_date month_) <= 12)
  (Hdate : valid_datetime (Expense.date e)) :
  In e (month_expenses month_ expenses) <->
  In e expenses
  /\ Expense.is_deleted e = false
  /\ year (dt_date (Expense.date e)) = year (dt_date month_)
  /\ month (dt_date (Expense.date e)) = month (dt_date month_)
  /\ ~ (day (dt_date (Expense.date e))
        = days_in_month (year (dt_date month_)) (month (dt_date month_))
        /\ hour (dt_time (Expense.date e)) = 23
        /\ minute (dt_time (Expense.date e)) = 59
        /\ second (dt_time (Expense.date e)) = 59
        /\ 0 < microsecond (dt_time (Expense.date e))).
Proof.
  unfold month_expenses. cbv zeta. rewrite filter_In.
  rewrite (month_end_of_start month_ Hmonth).
  unfold month_start_of, midnight.
  destruct Hdate as [[Hm Hd] (Hh & Hmi & Hs & Hus)].
  destruct (Expense.date e) as [[y mo d] [h mi s us]].
  cbn [dt_date dt_time year month day hour minute second microsecond] in *.
  set (Y := year (dt_date month_)) in *.
  set (M := month (dt_date month_)) in *.
  pose proof (days_in_month_bounds Y M) as Hb.
  unfold datetime_leb, date_ltb, date_eqb, time_leb, time_ltb, time_eqb.
  cbn [dt_date dt_time year month day hour minute second microsecond].
  rewrite !andb_true_iff, !orb_true_iff, negb_true_iff.
  rewrite ?andb_true_iff, ?orb_true_iff, ?Z.ltb_lt, ?Z.eqb_eq.
  split.
  - intros (Hin & (H1 & H2) & Hdel).
    split; [exact Hin|]. split; [exact Hdel|].
    assert (y = Y /\ mo = M) as [-> ->] by lia.
    split; [reflexivity|]. split; [reflexivity|]. lia.
  - intros (Hin & Hdel & -> & -> & Hlast).
    split; [exact Hin|]. split; [|exact Hdel]. lia.
Qed.

Lemma month_expenses_witness :
  1 <= month (dt_date Sample.now0) <= 12
  /\ valid_datetime (Expense.date Sample.candidate_70)
  /\ In Sample.candidate_70
       (month_expenses Sample.now0 (Sample.candidate_70 :: Sample.recorded_750)).
Proof.
  assert (H1 : 1 <= month (dt_date Sample.now0) <= 12) by (simpl; lia).
  assert (H2 : valid_datetime (Expense.date Sample.candidate_70)).
  { repeat split; try (apply Z.leb_le; reflexivity);
      apply Z.ltb_lt; reflexivity. }
  split; [exact H1|]. split; [exact H2|].
  apply (month_expenses_exact Sample.now0
           (Sample.candidate_70 :: Sample.recorded_750) Sample.candidate_70
           H1 H2).
  split; [now left|]. split; [reflexivity|].
  split; [reflexivity|]. split; [reflexivity|].
  intros (H & _). vm_compute in H. discriminate H.
Defined.

End MonthFilter.

(** ** What a grouping dictionary holds *)

Section DictionaryEntries.

Import ReportGenerator.
Local Open Scope Q_scope.

Lemma first_seen_subset (x : string) (l : list string) :
  In x (Spec.first_seen l) -> In x l.
Proof.
  induction l as [|k l IH]; simpl; [tauto|].
  intros [H|H]; [now left|]. apply filter_In in H. right. now apply IH.
Qed.

Lemma first_seen_NoDup (l : list string) : NoDup (Spec.first_seen l).
Proof.
  induction l as [|k l IH]; simpl; constructor.
  - intros H. apply filter_In in H. destruct H as [_ H].
    now rewrite String.eqb_refl in H.
  - now apply NoDup_filter.
Qed.

Lemma first_seen_length (l : list string) :
  (List.length (Spec.first_seen l) <= List.length l)%nat.
Proof.
  induction l as [|k l IH]; simpl; [lia|].
  pose proof (filter_length_le (fun x => negb (String.eqb x k))
                (Spec.first_seen l)). lia.
Qed.

Lemma get_of_entry {V : Type} (k : string) (v : V) (d : list (string * V)) :
  NoDup (map fst d) -> In (k, v) d -> Py.get String.eqb k d = Some v.
Proof.
  induction d as [|[k' v'] d IH]; simpl; intros Hnd Hin; [tauto|].
  inversion Hnd as [|? ? Hnotin Hnd']; subst.
  destruct Hin as [Heq|Hin].
  - injection Heq as -> ->. now rewrite String.eqb_refl.
  - destruct (String.eqb k k') eqn:E.
    + apply String.eqb_eq in E. subst k'. exfalso. apply Hnotin.
      apply (in_map fst) in Hin. exact Hin.
    + now apply IH.
Qed.

(** Every entry of a grouping dictionary holds the sum and the number of the
    records of its key. *)
Lemma tally_entry_sum (key : Expense.t -> string) (l : list Expense.t)
  (k : string) (g : group) :
  In (k, g) (fold_left (tally key) l []) ->
  g = mkgroup
        (sum (map Expense.amount (filter (fun e => String.eqb (key e) k) l)))
        (Z.of_nat (List.length (filter (fun e => String.eqb (key e) k) l))).
Proof.
  intros Hin.
  assert (Hget : Py.get_default String.eqb k group0
                   (fold_left (tally key) l []) = g).
  { unfold Py.get_default. rewrite (get_of_entry k g); [reflexivity| |exact Hin].
    rewrite tally_first_seen. apply first_seen_NoDup. }
  rewrite get_default_fold_tally, fold_tally_entry in Hget.
  now rewrite <- Hget.
Qed.

End DictionaryEntries.

(** ** Vendor ranking *)

Section TopVendors.

Import ReportGenerator.
Local Open Scope Q_scope.

Lemma descending_app {A : Type} (key : A -> Q) (l1 l2 : list A) :
  Spec.descending key (l1 ++ l2) ->
  forall x y, In x l1 -> In y l2 -> key y <= key x.
Proof.
  unfold Spec.descending. intros Hs.
  apply Sorted_StronglySorted in Hs;
    [|intros a b c Hab Hbc; now apply (Qle_trans _ (key b))].
  induction l1 as [|a l1 IH]; simpl in *; intros x y Hx Hy; [tauto|].
  inversion Hs as [|? ? Hs' Hall]; subst.
  destruct Hx as [->|Hx].
  - rewrite Forall_forall in Hall. apply Hall. apply in_or_app. now right.
  - now apply IH.
Qed.

Lemma top_vendors_unfold (l : list Expense.t) (n : Z) :
  (0 <= n)%Z ->
  get_top_vendors l n
  = firstn (Z.to_nat n)
      (sort_desc row_amount
         (map (make_row (fold_left (fun acc e => acc + Expense.amount e) l 0))
            (fold_left (tally Expense.vendor) l []))).
Proof.
  intros Hn. destruct l as [|e l].
  - simpl. now rewrite firstn_nil.
  - unfold get_top_vendors, slice_to.
    apply Z.leb_le in Hn. now rewrite Hn.
Qed.

(** [get_top_vendors] with [n >= 0] returns the first [n] rows of the full
    vendor ranking, hence at most [n] rows.  The ranking has one row per
    vendor, in descending order of amount; each row holds the sum and the
    number of that vendor's records; and no vendor left out of the top [n]
    has a larger amount than one that is in it. *)
Theorem top_vendors_ranking (expenses : list Expense.t) (n : Z)
  (Hn : (0 <= n)%Z) :
  let top := get_top_vendors expenses n in
  let ranking :=
    get_top_vendors expenses (Z.of_nat (List.length expenses)) in
  top = firstn (Z.to_nat n) ranking
  /\ (List.length top <= Z.to_nat n)%nat
  /\ Spec.descending row_amount ranking
  /\ Permutation (map row_key ranking)
       (Spec.first_seen (map Expense.vendor expenses))
  /\ (forall r, In r ranking ->
        row_amount r
        = sum (map Expense.amount
                 (filter (fun e => String.eqb (Expense.vendor e) (row_key r))
                    expenses))
        /\ row_count r
           = Z.of_nat
               (List.length
                  (filter (fun e => String.eqb (Expense.vendor e) (row_key r))
                     expenses)))
  /\ (forall r r', In r top -> In r' (skipn (Z.to_nat n) ranking) ->
        row_amount r' <= row_amount r).
Proof.
  cbv zeta.
  rewrite (top_vendors_unfold expenses n Hn).
  rewrite (top_vendors_unfold expenses (Z.of_nat (List.length expenses)))
    by lia.
  set (total := fold_left (fun acc e => acc + Expense.amount e) expenses 0).
  set (data := fold_left (tally Expense.vendor) expenses []).
  set (full := sort_desc row_amount (map (make_row total) data)).
  assert (Hlen : (List.length full <= List.length expenses)%nat).
  { unfold full.
    rewrite (Permutation_length (sort_desc_perm row_amount _)), length_map.
    rewrite <- (length_map fst data). unfold data.
    rewrite tally_first_seen.
    rewrite <- (length_map Expense.vendor expenses).
    apply first_seen_length. }
  rewrite Nat2Z.id, (firstn_all2 full Hlen).
  pose proof (sort_desc_sorted row_amount (map (make_row total) data)) as Hs.
  fold full in Hs.
  split; [reflexivity|]. split; [apply firstn_le_length|].
  split; [exact Hs|]. split; [|split].
  - unfold full.
    rewrite (Permutation_map row_key (sort_desc_perm row_amount _)).
    rewrite map_map. cbn [make_row row_key].
    change (map (fun x => fst x) data) with (map fst data).
    unfold data. now rewrite tally_first_seen.
  - intros r Hr. unfold full in Hr.
    apply (Permutation_in _ (sort_desc_perm row_amount _)) in Hr.
    apply in_map_iff in Hr. destruct Hr as ([k g] & <- & Hin).
    apply tally_entry_sum in Hin. subst g. split; reflexivity.
  - intros r r' Hr Hr'.
    apply (descending_app row_amount (firstn (Z.to_nat n) full)
             (skipn (Z.to_nat n) full)); [|exact Hr|exact Hr'].
    now rewrite firstn_skipn.
Qed.

Lemma top_vendors_witness :
  (0 <= 1)%Z
  /\ (List.length (get_top_vendors Sample.recorded_750 1) <= Z.to_nat 1)%nat.
Proof.
  assert (H : (0 <= 1)%Z) by lia.
  split; [exact H|].
  exact (proj1 (proj2 (top_vendors_ranking Sample.recorded_750 1 H))).
Defined.

End TopVendors.

(** ** The groups of a breakdown *)

Section BreakdownGroups.

Import ReportGenerator.
Local Open Scope Q_scope.

Lemma first_seen_In (x : string) (l : list string) :
  In x l -> In x (Spec.first_seen l).
Proof.
  induction l as [|k l IH]; simpl; [tauto|].
  intros [->|H]; [now left|].
  destruct (String.eqb x k) eqn:E.
  - apply String.eqb_eq in E. now left.
  - right. apply filter_In. split; [now apply IH|]. now rewrite E.
Qed.

Lemma sum_amounts_fold (l : list Expense.t) :
  fold_left (fun acc e => acc + Expense.amount e) l 0 = sum_amounts l.
Proof.
  unfold sum_amounts, sum. now rewrite fold_left_map_fuse.
Qed.

(** The two breakdowns differ by the shape of their rows only. *)
Context {R : Type} (make : Q -> string * group -> R).
Context (amount_of percentage : R -> Q) (count_of : R -> Z).
Context (key_of_row : R -> string).
Hypothesis make_key : forall t kv, key_of_row (make t kv) = fst kv.
Hypothesis make_amount :
  forall t kv, amount_of (make t kv) = g_amount (snd kv).
Hypothesis make_count : forall t kv, count_of (make t kv) = g_count (snd kv).
Hypothesis make_percentage :
  forall t kv, percentage (make t kv) = percentage_of (g_amount (snd kv)) t.

Variable key : Expense.t -> string.
Variable expenses : list Expense.t.

Let rows : list R :=
  sort_desc amount_of
    (map (make (fold_left (fun acc e => acc + Expense.amount e) expenses 0))
       (fold_left (tally key) expenses [])).

Lemma rows_keys :
  Permutation (map key_of_row rows) (Spec.first_seen (map key expenses)).
Proof.
  unfold rows.
  rewrite (Permutation_map key_of_row (sort_desc_perm amount_of _)).
  rewrite map_map.
  rewrite (map_ext _ fst) by (intros kv; apply make_key).
  now rewrite tally_first_seen.
Qed.

Lemma rows_one_per_key :
  NoDup (map key_of_row rows)
  /\ (forall k, In k (map key_of_row rows) <-> In k (map key expenses)).
Proof.
  split.
  - apply (Permutation_NoDup (Permutation_sym rows_keys)).
    apply first_seen_NoDup.
  - intros k. split; intros H.
    + apply first_seen_subset.
      now apply (Permutation_in _ rows_keys).
    + apply (Permutation_in _ (Permutation_sym rows_keys)).
      now apply first_seen_In.
Qed.

Lemma rows_groups (r : R) :
  In r rows ->
  amount_of r
  = sum_amounts (filter (fun e => String.eqb (key e) (key_of_row r)) expenses)
  /\ count_of r
     = Z.of_nat
         (List.length
            (filter (fun e => String.eqb (key e) (key_of_row r)) expenses))
  /\ percentage r
     = if Qlt_bool 0 (sum_amounts expenses)
       then amount_of r / sum_amounts expenses * 100 else 0.
Proof.
  intros Hr. unfold rows in Hr.
  apply (Permutation_in _ (sort_desc_perm amount_of _)) in Hr.
  apply in_map_iff in Hr. destruct Hr as ([k g] & <- & Hin).
  apply tally_entry_sum in Hin. subst g.
  rewrite make_key, make_amount, make_count, make_percentage.
  rewrite sum_amounts_fold. cbn [fst snd g_amount g_count].
  split; [reflexivity|]. split; reflexivity.
Qed.

End BreakdownGroups.

Section BreakdownClaim.

Import ReportGenerator.
Local Open Scope Q_scope.

Lemma category_breakdown_unfold (e : Expense.t) (l : list Expense.t) :
  get_category_breakdown (e :: l)
  = sort_desc row_amount
      (map (make_row
              (fold_left (fun acc e0 => acc + Expense.amount e0) (e :: l) 0))
         (fold_left (tally Expense.category) (e :: l) [])).
Proof.
  unfold get_category_breakdown. cbv zeta.
  rewrite fold_pair_split. reflexivity.
Qed.

(** C8.  The category and payment-method breakdowns form the groups of the
    records by key: there is exactly one row for every key that occurs in
    the input and none for any other, and a row holds the sum and the number
    of the records of its key and that sum as a percentage of the total of
    all amounts (0 when the total is not positive).  The percentages of the
    rows add up to 100 when the total of the amounts is positive and to 0
    otherwise (so also when it is 0); the rows are in descending order of
    their summed amount; and two rows with equal amounts stand in the order
    in which their keys are first seen in the input. *)
Theorem C8_breakdown_percentages_and_order (expenses : list Expense.t) :
  let total := sum_amounts expenses in
  let by_category := get_category_breakdown expenses in
  let by_method := get_payment_method_breakdown expenses in
  let in_category (r : breakdown_row) :=
    filter (fun e => String.eqb (Expense.category e) (row_key r)) expenses in
  let with_method (r : method_row) :=
    filter (fun e => String.eqb (Expense.payment_method e) (method_name r))
      expenses in
  Spec.Qsum (map row_percentage by_category)
  == (if Qlt_bool 0 total then 100 else 0)
  /\ Spec.Qsum (map method_percentage by_method)
     == (if Qlt_bool 0 total then 100 else 0)
  /\ Spec.descending row_amount by_category
  /\ Spec.descending method_amount by_method
  /\ (forall r1 r2,
        Spec.occurs_before r1 r2 by_category ->
        row_amount r1 == row_amount r2 ->
        Spec.occurs_before (row_key r1) (row_key r2)
          (Spec.first_seen (map Expense.category expenses)))
  /\ (forall r1 r2,
        Spec.occurs_before r1 r2 by_method ->
        method_amount r1 == method_amount r2 ->
        Spec.occurs_before (method_name r1) (method_name r2)
          (Spec.first_seen (map Expense.payment_method expenses)))
  /\ NoDup (map row_key by_category)
  /\ (forall k, In k (map row_key by_category)
                <-> In k (map Expense.category expenses))
  /\ NoDup (map method_name by_method)
  /\ (forall k, In k (map method_name by_method)
                <-> In k (map Expense.payment_method expenses))
  /\ (forall r, In r by_category ->
        row_amount r = sum_amounts (in_category r)
        /\ row_count r = Z.of_nat (List.length (in_category r))
        /\ row_percentage r
           = if Qlt_bool 0 total then row_amount r / total * 100 else 0)
  /\ (forall r, In r by_method ->
        method_amount r = sum_amounts (with_method r)
        /\ method_count r = Z.of_nat (List.length (with_method r))
        /\ method_percentage r
           = if Qlt_bool 0 total then method_amount r / total * 100 else 0).
Proof.
  cbv zeta. destruct expenses as [|e l].
  - simpl.
    repeat match goal with |- _ /\ _ => split end;
      try reflexivity;
      try (intros r1 r2 H; now apply occurs_before_nil in H);
      try (intros k; tauto); try (intros r []); constructor.
  - rewrite category_breakdown_unfold.
    unfold get_payment_method_breakdown. cbv zeta.
    assert (Ht : fold_left (fun acc e0 => acc + Expense.amount e0) (e :: l) 0
                 == Spec.Qsum (map Expense.amount (e :: l))).
    { rewrite fold_plus_total. ring. }
    repeat match goal with |- _ /\ _ => split end.
    + apply (rows_percentage_sum make_row row_amount row_percentage
               (fun _ _ => eq_refl)). exact Ht.
    + apply (rows_percentage_sum make_method_row method_amount
               method_percentage (fun _ _ => eq_refl)). exact Ht.
    + apply rows_descending.
    + apply rows_descending.
    + apply (rows_stable make_row row_amount row_key (fun _ _ => eq_refl)).
    + apply (rows_stable make_method_row method_amount method_name
               (fun _ _ => eq_refl)).
    + apply (rows_one_per_key make_row row_amount row_key
               (fun _ _ => eq_refl)).
    + apply (rows_one_per_key make_row row_amount row_key
               (fun _ _ => eq_refl)).
    + apply (rows_one_per_key make_method_row method_amount method_name
               (fun _ _ => eq_refl)).
    + apply (rows_one_per_key make_method_row method_amount method_name
               (fun _ _ => eq_refl)).
    + apply (rows_groups make_row row_amount row_percentage row_count row_key
               (fun _ _ => eq_refl) (fun _ _ => eq_refl) (fun _ _ => eq_refl)
               (fun _ _ => eq_refl)).
    + apply (rows_groups make_method_row method_amount method_percentage
               method_count method_name
               (fun _ _ => eq_refl) (fun _ _ => eq_refl) (fun _ _ => eq_refl)
               (fun _ _ => eq_refl)).
Qed.

End BreakdownClaim.

(** ** The budget cache *)

Section BudgetCache.

Import BudgetManager.
Local Open Scope Q_scope.

Lemma get_del_same {V : Type} (k : string) (d : list (string * V)) :
  Py.get String.eqb k (Py.del String.eqb k d) = None.
Proof.
  unfold Py.del.
  induction d as [|[k' v] d IH]; simpl; [reflexivity|].
  destruct (String.eqb k k') eqn:E; simpl; [exact IH|].
  now rewrite E.
Qed.

Lemma get_del_other {V : Type} (k k' : string) (d : list (string * V)) :
  k' <> k ->
  Py.get String.eqb k' (Py.del String.eqb k d) = Py.get String.eqb k' d.
Proof.
  intros Hne. unfold Py.del.
  induction d as [|[k'' v] d IH]; simpl; [reflexivity|].
  destruct (String.eqb k k'') eqn:E; simpl.
  - apply String.eqb_eq in E. subst k''.
    apply String.eqb_neq in Hne. now rewrite Hne.
  - now rewrite IH.
Qed.

Lemma get_upd_const {V : Type} (k k' : string) (v dflt : V)
  (d : list (string * V)) :
  Py.get String.eqb k (Py.upd String.eqb k' (fun _ => v) dflt d)
  = if String.eqb k k' then Some v else Py.get String.eqb k d.
Proof.
  induction d as [|[k'' w] d IH]; simpl.
  - destruct (String.eqb k k'); reflexivity.
  - destruct (String.eqb k' k'') eqn:E1; simpl.
    + apply String.eqb_eq in E1. subst k''.
      destruct (String.eqb k k'); reflexivity.
    + destruct (String.eqb k k'') eqn:E2.
      * destruct (String.eqb k k') eqn:E3; [|reflexivity].
        apply String.eqb_eq in E2. apply String.eqb_eq in E3. subst.
        now rewrite String.eqb_refl in E1.
      * exact IH.
Qed.

(** The cache built from the stored rows answers [get_budget] with the last
    row that carries the requested id: a later row replaces an earlier one
    with the same id.  An id that no row carries gives [None]. *)
Theorem loaded_budget_lookup (stored : list Budget.t) (budget_id : string) :
  fst (get_budget budget_id (init stored))
  = find (fun b => String.eqb budget_id (Budget.budget_id b)) (rev stored)
  /\ snd (get_budget budget_id (init stored)) = init stored
  /\ ((forall b, In b stored -> Budget.budget_id b <> budget_id) ->
      fst (get_budget budget_id (init stored)) = None)
  /\ (forall b, fst (get_budget budget_id (init stored)) = Some b ->
        In b stored /\ Budget.budget_id b = budget_id).
Proof.
  assert (Hget : fst (get_budget budget_id (init stored))
                 = find (fun b => String.eqb budget_id (Budget.budget_id b))
                        (rev stored)).
  { unfold get_budget, mbind, read, ret, init. cbn [fst budgets].
    induction stored as [|b l IH] using rev_ind; [reflexivity|].
    rewrite fold_left_app, rev_app_distr. cbn [fold_left rev app find].
    rewrite get_upd_const.
    destruct (String.eqb budget_id (Budget.budget_id b)); [reflexivity|].
    exact IH. }
  split; [exact Hget|]. split; [reflexivity|]. split.
  - intros Hnone. rewrite Hget.
    destruct (find _ (rev stored)) as [b|] eqn:E; [|reflexivity].
    apply find_some in E. destruct E as [Hin Heq].
    apply in_rev in Hin. apply String.eqb_eq in Heq.
    exfalso. now apply (Hnone b Hin).
  - intros b Hb. rewrite Hget in Hb. apply find_some in Hb.
    destruct Hb as [Hin Heq]. apply in_rev in Hin.
    apply String.eqb_eq in Heq. now split.
Qed.

(** [delete_budget] on an id that is not cached answers [False] and leaves
    the manager as it was, nothing being saved.  On a cached id it answers
    [True], saves the remaining budgets, and afterwards the id is gone while
    every other id is answered as before; a second deletion answers
    [False]. *)
Theorem delete_budget_effect (self : BudgetManager.t) (budget_id : string) :
  let deleted := fst (delete_budget budget_id self) in
  let self' := snd (delete_budget budget_id self) in
  (fst (get_budget budget_id self) = None -> deleted = false /\ self' = self)
  /\ (forall b, fst (get_budget budget_id self) = Some b ->
        deleted = true
        /\ saved self' = values self'
        /\ budgets self'
           = filter (fun kv => negb (String.eqb budget_id (fst kv)))
                    (budgets self))
  /\ fst (get_budget budget_id self') = None
  /\ (forall other, other <> budget_id ->
        fst (get_budget other self') = fst (get_budget other self))
  /\ fst (delete_budget budget_id self') = false
  /\ warning_threshold self' = warning_threshold self
  /\ critical_threshold self' = critical_threshold self.
Proof.
  cbv zeta.
  unfold delete_budget, get_budget, mbind, read, ret, write, save_budgets,
    set_budgets.
  cbn [fst snd].
  destruct (Py.get String.eqb budget_id (budgets self)) as [b|] eqn:E;
    cbn [fst snd budgets saved warning_threshold critical_threshold].
  - split; [discriminate|]. split.
    { intros b' _. split; [reflexivity|]. split; reflexivity. }
    split; [apply get_del_same|]. split.
    { intros other Hne. now apply get_del_other. }
    rewrite get_del_same. cbn [fst]. now split.
  - split; [now split|]. split; [discriminate|].
    split; [exact E|]. split; [reflexivity|].
    rewrite E. cbn [fst]. now split.
Qed.

End BudgetCache.

(** ** Refreshing the spent amounts *)

Section RefreshSpent.

Import BudgetManager.
Local Open Scope Q_scope.

(** The recomputed spend reads the category and the period of the budget
    only. *)
Lemma spent_step_set_spent (b : Budget.t) (s : Q) :
  spent_step (set_spent b s) = spent_step b.
Proof. reflexivity. Qed.

Lemma spent_loop_map (expenses : list Expense.t)
  (bs : list (string * Budget.t)) (self : BudgetManager.t) :
  spent_loop expenses bs self
  = (map (fun kv =>
            (fst kv,
             set_spent (snd kv) (fold_left (spent_step (snd kv)) expenses 0)))
         bs, self).
Proof.
  induction bs as [|[k b] bs IH]; [reflexivity|].
  cbn [spent_loop]. unfold mbind, calculate_spent, ret in *.
  rewrite IH. reflexivity.
Qed.

Lemma get_map_values {V : Type} (f : V -> V) (k : string)
  (d : list (string * V)) :
  Py.get String.eqb k (map (fun kv => (fst kv, f (snd kv))) d)
  = option_map f (Py.get String.eqb k d).
Proof.
  induction d as [|[k' v] d IH]; simpl; [reflexivity|].
  destruct (String.eqb k k'); [reflexivity|exact IH].
Qed.

Lemma upd_same {V : Type} (k : string) (f : V -> V) (v dflt : V)
  (d : list (string * V)) :
  Py.get String.eqb k d = Some v -> f v = v ->
  Py.upd String.eqb k f dflt d = d.
Proof.
  intros Hget Hf.
  induction d as [|[k' w] d IH]; simpl in *; [discriminate|].
  destruct (String.eqb k k').
  - injection Hget as ->. now rewrite Hf.
  - now rewrite IH.
Qed.

(** [update_all_budgets_spent] keeps the cached ids and their order, gives
    every cached budget the spend recomputed from the records and changes no
    other field, and saves the result.  Afterwards every stored [spent] is
    the recomputed spend, so a second refresh from the same records, or
    [update_budget_spent] on any id, changes nothing more;
    [update_budget_spent] then answers the stored amount, or 0 for an id
    that is not cached. *)
Theorem refresh_spent (self : BudgetManager.t) (expenses : list Expense.t) :
  let self' := snd (update_all_budgets_spent expenses self) in
  map fst (budgets self') = map fst (budgets self)
  /\ (forall budget_id,
        fst (get_budget budget_id self')
        = option_map
            (fun b => set_spent b (fst (calculate_spent b expenses self)))
            (fst (get_budget budget_id self)))
  /\ Forall (fun b => Budget.spent b = fst (calculate_spent b expenses self'))
            (values self')
  /\ saved self' = values self'
  /\ snd (update_all_budgets_spent expenses self') = self'
  /\ (forall budget_id,
        update_budget_spent budget_id expenses self'
        = (match fst (get_budget budget_id self') with
           | Some b => Budget.spent b
           | None => 0
           end, self')).
Proof.
  cbv zeta.
  unfold update_all_budgets_spent, mbind, read, write, save_budgets, ret.
  rewrite spent_loop_map.
  cbn [fst snd set_budgets budgets].
  set (F := fun kv : string * Budget.t =>
              (fst kv,
               set_spent (snd kv)
                 (fold_left (spent_step (snd kv)) expenses 0))).
  set (bs' := map F (budgets self)).
  assert (Hidem : map F bs' = bs').
  { unfold bs'. rewrite map_map. apply map_ext. intros [k b]. reflexivity. }
  split; [|split; [|split; [|split; [|split]]]].
  - unfold bs'. rewrite map_map. reflexivity.
  - intros budget_id. unfold get_budget, mbind, read, ret, calculate_spent.
    cbn [fst budgets]. unfold bs'.
    apply (get_map_values
             (fun b => set_spent b (fold_left (spent_step b) expenses 0))).
  - unfold values. cbn [budgets]. unfold bs'. rewrite map_map.
    apply Forall_forall. intros b Hin. apply in_map_iff in Hin.
    destruct Hin as ([k b0] & <- & _). reflexivity.
  - reflexivity.
  - rewrite spent_loop_map. cbn [fst snd set_budgets budgets loaded
      warning_threshold critical_threshold saved values].
    fold F. unfold values. cbn [budgets]. rewrite Hidem. reflexivity.
  - intros budget_id.
    unfold update_budget_spent, get_budget, mbind, read, write, save_budgets,
      ret, calculate_spent.
    cbn [fst snd set_budgets budgets loaded warning_threshold
           critical_threshold saved values].
    destruct (Py.get String.eqb budget_id bs') as [b|] eqn:E; [|reflexivity].
    assert (Hb : exists b0,
               b = set_spent b0 (fold_left (spent_step b0) expenses 0)).
    { unfold bs' in E.
      change (map F (budgets self))
        with (map (fun kv : string * Budget.t =>
                     (fst kv,
                      (fun b => set_spent b
                                  (fold_left (spent_step b) expenses 0))
                        (snd kv)))
                  (budgets self)) in E.
      rewrite get_map_values in E.
      destruct (Py.get String.eqb budget_id (budgets self)) as [b0|];
        [|discriminate].
      injection E as <-. now exists b0. }
    destruct Hb as [b0 ->].
    unfold ret. cbv beta iota.
    rewrite (upd_same budget_id _ _ _ bs' E); [|reflexivity].
    unfold values. cbn [budgets]. reflexivity.
Qed.

End RefreshSpent.

(** ** Carrying unused budget over *)

Section ApplyRollover.

Import BudgetManager.
Local Open Scope Q_scope.

Lemma get_upd_present {V : Type} (k k' : string) (f : V -> V) (v dflt : V)
  (d : list (string * V)) :
  Py.get String.eqb k' d = Some v ->
  Py.get String.eqb k (Py.upd String.eqb k' f dflt d)
  = if String.eqb k k' then Some (f v) else Py.get String.eqb k d.
Proof.
  induction d as [|[k'' w] d IH]; simpl; [discriminate|].
  destruct (String.eqb k' k'') eqn:E1; simpl.
  - intros [= ->]. apply String.eqb_eq in E1. subst k''.
    destruct (String.eqb k k'); reflexivity.
  - intros Hget. destruct (String.eqb k k'') eqn:E2.
    + destruct (String.eqb k k') eqn:E3; [|reflexivity].
      apply String.eqb_eq in E2. apply String.eqb_eq in E3. subst.
      now rewrite String.eqb_refl in E1.
    + now apply IH.
Qed.

Lemma upd_present_keys {V : Type} (k : string) (f : V -> V) (v dflt : V)
  (d : list (string * V)) :
  Py.get String.eqb k d = Some v ->
  map fst (Py.upd String.eqb k f dflt d) = map fst d.
Proof.
  induction d as [|[k' w] d IH]; simpl; [discriminate|].
  destruct (String.eqb k k'); simpl; [reflexivity|].
  intros Hget. now rewrite IH.
Qed.

Lemma calculate_rollover_pure (budget : Budget.t) (cap : Q)
  (self : BudgetManager.t) :
  snd (calculate_rollover budget cap self) = self.
Proof.
  unfold calculate_rollover.
  destruct (negb (Budget.allow_rollover budget)); [reflexivity|].
  destruct (Qle_bool (Budget.get_remaining budget) 0); reflexivity.
Qed.

Lemma status_reads (b b' : Budget.t) (self self' : BudgetManager.t) :
  Budget.amount b' = Budget.amount b ->
  Budget.spent b' = Budget.spent b ->
  warning_threshold self' = warning_threshold self ->
  critical_threshold self' = critical_threshold self ->
  fst (get_budget_status b' self') = fst (get_budget_status b self).
Proof.
  intros Ha Hs Hw Hc.
  unfold get_budget_status, mbind, read, ret, Budget.get_used_percentage.
  rewrite Ha, Hs, Hw, Hc.
  destruct (Qle_bool (Budget.amount b) 0); [reflexivity|].
  destruct (Qle_bool 100 _); [reflexivity|].
  destruct (Qle_bool (critical_threshold self) _); [reflexivity|].
  destruct (Qle_bool (warning_threshold self) _); reflexivity.
Qed.

(** [apply_rollover] answers 0 and changes nothing when either id is not
    cached or the two budgets are of different categories, and changes
    nothing whenever its answer is not positive.  A positive answer is the
    rollover computed for the source budget; it is written to the
    [rollover_amount] of the target and the cache is saved.  In every case
    the ids stay, budgets other than the target stay as they were, and the
    target keeps its effective budget, its remaining amount, its used
    percentage and its status: the amount carried over is not part of any of
    them.  Carrying the 250 left of a budget of 1000 over to the next one
    leaves that one's effective budget at 1000. *)
Theorem apply_rollover_effect (self : BudgetManager.t)
  (from_budget_id to_budget_id : string) (rollover_cap_percentage : Q) :
  let rolled :=
    fst (apply_rollover from_budget_id to_budget_id rollover_cap_percentage
           self) in
  let self' :=
    snd (apply_rollover from_budget_id to_budget_id rollover_cap_percentage
           self) in
  ((fst (get_budget from_budget_id self) = None
    \/ fst (get_budget to_budget_id self) = None -> rolled = 0)
  /\ (forall from_budget to_budget,
        fst (get_budget from_budget_id self) = Some from_budget ->
        fst (get_budget to_budget_id self) = Some to_budget ->
        (Budget.category from_budget <> Budget.category to_budget ->
         rolled = 0)
        /\ (Budget.category from_budget = Budget.category to_budget ->
            rolled
            = fst (calculate_rollover from_budget rollover_cap_percentage self))
        /\ (0 < rolled ->
            fst (get_budget to_budget_id self')
            = Some (Budget.set_rollover_amount to_budget rolled)
            /\ saved self' = values self'))
  /\ (~ 0 < rolled -> self' = self)
  /\ map fst (budgets self') = map fst (budgets self)
  /\ (forall other, other <> to_budget_id ->
        fst (get_budget other self') = fst (get_budget other self))
  /\ (forall budget_id b',
        fst (get_budget budget_id self') = Some b' ->
        exists b,
          fst (get_budget budget_id self) = Some b
          /\ Budget.effective_budget b' = Budget.effective_budget b
          /\ Budget.get_remaining b' = Budget.get_remaining b
          /\ Budget.get_used_percentage b' = Budget.get_used_percentage b
          /\ fst (get_budget_status b' self')
             = fst (get_budget_status b self)))
  /\ (let loaded := init [Sample.budget75; Sample.december] in
      fst (apply_rollover "b75" "b-dec" 100 loaded) == 250
      /\ option_map Budget.effective_budget
           (fst (get_budget "b-dec"
                   (snd (apply_rollover "b75" "b-dec" 100 loaded))))
         = Some 1000).
Proof.
  cbv zeta.
  split; [|split; vm_compute; reflexivity].
  unfold apply_rollover, get_budget, mbind, read, write, save_budgets, ret.
  cbn [fst snd].
  destruct (Py.get String.eqb from_budget_id (budgets self))
    as [from_budget|] eqn:Efrom.
  2:{ cbn [fst snd]. split; [reflexivity|]. split; [discriminate|].
      split; [reflexivity|]. split; [reflexivity|]. split; [reflexivity|].
      intros id b' Hb'. exists b'. now repeat split. }
  destruct (Py.get String.eqb to_budget_id (budgets self))
    as [to_budget|] eqn:Eto.
  2:{ cbn [fst snd]. split; [reflexivity|]. split; [discriminate|].
      split; [reflexivity|]. split; [reflexivity|]. split; [reflexivity|].
      intros id b' Hb'. exists b'. now repeat split. }
  destruct (String.eqb (Budget.category from_budget)
                       (Budget.category to_budget)) eqn:Ecat;
    cbn [negb].
  2:{ cbn [fst snd]. apply String.eqb_neq in Ecat.
      split; [reflexivity|]. split.
      { intros fb tb [= <-] [= <-]. split; [reflexivity|].
        split; [intros H; now elim Ecat|].
        intros H. exfalso. revert H. apply Qlt_irrefl. }
      split; [reflexivity|]. split; [reflexivity|]. split; [reflexivity|].
      intros id b' Hb'. exists b'. now repeat split. }
  apply String.eqb_eq in Ecat.
  pose proof (calculate_rollover_pure from_budget rollover_cap_percentage self)
    as Hpure.
  destruct (calculate_rollover from_budget rollover_cap_percentage self)
    as [rollover self0] eqn:Ecalc.
  cbn [snd] in Hpure. subst self0.
  destruct (Qlt_bool 0 rollover) eqn:Epos;
    cbn [fst snd set_budgets budgets loaded warning_threshold
           critical_threshold saved values].
  - apply Qlt_bool_true in Epos.
    split; [intros [H|H]; discriminate|]. split.
    { intros fb tb [= <-] [= <-]. split; [intros H; now elim H|].
      split; [intros _; now rewrite Ecalc|]. intros _. split; [|reflexivity].
      rewrite (get_upd_present to_budget_id to_budget_id _ to_budget
                 to_budget (budgets self) Eto).
      now rewrite String.eqb_refl. }
    split; [intros H; now elim H|]. split.
    { now apply (upd_present_keys to_budget_id _ to_budget). }
    split.
    { intros other Hne.
      rewrite (get_upd_present other to_budget_id _ to_budget to_budget
                 (budgets self) Eto).
      apply String.eqb_neq in Hne. now rewrite Hne. }
    intros id b' Hb'.
    rewrite (get_upd_present id to_budget_id _ to_budget to_budget
               (budgets self) Eto) in Hb'.
    destruct (String.eqb id to_budget_id) eqn:Eid.
    + apply String.eqb_eq in Eid. subst id. injection Hb' as <-.
      exists to_budget. split; [exact Eto|].
      split; [reflexivity|]. split; [reflexivity|]. split; [reflexivity|].
      now apply status_reads.
    + exists b'. split; [exact Hb'|].
      split; [reflexivity|]. split; [reflexivity|]. split; [reflexivity|].
      now apply status_reads.
  - apply Qlt_bool_false in Epos.
    split; [intros [H|H]; discriminate|]. split.
    { intros fb tb [= <-] [= <-]. split; [intros H; now elim H|].
      split; [intros _; now rewrite Ecalc|]. intros H. exfalso.
      apply (Qlt_irrefl 0). now apply (Qlt_le_trans _ rollover). }
    split; [reflexivity|]. split; [reflexivity|]. split; [reflexivity|].
    intros id b' Hb'. exists b'. now repeat split.
Qed.

End ApplyRollover.

(** ** The budget of the next period *)

Section NextPeriod.

Import BudgetManager.
Local Open Scope Q_scope.

(** A constructor call that does not name [period_type] fails. *)
Lemma budget_needs_period_type (now : datetime) (uuid4 : string)
  (kwargs : list (string * value)) :
  Py.get String.eqb "period_type"%string kwargs = None ->
  exists msg, Budget.init now uuid4 kwargs = Raise (TypeError msg).
Proof.
  intros Hnone. unfold Budget.init, dataclass_init.
  destruct (first_unexpected (Budget.fields now uuid4) kwargs) as [name|];
    [eexists; reflexivity|].
  unfold Budget.fields. cbn [bind_fields].
  rewrite Hnone.
  destruct (Py.get String.eqb "category"%string kwargs);
    [|eexists; reflexivity].
  destruct (Py.get String.eqb "amount"%string kwargs);
    eexists; reflexivity.
Qed.

(** [create_next_period_budget] never returns a budget: whatever the budget
    and the options, the constructor call it ends with raises a [TypeError],
    because it passes [period_end], which is a computed property and no
    field.  The manager is left as it was.  The call does not name the
    required field [period_type] either, so that it would fail without the
    [period_end] argument as well. *)
Theorem create_next_period_budget_raises (now : datetime) (uuid4 : string)
  (budget : Budget.t) (include_rollover : bool) (rollover_cap_percentage : Q)
  (self : BudgetManager.t) :
  create_next_period_budget now uuid4 budget include_rollover
    rollover_cap_percentage self
  = (Raise (TypeError
              "__init__() got an unexpected keyword argument: period_end"%string),
     self)
  /\ (forall category amount period_start spent notes allow_rollover
             rollover_amount,
        exists msg,
          Budget.init now uuid4
            [ ("category", category); ("amount", amount);
              ("period_start", period_start); ("spent", spent);
              ("notes", notes); ("allow_rollover", allow_rollover);
              ("rollover_amount", rollover_amount) ]%string
          = Raise (TypeError msg)).
Proof.
  split.
  - unfold create_next_period_budget, mbind.
    assert (Hpure : forall c : M Q,
              (c = calculate_rollover budget rollover_cap_percentage
               \/ c = ret 0) -> snd (c self) = self).
    { intros c [->| ->]; [apply calculate_rollover_pure|reflexivity]. }
    specialize (Hpure (if include_rollover
                       then calculate_rollover budget rollover_cap_percentage
                       else ret 0)).
    destruct ((if include_rollover
               then calculate_rollover budget rollover_cap_percentage
               else ret 0) self) as [rollover self0].
    cbn [snd] in Hpure. rewrite Hpure by (destruct include_rollover; auto).
    reflexivity.
  - intros. apply budget_needs_period_type. reflexivity.
Qed.

End NextPeriod.

(** ** Budgets over their amount, and the health score *)

Section ActiveBudgets.

Import BudgetManager.
Local Open Scope Q_scope.

Lemma over_budget_is_status (self : BudgetManager.t) (b : Budget.t) :
  Qle_bool 100 (Budget.get_used_percentage b)
  = match fst (get_budget_status b self) with
    | OVER_BUDGET => true
    | _ => false
    end.
Proof.
  unfold get_budget_status, mbind, read, ret, Budget.get_used_percentage.
  destruct (Qle_bool (Budget.amount b) 0); [reflexivity|].
  destruct (Qle_bool 100 _); [reflexivity|].
  destruct (Qle_bool (critical_threshold self) _); [reflexivity|].
  destruct (Qle_bool (warning_threshold self) _); reflexivity.
Qed.

(** [get_categories_over_budget] lists, in cache order, the categories of
    exactly the active budgets whose status is [OVER_BUDGET], whatever the
    thresholds of the manager; a category is listed once for each such
    budget.  A budget whose amount is not positive is never listed. *)
Theorem categories_over_budget_by_status (now : datetime)
  (self : BudgetManager.t) :
  fst (get_categories_over_budget now self)
  = map Budget.category
      (filter (fun b => match fst (get_budget_status b self) with
                        | OVER_BUDGET => true
                        | _ => false
                        end)
              (fst (get_active_budgets now self)))
  /\ snd (get_categories_over_budget now self) = self
  /\ (forall b, In b (fst (get_active_budgets now self)) ->
        Budget.amount b <= 0 ->
        fst (get_budget_status b self) = UNDER_BUDGET).
Proof.
  split; [|split].
  - unfold get_categories_over_budget, get_active_budgets, mbind, read, ret.
    cbn [fst]. f_equal. apply filter_ext. intros b.
    apply over_budget_is_status.
  - reflexivity.
  - intros b _ Hle. unfold get_budget_status, mbind, read, ret.
    apply Qle_bool_iff in Hle. now rewrite Hle.
Qed.

Lemma py_max0_bounds (x : Q) :
  0 <= py_max0 x /\ (x <= 100 -> py_max0 x <= 100).
Proof.
  unfold py_max0. destruct (Qlt_bool 0 x) eqn:E.
  - apply Qlt_bool_true in E. split; [now apply Qlt_le_weak|auto].
  - split; [apply Qle_refl|]. intros _. unfold Qle; simpl; lia.
Qed.

Lemma fold_plus_bounds (lo hi : Q) (l : list Q) (acc : Q) :
  Forall (fun x => lo <= x <= hi) l ->
  acc + inject_Z (Z.of_nat (List.length l)) * lo
  <= fold_left Qplus l acc
  <= acc + inject_Z (Z.of_nat (List.length l)) * hi.
Proof.
  intros Hall. revert acc.
  induction Hall as [|x l [Hlo Hhi] _ IH]; intros acc.
  - cbn [List.length fold_left Z.of_nat].
    change (inject_Z 0) with 0. split; ring_simplify; apply Qle_refl.
  - cbn [fold_left]. specialize (IH (acc + x)).
    assert (Hlen : inject_Z (Z.of_nat (List.length (x :: l)))
                   == 1 + inject_Z (Z.of_nat (List.length l))).
    { cbn [List.length]. rewrite Nat2Z.inj_succ, <- Z.add_1_l.
      now rewrite inject_Z_plus. }
    rewrite Hlen. destruct IH as [IH1 IH2].
    set (n := inject_Z (Z.of_nat (List.length l))) in *.
    split.
    + eapply Qle_trans; [|exact IH1].
      setoid_replace (acc + (1 + n) * lo) with (acc + lo + n * lo) by ring.
      apply Qplus_le_compat; [|apply Qle_refl].
      apply Qplus_le_compat; [apply Qle_refl|exact Hlo].
    + eapply Qle_trans; [exact IH2|].
      setoid_replace (acc + (1 + n) * hi) with (acc + hi + n * hi) by ring.
      apply Qplus_le_compat; [|apply Qle_refl].
      apply Qplus_le_compat; [apply Qle_refl|exact Hhi].
Qed.

Lemma used_percentage_nonneg (b : Budget.t) :
  0 <= Budget.spent b -> 0 <= Budget.get_used_percentage b.
Proof.
  intros Hs. unfold Budget.get_used_percentage.
  destruct (Qle_bool (Budget.amount b) 0) eqn:E; [apply Qle_refl|].
  apply Qle_bool_false in E.
  apply Qmult_le_0_compat; [|unfold Qle; simpl; lia].
  apply Qle_shift_div_l; [exact E|]. lra.
Qed.

(** When no active budget has a negative [spent], the score of
    [get_budget_health_score] lies between 0 and 100: a budget past its
    amount counts as 0 however far past it is.  The score is 100 when no
    budget is active, and the manager is left as it was. *)
Theorem health_score_bounds (now : datetime) (self : BudgetManager.t)
  (Hspent : Forall (fun b => 0 <= Budget.spent b)
              (fst (get_active_budgets now self))) :
  0 <= fst (get_budget_health_score now self) <= 100
  /\ (fst (get_active_budgets now self) = [] ->
      fst (get_budget_health_score now self) = 100)
  /\ snd (get_budget_health_score now self) = self.
Proof.
  unfold get_budget_health_score, mbind in *.
  destruct (get_active_budgets now self) as [active self0] eqn:Eact.
  assert (Hself : self0 = self).
  { unfold get_active_budgets, mbind, read, ret in Eact. now injection Eact. }
  subst self0. cbn [fst] in Hspent.
  destruct active as [|b0 rest]; cbn [fst snd ret].
  { split; [split; unfold Qle; simpl; lia|]. now split. }
  split; [|split; [discriminate|reflexivity]].
  unfold ret. cbn [fst].
  set (active := b0 :: rest) in *.
  set (scores := map (fun b => py_max0 (100 - Budget.get_used_percentage b))
                     active).
  assert (Hscores : Forall (fun x => 0 <= x <= 100) scores).
  { unfold scores. apply Forall_forall. intros x Hin.
    apply in_map_iff in Hin. destruct Hin as (b & <- & Hb).
    rewrite Forall_forall in Hspent. specialize (Hspent b Hb).
    pose proof (used_percentage_nonneg b Hspent).
    destruct (py_max0_bounds (100 - Budget.get_used_percentage b)) as [H1 H2].
    split; [exact H1|]. apply H2. lra. }
  pose proof (fold_plus_bounds 0 100 scores 0 Hscores) as [Hlo Hhi].
  assert (Hn : 0 < inject_Z (Z.of_nat (List.length scores))).
  { unfold scores, active. cbn [map List.length].
    rewrite <- (Qlt_bool_iff 0). unfold Qlt_bool, Qle_bool. simpl.
    destruct (Z.of_nat _) eqn:E; try reflexivity; lia. }
  split.
  - apply Qle_shift_div_l; [exact Hn|]. lra.
  - apply Qle_shift_div_r; [exact Hn|]. lra.
Qed.

Lemma health_score_witness :
  Forall (fun b => 0 <= Budget.spent b)
    (fst (get_active_budgets Sample.now0 (init [Sample.budget75])))
  /\ 0 <= fst (get_budget_health_score Sample.now0 (init [Sample.budget75]))
     <= 100.
Proof.
  assert (H : Forall (fun b => 0 <= Budget.spent b)
                (fst (get_active_budgets Sample.now0
                        (init [Sample.budget75])))).
  { repeat constructor. unfold Qle; simpl; lia. }
  split; [exact H|].
  exact (proj1 (health_score_bounds Sample.now0 (init [Sample.budget75]) H)).
Defined.

End ActiveBudgets.

(** ** The stored row of a budget *)

Section BudgetRow.

Import Text BudgetManager.
Local Open Scope Q_scope.

Lemma printable_day_only (dt : datetime) :
  Spec.printable dt = true -> Spec.printable (Spec.day_only dt) = true.
Proof.
  unfold Spec.printable, Spec.day_only. cbn [dt_date dt_time].
  intros H. apply andb_true_iff in H. destruct H as [H Hy2].
  apply andb_true_iff in H. destruct H as [H Hy1].
  apply andb_true_iff in H. destruct H as [Hd _].
  rewrite Hd, Hy1, Hy2. reflexivity.
Qed.

Lemma printable_whole_second (dt : datetime) :
  Spec.printable dt = true -> Spec.printable (Spec.whole_second dt) = true.
Proof.
  unfold Spec.printable, Spec.whole_second. cbn [dt_date dt_time].
  intros H. apply andb_true_iff in H. destruct H as [H Hy2].
  apply andb_true_iff in H. destruct H as [H Hy1].
  apply andb_true_iff in H. destruct H as [Hd Ht].
  rewrite Hd, Hy1, Hy2. cbn [andb].
  unfold valid_timeb in *. cbn [hour minute second microsecond].
  repeat (apply andb_true_iff in Ht; destruct Ht as [Ht ?]).
  repeat (apply andb_true_iff; split); assumption || reflexivity.
Qed.

Lemma budget_strptime_or_round (fmt : list directive) (dflt dt dt' : datetime) :
  strptime (strftime fmt dt) fmt = Some dt' ->
  Text.is_empty (strftime fmt dt) = false ->
  Budget.strptime_or fmt dflt (VStr (strftime fmt dt)) = Ok dt'.
Proof.
  intros Hparse Hne. unfold Budget.strptime_or. cbn [truthy].
  rewrite Hne. cbn [negb]. now rewrite Hparse.
Qed.

Lemma budget_from_dict_to_dict (now : datetime) (uuid4 : string)
  (b : Budget.t) :
  Spec.budget_storable b = true ->
  Budget.from_dict now uuid4 (Budget.to_dict b) = Ok (Spec.budget_stored b).
Proof.
  intros H. unfold Spec.budget_storable in H.
  apply andb_true_iff in H. destruct H as [H Hu].
  apply andb_true_iff in H. destruct H as [H Hc].
  apply andb_true_iff in H. destruct H as [Hid Hp].
  apply negb_true_iff in Hid.
  unfold Budget.from_dict.
  change (dict_get "period_start" (Budget.to_dict b))
    with (VStr (strftime fmt_ymd (Budget.period_start b))).
  change (dict_get "created_at" (Budget.to_dict b))
    with (VStr (strftime fmt_ymd_hms (Budget.created_at b))).
  change (dict_get "updated_at" (Budget.to_dict b))
    with (VStr (strftime fmt_ymd_hms (Budget.updated_at b))).
  rewrite (budget_strptime_or_round fmt_ymd _ _ _
             (strptime_strftime_ymd _ Hp) eq_refl).
  rewrite (budget_strptime_or_round fmt_ymd_hms _ _ _
             (strptime_strftime_ymd_hms _ Hc) eq_refl).
  rewrite (budget_strptime_or_round fmt_ymd_hms _ _ _
             (strptime_strftime_ymd_hms _ Hu) eq_refl).
  cbn [Py.bind].
  change (dict_get_or "amount" (VInt 0) (Budget.to_dict b))
    with (VFloat (Budget.amount b)).
  change (dict_get_or "warning_threshold" (VFloat 80) (Budget.to_dict b))
    with (VFloat (Budget.warning_threshold b)).
  change (dict_get_or "critical_threshold" (VFloat 95) (Budget.to_dict b))
    with (VFloat (Budget.critical_threshold b)).
  change (dict_get_or "rollover_cap_percent" (VFloat 50) (Budget.to_dict b))
    with (VFloat (Budget.rollover_cap_percent b)).
  change (dict_get_or "previous_rollover" (VFloat 0) (Budget.to_dict b))
    with (VFloat (Budget.previous_rollover b)).
  cbn [py_float Py.bind].
  change (dict_get "budget_id" (Budget.to_dict b))
    with (VStr (Budget.budget_id b)).
  change (dict_get "rollover_enabled" (Budget.to_dict b))
    with (VBool (Budget.rollover_enabled b)).
  change (dict_get_or "is_active" (VBool true) (Budget.to_dict b))
    with (VBool (Budget.is_active b)).
  change (dict_get_or "category" (VStr "") (Budget.to_dict b))
    with (VStr (Budget.category b)).
  change (dict_get_or "subcategory" (VStr "") (Budget.to_dict b))
    with (VStr (Budget.subcategory b)).
  change (dict_get_or "period_type" (VStr "monthly") (Budget.to_dict b))
    with (VStr (Budget.period_type b)).
  change (dict_get_or "notes" (VStr "") (Budget.to_dict b))
    with (VStr (Budget.notes b)).
  cbn [truthy parse_flag as_str]. rewrite Hid. cbn [negb].
  reflexivity.
Qed.

Lemma strftime_ymd_day_only (dt : datetime) :
  strftime fmt_ymd (Spec.day_only dt) = strftime fmt_ymd dt.
Proof. now rewrite !strftime_ymd_shape. Qed.

Lemma strftime_ymd_hms_whole_second (dt : datetime) :
  strftime fmt_ymd_hms (Spec.whole_second dt) = strftime fmt_ymd_hms dt.
Proof. now rewrite !strftime_ymd_hms_shape. Qed.

(** A budget with a non-empty id and printable dates that is written to its
    row and read back keeps every stored field, with the start of the period
    brought to the day and the timestamps to the second.  The runtime fields
    are not stored: the budget read back has nothing spent and no rollover
    amount, so that its used percentage is 0 and, for a manager with
    positive thresholds, its status [UNDER_BUDGET] whatever was spent
    before; its [allow_rollover] is its [rollover_enabled] and its period
    ends on the same day.  The row of the budget read back is the row that was
    written, so that a second round trip changes nothing more. *)
Theorem budget_row_round_trip (now : datetime) (uuid4 : string)
  (b : Budget.t) (Hstorable : Spec.budget_storable b = true) :
  let b' := Spec.budget_stored b in
  Budget.from_dict now uuid4 (Budget.to_dict b) = Ok b'
  /\ Budget.to_dict b' = Budget.to_dict b
  /\ Budget.from_dict now uuid4 (Budget.to_dict b') = Ok b'
  /\ Budget.spent b' = 0
  /\ Budget.get_used_percentage b' == 0
  /\ (forall self,
        0 < warning_threshold self -> 0 < critical_threshold self ->
        fst (get_budget_status b' self) = UNDER_BUDGET)
  /\ Budget.period_end b' = Spec.day_only (Budget.period_end b).
Proof.
  cbv zeta.
  pose proof (budget_from_dict_to_dict now uuid4 b Hstorable) as Hround.
  assert (Hrow : Budget.to_dict (Spec.budget_stored b) = Budget.to_dict b).
  { unfold Budget.to_dict, Spec.budget_stored.
    cbn [Budget.budget_id Budget.category Budget.subcategory Budget.amount
           Budget.period_type Budget.period_start Budget.warning_threshold
           Budget.critical_threshold Budget.rollover_enabled
           Budget.rollover_cap_percent Budget.previous_rollover Budget.notes
           Budget.is_active Budget.created_at Budget.updated_at].
    now rewrite strftime_ymd_day_only, !strftime_ymd_hms_whole_second. }
  assert (Hpct : Budget.get_used_percentage (Spec.budget_stored b) == 0).
  { unfold Budget.get_used_percentage.
    destruct (Qle_bool (Budget.amount (Spec.budget_stored b)) 0) eqn:E;
      [reflexivity|].
    apply Qle_bool_false in E.
    change (Budget.spent (Spec.budget_stored b)) with 0.
    field. intros Hz. rewrite Hz in E. now apply Qlt_irrefl in E. }
  split; [exact Hround|]. split; [exact Hrow|].
  split; [now rewrite Hrow|]. split; [reflexivity|].
  split; [exact Hpct|]. split.
  - intros self Hw Hc. unfold get_budget_status, mbind, read, ret.
    destruct (Qle_bool (Budget.amount (Spec.budget_stored b)) 0);
      [reflexivity|].
    assert (H100 : Qle_bool 100 (Budget.get_used_percentage
                                   (Spec.budget_stored b)) = false).
    { destruct (Qle_bool 100 _) eqn:E; [|reflexivity].
      apply Qle_bool_iff in E. rewrite Hpct in E.
      exfalso. revert E. unfold Qle; simpl; lia. }
    rewrite H100.
    destruct (Qle_bool (critical_threshold self) _) eqn:Ec.
    { apply Qle_bool_iff in Ec. rewrite Hpct in Ec.
      exfalso. apply (Qlt_not_le _ _ Hc Ec). }
    destruct (Qle_bool (warning_threshold self) _) eqn:Ew.
    { apply Qle_bool_iff in Ew. rewrite Hpct in Ew.
      exfalso. apply (Qlt_not_le _ _ Hw Ew). }
    reflexivity.
  - unfold Budget.period_end, Spec.budget_stored.
    cbn [Budget.period_type Budget.period_start].
    destruct (String.eqb (Budget.period_type b) "monthly"); [reflexivity|].
    destruct (String.eqb (Budget.period_type b) "quarterly"); [reflexivity|].
    destruct (String.eqb (Budget.period_type b) "yearly"); reflexivity.
Qed.

Lemma budget_row_witness :
  Spec.budget_storable Sample.budget75 = true
  /\ Budget.from_dict Sample.now0 "fresh-id" (Budget.to_dict Sample.budget75)
     = Ok (Spec.budget_stored Sample.budget75).
Proof.
  assert (H : Spec.budget_storable Sample.budget75 = true) by reflexivity.
  split; [exact H|].
  exact (proj1 (budget_row_round_trip Sample.now0 "fresh-id" Sample.budget75 H)).
Defined.

End BudgetRow.

(** ** Dates written with slashes *)

Section SlashDates.

Import Text.
Local Open Scope Z_scope.

Lemma take4_stops_at_slash (n : Z) (s : string) :
  0 <= n < 100 -> take4 (pad2 n ++ String "/" s)%string = None.
Proof.
  intros H. unfold take4. rewrite take2_pad2 by exact H.
  destruct s; reflexivity.
Qed.

Lemma strptime_year_first_fails (n : Z) (fmt : list directive) (s : string) :
  0 <= n < 100 ->
  strptime (pad2 n ++ String "/" s)%string (DY :: fmt) = None.
Proof.
  intros H. unfold strptime. cbn [strptime_go].
  now rewrite take4_stops_at_slash.
Qed.

(** Text that starts and ends with a digit is handed to the formats as it
    is. *)
Lemma parse_date_digit_text (k k' : Z) (s : string) :
  0 <= k < 10 -> 0 <= k' < 10 ->
  parse_date (VStr (String (digit k) (s ++ String (digit k') "")))
  = try_formats (String (digit k) (s ++ String (digit k') ""))
      parse_date_formats.
Proof.
  intros Hk Hk'. unfold parse_date.
  rewrite strip_keeps by (apply is_space_digit; assumption).
  cbn [is_empty orb].
  now rewrite digit_text_not_missing.
Qed.

Lemma slash_fields (a b y : Z) (fmt : list directive) (d1 d2 : directive)
  (rest : string) (acc : fields) :
  d1 = Dm \/ d1 = Dd \/ d1 = DH \/ d1 = DM \/ d1 = DS ->
  d2 = Dm \/ d2 = Dd \/ d2 = DH \/ d2 = DM \/ d2 = DS ->
  0 <= a < 100 -> 0 <= b < 100 -> 0 <= y < 10000 ->
  strptime_go (d1 :: Lit "/" :: d2 :: Lit "/" :: DY :: fmt)
    (pad2 a ++ String "/" (pad2 b ++ String "/" (pad4 y ++ rest)))%string acc
  = strptime_go fmt rest (set_field DY y (set_field d2 b (set_field d1 a acc))).
Proof.
  intros H1 H2 Ha Hb Hy.
  rewrite strptime_go_two by assumption. rewrite strptime_go_lit.
  rewrite strptime_go_two by assumption. rewrite strptime_go_lit.
  now rewrite strptime_go_year.
Qed.

(** Of a day with a four-digit year, [parse_date] reads the text DD/MM/YYYY
    as that day.  The text MM/DD/YYYY it reads as that day only when the day
    of the month is above 12: otherwise the day-first format, which is tried
    first, accepts the text, and the result has the month and the day
    exchanged.  Both results are at midnight. *)
Theorem slash_dates_read_day_first (dt : datetime)
  (Hprintable : Spec.printable dt = true) :
  parse_date (VStr (strftime fmt_dmy_slash dt)) = Some (Spec.day_only dt)
  /\ parse_date (VStr (strftime fmt_mdy_slash dt))
     = Some (if day (dt_date dt) <=? 12 then Spec.swapped dt
             else Spec.day_only dt)
  /\ (parse_date (VStr (strftime fmt_mdy_slash dt)) = Some (Spec.day_only dt)
      <-> 12 < day (dt_date dt) \/ day (dt_date dt) = month (dt_date dt)).
Proof.
  apply printable_facts in Hprintable.
  destruct Hprintable as ([Hm Hd] & _ & Hy).
  destruct dt as [[y m d] t]. cbn [dt_date year month day] in *.
  pose proof (days_in_month_bounds y m) as Hdim.
  pose proof (days_in_month_bounds y d) as Hdim'.
  assert (Hdmy : parse_date (VStr (strftime fmt_dmy_slash
                                     (mkdt (mkdate y m d) t)))
                 = Some (Spec.day_only (mkdt (mkdate y m d) t))).
  { change (strftime fmt_dmy_slash (mkdt (mkdate y m d) t))
      with (String (digit (d / 10 mod 10))
              ((String (digit (d mod 10))
                  (String "/" (pad2 m ++ String "/"
                     (String (digit (y / 1000 mod 10))
                        (String (digit (y / 100 mod 10))
                           (String (digit (y / 10 mod 10)) ""))))))
               ++ String (digit (y mod 10)) ""))%string.
    rewrite parse_date_digit_text by (Z.div_mod_to_equations; lia).
    change (String (digit (d / 10 mod 10))
              ((String (digit (d mod 10))
                  (String "/" (pad2 m ++ String "/"
                     (String (digit (y / 1000 mod 10))
                        (String (digit (y / 100 mod 10))
                           (String (digit (y / 10 mod 10)) ""))))))
               ++ String (digit (y mod 10)) ""))%string
      with (pad2 d ++ String "/" (pad2 m ++ String "/" (pad4 y ++ "")))%string.
    unfold parse_date_formats. cbn [try_formats]. unfold fmt_ymd.
    rewrite strptime_year_first_fails by lia.
    unfold strptime, fmt_dmy_slash.
    rewrite slash_fields by (auto; lia).
    cbn [strptime_go set_field fields0 f_year f_month f_day f_hour f_minute
           f_second].
    assert (Hv : valid_dateb (mkdate y m d) = true).
    { apply valid_dateb_true. split; assumption. }
    rewrite Hv. reflexivity. }
  assert (Hmdy : parse_date (VStr (strftime fmt_mdy_slash
                                     (mkdt (mkdate y m d) t)))
                 = Some (if d <=? 12
                         then Spec.swapped (mkdt (mkdate y m d) t)
                         else Spec.day_only (mkdt (mkdate y m d) t))).
  { change (strftime fmt_mdy_slash (mkdt (mkdate y m d) t))
      with (String (digit (m / 10 mod 10))
              ((String (digit (m mod 10))
                  (String "/" (pad2 d ++ String "/"
                     (String (digit (y / 1000 mod 10))
                        (String (digit (y / 100 mod 10))
                           (String (digit (y / 10 mod 10)) ""))))))
               ++ String (digit (y mod 10)) ""))%string.
    rewrite parse_date_digit_text by (Z.div_mod_to_equations; lia).
    change (String (digit (m / 10 mod 10))
              ((String (digit (m mod 10))
                  (String "/" (pad2 d ++ String "/"
                     (String (digit (y / 1000 mod 10))
                        (String (digit (y / 100 mod 10))
                           (String (digit (y / 10 mod 10)) ""))))))
               ++ String (digit (y mod 10)) ""))%string
      with (pad2 m ++ String "/" (pad2 d ++ String "/" (pad4 y ++ "")))%string.
    unfold parse_date_formats. cbn [try_formats]. unfold fmt_ymd at 1.
    rewrite strptime_year_first_fails by lia.
    unfold strptime at 1. unfold fmt_dmy_slash.
    rewrite slash_fields by (auto; lia).
    cbn [strptime_go set_field fields0 f_year f_month f_day f_hour f_minute
           f_second].
    destruct (d <=? 12) eqn:Ed.
    - apply Z.leb_le in Ed.
      assert (Hv : valid_dateb (mkdate y d m) = true).
      { apply valid_dateb_true. unfold valid_date.
        cbn [year month day]. lia. }
      rewrite Hv. reflexivity.
    - apply Z.leb_gt in Ed.
      assert (Hv : valid_dateb (mkdate y d m) = false).
      { unfold valid_dateb. cbn [year month day].
        assert (H12 : (d <=? 12) = false) by now apply Z.leb_gt.
        rewrite H12. now rewrite !andb_false_r. }
      rewrite Hv. cbn [andb].
      unfold fmt_ymd_hms. rewrite strptime_year_first_fails by lia.
      unfold strptime at 1. unfold fmt_dmy_slash_hms.
      rewrite slash_fields by (auto; lia). cbn [strptime_go].
      unfold fmt_ymd_slash. rewrite strptime_year_first_fails by lia.
      unfold strptime, fmt_mdy_slash.
      rewrite slash_fields by (auto; lia).
      cbn [strptime_go set_field fields0 f_year f_month f_day f_hour f_minute
             f_second].
      assert (Hv' : valid_dateb (mkdate y m d) = true).
      { apply valid_dateb_true. split; assumption. }
      rewrite Hv'. reflexivity. }
  split; [exact Hdmy|]. split; [exact Hmdy|].
  rewrite Hmdy. unfold Spec.swapped, Spec.day_only.
  cbn [dt_date year month day].
  destruct (d <=? 12) eqn:Ed.
  - apply Z.leb_le in Ed. split.
    + intros [= H1 H2]. now right.
    + intros [H| ->]; [lia|reflexivity].
  - apply Z.leb_gt in Ed. split; [intros _; now left|reflexivity].
Qed.

Lemma slash_dates_witness :
  Spec.printable (mkdt (mkdate 2026 3 4) midnight) = true
  /\ parse_date (VStr (strftime fmt_mdy_slash (mkdt (mkdate 2026 3 4) midnight)))
     = Some (mkdt (mkdate 2026 4 3) midnight).
Proof.
  assert (H : Spec.printable (mkdt (mkdate 2026 3 4) midnight) = true)
    by reflexivity.
  split; [exact H|].
  exact (proj1 (proj2 (slash_dates_read_day_first
                         (mkdt (mkdate 2026 3 4) midnight) H))).
Defined.

End SlashDates.

(** ** Deleting and restoring a record *)

Section DeleteRestore.

Import BudgetManager.
Local Open Scope Q_scope.

Lemma Qsum_app (l l' : list Q) :
  Spec.Qsum (l ++ l') == Spec.Qsum l + Spec.Qsum l'.
Proof.
  unfold Spec.Qsum. induction l as [|x l IH]; simpl; [ring|].
  rewrite IH. ring.
Qed.

(** Soft-deleting a record of the list takes it out of the spend of every
    budget, as if it had been removed: the spend drops by the amount of the
    record for a budget that counted it and stays the same for any other.
    Restoring the record gives back the spend there was before the deletion;
    the restored record is the original, which was active and never deleted
    before, with [updated_at] set anew. *)
Theorem soft_delete_spent (self : BudgetManager.t) (budget : Budget.t)
  (before after : list Expense.t) (e : Expense.t) (now now' : datetime)
  (Hactive : Expense.is_deleted e = false)
  (Hnever : Expense.deleted_at e = None) :
  let with_e := before ++ e :: after in
  let deleted := before ++ Expense.soft_delete now e :: after in
  let restored :=
    before ++ Expense.restore now' (Expense.soft_delete now e) :: after in
  calculate_spent budget deleted self
  = calculate_spent budget (before ++ after) self
  /\ fst (calculate_spent budget with_e self)
     == fst (calculate_spent budget deleted self)
        + (if Spec.counts_for budget e then Expense.amount e else 0)
  /\ calculate_spent budget restored self = calculate_spent budget with_e self
  /\ Expense.restore now' (Expense.soft_delete now e) = Expense.restore now' e
  /\ (Expense.updated_at e = now' ->
      Expense.restore now' (Expense.soft_delete now e) = e).
Proof.
  cbv zeta.
  assert (Hgone : Spec.counts_for budget (Expense.soft_delete now e) = false)
    by reflexivity.
  assert (Hback : Spec.counts_for budget
                    (Expense.restore now' (Expense.soft_delete now e))
                  = Spec.counts_for budget e).
  { unfold Spec.counts_for. cbn [Expense.restore Expense.soft_delete
      Expense.is_deleted Expense.category Expense.date].
    now rewrite Hactive. }
  rewrite !calculate_spent_sum. cbn [fst].
  rewrite !filter_app. cbn [filter]. rewrite Hgone, Hback.
  split; [reflexivity|]. split; [|split; [|split]].
  - rewrite !sum_Qsum, !map_app, !Qsum_app.
    destruct (Spec.counts_for budget e); cbn [map]; unfold Spec.Qsum;
      cbn [fold_right]; ring.
  - destruct (Spec.counts_for budget e); [|reflexivity].
    now rewrite !map_app.
  - reflexivity.
  - intros <-. destruct e. cbn in Hactive, Hnever. subst. reflexivity.
Qed.

Lemma soft_delete_witness :
  Expense.is_deleted Sample.candidate_70 = false
  /\ Expense.deleted_at Sample.candidate_70 = None
  /\ calculate_spent Sample.budget75
       (Sample.recorded_750
        ++ Expense.soft_delete Sample.now0 Sample.candidate_70 :: [])
       (init [Sample.budget75])
     = calculate_spent Sample.budget75 (Sample.recorded_750 ++ [])
         (init [Sample.budget75]).
Proof.
  split; [reflexivity|]. split; [reflexivity|].
  exact (proj1 (soft_delete_spent (init [Sample.budget75]) Sample.budget75
                  Sample.recorded_750 [] Sample.candidate_70 Sample.now0
                  Sample.now0 eq_refl eq_refl)).
Defined.

End DeleteRestore.

(** ** Year over year *)

Section YearOverYear.

Variables np_mean np_median np_std : list Q -> Q.

Local Open Scope Z_scope.

Lemma no_leap_day_a_year_before (y : Z) :
  is_leap y = true -> days_in_month (y - 1) 2 = 28.
Proof.
  unfold days_in_month, is_leap. cbn [Z.eqb Pos.eqb].
  intros H. apply andb_true_iff in H. destruct H as [H4 _].
  apply Z.eqb_eq in H4.
  assert (H : ((y - 1) mod 4 =? 0) = false).
  { apply Z.eqb_neq. Z.div_mod_to_equations. lia. }
  now rewrite H.
Qed.

Lemma days_in_month_other_year (y y' m : Z) :
  m <> 2 -> days_in_month y' m = days_in_month y m.
Proof.
  intros Hm. unfold days_in_month.
  apply Z.eqb_neq in Hm. now rewrite Hm.
Qed.

(** [get_year_over_year] never returns a comparison.  On a 29 February it
    raises a [ValueError] when it moves today's date into the previous year,
    which has no such day; on every other day it reaches [compare_periods]
    and raises the [TypeError] of the summary constructor. *)
Theorem year_over_year_raises (now : datetime) (expenses : list Expense.t)
  (Hnow : valid_date (dt_date now)) :
  ReportGenerator.get_year_over_year np_mean np_median np_std now expenses
  = Raise (if (month (dt_date now) =? 2) && (day (dt_date now) =? 29)
           then ValueError "day is out of range for month"
           else TypeError
                  "__init__() got an unexpected keyword argument: category_totals").
Proof.
  destruct now as [[y m d] t]. destruct Hnow as [Hm Hd].
  cbn [dt_date year month day] in *.
  unfold ReportGenerator.get_year_over_year. cbv zeta.
  unfold ReportGenerator.replace_year at 1.
  cbn [dt_date dt_time year month day].
  assert (Hjan : valid_dateb (mkdate (y - 1) 1 1) = true) by reflexivity.
  rewrite Hjan. cbn [Py.bind].
  unfold ReportGenerator.replace_year.
  cbn [dt_date dt_time year month day].
  destruct ((m =? 2) && (d =? 29)) eqn:E.
  - apply andb_true_iff in E. destruct E as [E2 E29].
    apply Z.eqb_eq in E2. apply Z.eqb_eq in E29. subst m d.
    assert (Hleap : is_leap y = true).
    { unfold days_in_month in Hd. cbn [Z.eqb Pos.eqb] in Hd.
      destruct (is_leap y); [reflexivity|lia]. }
    assert (Hv : valid_dateb (mkdate (y - 1) 2 29) = false).
    { unfold valid_dateb. cbn [year month day].
      rewrite (no_leap_day_a_year_before y Hleap). reflexivity. }
    rewrite Hv. reflexivity.
  - assert (Hv : valid_dateb (mkdate (y - 1) m d) = true).
    { apply valid_dateb_true. split; [exact Hm|]. cbn [year month day].
      split; [lia|].
      destruct (Z.eq_dec m 2) as [-> |Hne].
      + cbn [Z.eqb Pos.eqb andb] in E. apply Z.eqb_neq in E.
        pose proof (days_in_month_bounds (y - 1) 2).
        pose proof (days_in_month_bounds y 2).
        unfold days_in_month in Hd |- *. cbn [Z.eqb Pos.eqb] in Hd |- *.
        destruct (is_leap y); destruct (is_leap (y - 1)); lia.
      + rewrite (days_in_month_other_year y (y - 1) m Hne). lia. }
    rewrite Hv. cbn [Py.bind].
    unfold ReportGenerator.compare_periods. cbv zeta.
    now rewrite basic_stats_type_error.
Qed.

End YearOverYear.

Lemma year_over_year_witness :
  valid_date (mkdate 2028 2 29)
  /\ ReportGenerator.get_year_over_year
       (fun _ => 0%Q) (fun _ => 0%Q) (fun _ => 0%Q)
       (mkdt (mkdate 2028 2 29) (mktime 9 0 0 0)) []
     = Raise (ValueError "day is out of range for month").
Proof.
  assert (H : valid_date (mkdate 2028 2 29)).
  { repeat split; apply Z.leb_le; reflexivity. }
  split; [exact H|].
  exact (year_over_year_raises (fun _ => 0%Q) (fun _ => 0%Q) (fun _ => 0%Q)
           (mkdt (mkdate 2028 2 29) (mktime 9 0 0 0)) [] H).
Defined.

(** ** Grouping dictionaries over any key *)

Section Tallies.

Import ReportGenerator.
Local Open Scope Q_scope.

Context {K : Type} (eqb : K -> K -> bool).
Hypothesis eqb_spec : forall a b, eqb a b = true <-> a = b.

Lemma key_eqb_refl (a : K) : eqb a a = true.
Proof. now apply eqb_spec. Qed.

Lemma key_eqb_sym (a b : K) : eqb a b = eqb b a.
Proof.
  destruct (eqb a b) eqn:E1, (eqb b a) eqn:E2; try reflexivity.
  - apply eqb_spec in E1. subst. now rewrite key_eqb_refl in E2.
  - apply eqb_spec in E2. subst. now rewrite key_eqb_refl in E1.
Qed.

Lemma key_get_default_upd {V : Type} (k k' : K) (f : V -> V) (dflt : V)
  (d : list (K * V)) :
  Py.get_default eqb k dflt (Py.upd eqb k' f dflt d)
  = if eqb k k' then f (Py.get_default eqb k dflt d)
    else Py.get_default eqb k dflt d.
Proof.
  unfold Py.get_default.
  induction d as [|[k'' v] d IH]; simpl.
  - destruct (eqb k k'); reflexivity.
  - destruct (eqb k' k'') eqn:E1; simpl.
    + apply eqb_spec in E1. subst k''.
      destruct (eqb k k'); reflexivity.
    + destruct (eqb k k'') eqn:E2.
      * destruct (eqb k k') eqn:E3; [|reflexivity].
        apply eqb_spec in E2. apply eqb_spec in E3. subst.
        now rewrite key_eqb_refl in E1.
      * exact IH.
Qed.





(** The entry of a key after the items have been entered: the amounts of
    the items of that key added in order, and their number. *)
Lemma entry_of_items (k : K) (items : list (K * Q)) (d : list (K * group)) :
  Py.get_default eqb k group0 (fold_left (Spec.entry_step eqb) items d)
  = mkgroup
      (fold_left Qplus (Spec.items_of eqb k items)
         (g_amount (Py.get_default eqb k group0 d)))
      (g_count (Py.get_default eqb k group0 d)
       + Z.of_nat (List.length (Spec.items_of eqb k items)))%Z.
Proof.
  revert d. induction items as [|[k' a] items IH]; intros d.
  - cbn [fold_left Spec.items_of filter map List.length Z.of_nat].
    destruct (Py.get_default eqb k group0 d) as [x c].
    cbn [g_amount g_count]. f_equal. lia.
  - cbn [fold_left]. rewrite IH. unfold Spec.entry_step.
    cbn [fst snd]. rewrite !key_get_default_upd.
    unfold Spec.items_of. cbn [filter fst].
    rewrite (key_eqb_sym k' k).
    destruct (eqb k k'); [|reflexivity].
    cbn [map snd fold_left List.length add_count add_amount g_amount g_count].
    f_equal. lia.
Qed.





Lemma indicator_sum (x : K) (a : Q) (ks : list K) :
  NoDup ks -> In x ks ->
  Spec.Qsum (map (fun k => if eqb x k then a else 0) ks) == a.
Proof.
  unfold Spec.Qsum.
  induction ks as [|k ks IH]; intros Hnd Hin; [destruct Hin|].
  inversion Hnd as [|? ? Hnot Hnd']; subst. cbn [map fold_right].
  destruct Hin as [->|Hin].
  - rewrite key_eqb_refl.
    assert (Hz : fold_right Qplus 0 (map (fun k => if eqb x k then a else 0) ks)
                 == 0).
    { clear IH Hnd Hnd'. induction ks as [|k ks IH]; [reflexivity|].
      cbn [map fold_right].
      destruct (eqb x k) eqn:E.
      - apply eqb_spec in E. subst k. exfalso. apply Hnot. now left.
      - rewrite IH; [ring|]. intros H. apply Hnot. now right. }
    rewrite Hz. ring.
  - destruct (eqb x k) eqn:E.
    + apply eqb_spec in E. subst k. tauto.
    + rewrite (IH Hnd' Hin). ring.
Qed.

Lemma indicator_count (x : K) (ks : list K) :
  NoDup ks -> In x ks ->
  Spec.Zsum (map (fun k => if eqb x k then 1 else 0)%Z ks) = 1%Z.
Proof.
  unfold Spec.Zsum.
  induction ks as [|k ks IH]; intros Hnd Hin; [destruct Hin|].
  inversion Hnd as [|? ? Hnot Hnd']; subst. cbn [map fold_right].
  destruct Hin as [->|Hin].
  - rewrite key_eqb_refl.
    assert (Hz : fold_right Z.add 0%Z
                   (map (fun k => if eqb x k then 1 else 0)%Z ks) = 0%Z).
    { clear IH Hnd Hnd'. induction ks as [|k ks IH]; [reflexivity|].
      cbn [map fold_right].
      destruct (eqb x k) eqn:E.
      - apply eqb_spec in E. subst k. exfalso. apply Hnot. now left.
      - rewrite IH; [reflexivity|]. intros H. apply Hnot. now right. }
    rewrite Hz. reflexivity.
  - destruct (eqb x k) eqn:E.
    + apply eqb_spec in E. subst k. tauto.
    + rewrite (IH Hnd' Hin). reflexivity.
Qed.

(** Items whose keys all lie in a duplicate-free list of keys are split by
    those keys: the sums by key add up to the sum of all, and so do the
    numbers. *)
Lemma items_split_by_key (ks : list K) (items : list (K * Q)) :
  NoDup ks -> Forall (fun p => In (fst p) ks) items ->
  Spec.Qsum (map (fun k => Spec.Qsum (Spec.items_of eqb k items)) ks)
  == Spec.Qsum (map snd items)
  /\ Spec.Zsum (map (fun k => Z.of_nat
                               (List.length (Spec.items_of eqb k items))) ks)
     = Z.of_nat (List.length items).
Proof.
  intros Hnd Hall.
  induction Hall as [|[x a] items Hx _ IH].
  - split.
    + unfold Spec.items_of. cbn [filter map]. unfold Spec.Qsum.
      cbn [fold_right]. clear Hnd.
      induction ks as [|k ks IHk]; [reflexivity|].
      cbn [map fold_right]. rewrite IHk. ring.
    + unfold Spec.items_of. cbn [filter map List.length]. unfold Spec.Zsum.
      clear Hnd. induction ks as [|k ks IHk]; [reflexivity|].
      cbn [map fold_right]. now rewrite IHk.
  - destruct IH as [IHq IHz]. cbn [fst] in Hx. split.
    + assert (Hsplit :
        Spec.Qsum (map (fun k => Spec.Qsum
                                   (Spec.items_of eqb k ((x, a) :: items))) ks)
        == Spec.Qsum (map (fun k => if eqb x k then a else 0) ks)
           + Spec.Qsum (map (fun k => Spec.Qsum (Spec.items_of eqb k items))
                          ks)).
      { clear. unfold Spec.Qsum.
        induction ks as [|k ks IHk]; [cbn [map fold_right]; ring|].
        cbn [map fold_right]. rewrite IHk.
        unfold Spec.items_of. cbn [filter fst].
        destruct (eqb x k); cbn [map snd fold_right]; ring. }
      rewrite Hsplit, IHq, (indicator_sum x a ks Hnd Hx).
      cbn [map snd]. unfold Spec.Qsum. cbn [fold_right]. ring.
    + assert (Hsplit :
        Spec.Zsum (map (fun k => Z.of_nat
                          (List.length
                             (Spec.items_of eqb k ((x, a) :: items)))) ks)
        = (Spec.Zsum (map (fun k => if eqb x k then 1 else 0)%Z ks)
           + Spec.Zsum (map (fun k => Z.of_nat
                               (List.length (Spec.items_of eqb k items)))
                          ks))%Z).
      { clear. unfold Spec.Zsum.
        induction ks as [|k ks IHk]; [reflexivity|].
        cbn [map fold_right]. rewrite IHk.
        unfold Spec.items_of. cbn [filter fst].
        destruct (eqb x k); cbn [map snd List.length]; lia. }
      rewrite Hsplit, IHz, (indicator_count x ks Hnd Hx).
      cbn [List.length]. lia.
Qed.

End Tallies.

(** ** Days of the week *)

Section DayOfWeek.

Import ReportGenerator.
Local Open Scope Q_scope.

Lemma Z_eqb_spec (a b : Z) : (a =? b)%Z = true <-> a = b.
Proof. apply Z.eqb_eq. Qed.

Lemma weekday_range (d : Calendar.date) : (0 <= weekday d < 7)%Z.
Proof. unfold weekday. apply Z.mod_pos_bound. lia. Qed.

Lemma day_data_items (expenses : list Expense.t) :
  fold_left tally_day expenses []
  = fold_left (Spec.entry_step Z.eqb) (Spec.weekday_items expenses) [].
Proof.
  unfold Spec.weekday_items. now rewrite fold_left_map_fuse.
Qed.

Lemma weekday_items_of (i : Z) (expenses : list Expense.t) :
  Spec.items_of Z.eqb i (Spec.weekday_items expenses)
  = map Expense.amount
      (filter (fun e => (weekday (dt_date (Expense.date e)) =? i)%Z) expenses).
Proof.
  unfold Spec.items_of, Spec.weekday_items.
  rewrite filter_map_fuse, map_map. reflexivity.
Qed.

(** [get_day_of_week_analysis] on a non-empty list returns seven rows,
    Monday (0) to Sunday (6) in this order, also for the days on which
    nothing was spent.  Each row holds the sum and the number of the records
    made on its day of the week, deleted ones included; the amounts of the
    rows add up to the amount of all records and the counts to their number.
    On the empty list there is no row. *)
Theorem day_of_week_rows (expenses : list Expense.t) :
  let rows := get_day_of_week_analysis expenses in
  (expenses = [] -> rows = [])
  /\ (expenses <> [] ->
      map day_number rows = [0; 1; 2; 3; 4; 5; 6]%Z
      /\ map day_name rows = day_names)
  /\ Forall (fun r =>
               let on_day :=
                 filter (fun e => (weekday (dt_date (Expense.date e))
                                   =? day_number r)%Z) expenses in
               day_amount r = sum (map Expense.amount on_day)
               /\ day_count r = Z.of_nat (List.length on_day))
            rows
  /\ Spec.Qsum (map day_amount rows) == Spec.Qsum (map Expense.amount expenses)
  /\ Spec.Zsum (map day_count rows) = Z.of_nat (List.length expenses).
Proof.
  cbv zeta. destruct expenses as [|e0 rest].
  { split; [reflexivity|]. split; [intros H; now elim H|].
    split; [constructor|]. split; reflexivity. }
  set (expenses := e0 :: rest).
  assert (Hrow : forall i name,
             make_day_row (fold_left tally_day expenses []) (i, name)
             = mkday i name
                 (sum (map Expense.amount
                         (filter (fun e => (weekday (dt_date (Expense.date e))
                                            =? i)%Z) expenses)))
                 (Z.of_nat
                    (List.length
                       (filter (fun e => (weekday (dt_date (Expense.date e))
                                          =? i)%Z) expenses)))
                 (average_of
                    (Py.get_default Z.eqb i group0
                       (fold_left tally_day expenses [])))).
  { intros i name. unfold make_day_row. cbn [fst snd].
    rewrite day_data_items, (entry_of_items Z.eqb Z_eqb_spec).
    rewrite weekday_items_of. cbn [Py.get_default Py.get g_amount g_count].
    rewrite length_map. reflexivity. }
  unfold get_day_of_week_analysis. fold expenses.
  change (match expenses with
          | [] => []
          | _ :: _ =>
              map (make_day_row (fold_left tally_day expenses []))
                  (enumerate 0 day_names)
          end)
    with (map (make_day_row (fold_left tally_day expenses []))
              (enumerate 0 day_names)).
  cbn [enumerate day_names map Z.add Pos.add Pos.succ].
  rewrite !Hrow.
  cbn [map day_number day_name day_amount day_count].
  split; [discriminate|]. split; [intros _; split; reflexivity|].
  split; [repeat constructor|].
  pose proof (items_split_by_key Z.eqb Z_eqb_spec [0; 1; 2; 3; 4; 5; 6]%Z
                (Spec.weekday_items expenses)) as Hsplit.
  destruct Hsplit as [Hq Hz].
  { repeat constructor; cbn [In]; lia. }
  { unfold Spec.weekday_items. apply Forall_forall. intros p Hp.
    apply in_map_iff in Hp. destruct Hp as (e & <- & _). cbn [fst].
    pose proof (weekday_range (dt_date (Expense.date e))). cbn [In]. lia. }
  cbn [map] in Hq, Hz. rewrite !weekday_items_of in Hq, Hz.
  rewrite !length_map in Hz.
  split.
  - unfold Spec.weekday_items in Hq. rewrite map_map in Hq. cbn [snd] in Hq.
    rewrite <- Hq. unfold Spec.Qsum at 1 9. cbn [fold_right].
    rewrite !sum_Qsum. reflexivity.
  - unfold Spec.weekday_items in Hz. rewrite length_map in Hz.
    rewrite <- Hz. reflexivity.
Qed.

End DayOfWeek.

(** ** Tags *)

Section Tags.

Import ReportGenerator.
Local Open Scope Q_scope.








End Tags.

(** ** Alerts *)

Section Alerts.

Import BudgetManager.
Local Open Scope Z_scope.

Lemma insert_asc_skip {A : Type} (key : A -> Z) (x : A) (l1 l2 : list A) :
  Forall (fun y => key y < key x) l1 ->
  insert_asc key x (l1 ++ l2) = l1 ++ insert_asc key x l2.
Proof.
  induction 1 as [|y l1 Hy _ IH]; [reflexivity|].
  cbn [app insert_asc]. apply Z.ltb_lt in Hy. now rewrite Hy, IH.
Qed.

Lemma insert_asc_front {A : Type} (key : A -> Z) (x : A) (l : list A) :
  Forall (fun y => key x <= key y) l -> insert_asc key x l = x :: l.
Proof.
  intros Hall. destruct l as [|y l]; [reflexivity|].
  inversion Hall as [|? ? Hy _]; subst. cbn [insert_asc].
  assert (H : (key y <? key x) = false) by now apply Z.ltb_ge.
  now rewrite H.
Qed.

(** A stable sort on keys 0, 1 and 2 puts the elements of key 0 first, then
    those of key 1, then those of key 2, each group in its former order. *)
Lemma sort_asc_three {A : Type} (key : A -> Z) (l : list A) :
  Forall (fun a => 0 <= key a <= 2) l ->
  sort_asc key l
  = filter (fun a => key a =? 0) l
    ++ filter (fun a => key a =? 1) l
    ++ filter (fun a => key a =? 2) l.
Proof.
  induction 1 as [|a l Ha Hall IH]; [reflexivity|].
  cbn [sort_asc fold_right]. fold (sort_asc key l). rewrite IH.
  cbn [filter].
  assert (Hk : key a = 0 \/ key a = 1 \/ key a = 2) by lia.
  assert (Hlt : forall k, Forall (fun y => key y < key a)
                            (filter (fun y => key y =? k) l) \/ key a <= k).
  { intros k. destruct (Z_lt_le_dec k (key a)) as [Hlt|Hle]; [left|now right].
    apply Forall_forall. intros y Hy. apply filter_In in Hy.
    destruct Hy as [_ Hy]. apply Z.eqb_eq in Hy. lia. }
  assert (Hge : forall k, key a <= k ->
                          Forall (fun y => key a <= key y)
                            (filter (fun y => key y =? k) l)).
  { intros k Hle. apply Forall_forall. intros y Hy. apply filter_In in Hy.
    destruct Hy as [_ Hy]. apply Z.eqb_eq in Hy. lia. }
  destruct Hk as [Hk|[Hk|Hk]]; rewrite Hk; cbn [Z.eqb Pos.eqb].
  - rewrite insert_asc_front; [reflexivity|].
    rewrite !Forall_app. repeat split; apply Hge; lia.
  - rewrite insert_asc_skip.
    + rewrite insert_asc_front; [reflexivity|].
      rewrite !Forall_app. split; apply Hge; lia.
    + destruct (Hlt 0) as [H|H]; [exact H|lia].
  - rewrite insert_asc_skip.
    + rewrite insert_asc_skip.
      * rewrite insert_asc_front; [reflexivity|]. apply Hge. lia.
      * destruct (Hlt 1) as [H|H]; [exact H|lia].
    + destruct (Hlt 0) as [H|H]; [exact H|lia].
Qed.

Lemma get_budget_status_pure (b : Budget.t) (self : BudgetManager.t) :
  snd (get_budget_status b self) = self.
Proof.
  unfold get_budget_status, mbind, read, ret.
  destruct (Qle_bool (Budget.amount b) 0); [reflexivity|].
  destruct (Qle_bool 100 _); [reflexivity|].
  destruct (Qle_bool (critical_threshold self) _); [reflexivity|].
  destruct (Qle_bool (warning_threshold self) _); reflexivity.
Qed.

Lemma alert_loop_raised (active : list Budget.t) (self : BudgetManager.t) :
  alert_loop active self
  = (flat_map (fun b => match fst (get_budget_status b self) with
                        | UNDER_BUDGET => []
                        | s => [make_alert b s]
                        end) active, self).
Proof.
  induction active as [|b active IH]; [reflexivity|].
  cbn [alert_loop flat_map]. unfold mbind at 1.
  pose proof (get_budget_status_pure b self) as Hpure.
  destruct (get_budget_status b self) as [s self0]. cbn [fst snd] in *.
  subst self0. unfold mbind. rewrite IH.
  destruct s; reflexivity.
Qed.

Lemma raised_with_key (self : BudgetManager.t) (s : BudgetStatus)
  (active : list Budget.t) :
  s <> UNDER_BUDGET ->
  filter (fun a => severity_key a =? 3 - Spec.severity s)
    (flat_map (fun b => match fst (get_budget_status b self) with
                        | UNDER_BUDGET => []
                        | s' => [make_alert b s']
                        end) active)
  = map (fun b => make_alert b s)
      (filter (fun b => Spec.severity (fst (get_budget_status b self))
                        =? Spec.severity s) active).
Proof.
  intros Hs. induction active as [|b active IH]; [reflexivity|].
  cbn [flat_map filter]. rewrite filter_app, IH.
  destruct (fst (get_budget_status b self)); destruct s;
    try (now elim Hs); reflexivity.
Qed.

(** [get_budget_alerts] returns one alert for each active budget whose
    status is not [UNDER_BUDGET]: first those of the budgets over their
    amount, then the critical ones, then the warnings, and within each group
    in cache order.  The categories of the alerts of severity error are the
    list that [get_categories_over_budget] gives.  The manager is left as it
    was. *)
Theorem budget_alerts_by_severity (now : datetime) (self : BudgetManager.t) :
  let alerts := fst (get_budget_alerts now self) in
  alerts
  = map (fun b => make_alert b OVER_BUDGET)
        (Spec.with_status now self OVER_BUDGET)
    ++ map (fun b => make_alert b CRITICAL)
           (Spec.with_status now self CRITICAL)
    ++ map (fun b => make_alert b WARNING)
           (Spec.with_status now self WARNING)
  /\ map ba_category
       (filter (fun a => String.eqb (ba_severity a) "error") alerts)
     = fst (get_categories_over_budget now self)
  /\ snd (get_budget_alerts now self) = self.
Proof.
  cbv zeta.
  assert (Hactive : get_active_budgets now self
                    = (fst (get_active_budgets now self), self))
    by reflexivity.
  set (active := fst (get_active_budgets now self)) in *.
  assert (Halerts : get_budget_alerts now self
                    = (sort_asc severity_key
                         (flat_map (fun b =>
                                      match fst (get_budget_status b self) with
                                      | UNDER_BUDGET => []
                                      | s => [make_alert b s]
                                      end) active), self)).
  { unfold get_budget_alerts, mbind at 1. rewrite Hactive.
    unfold mbind. now rewrite alert_loop_raised. }
  rewrite Halerts. cbn [fst snd].
  assert (Hkeys : Forall (fun a => 0 <= severity_key a <= 2)
                    (flat_map (fun b =>
                                 match fst (get_budget_status b self) with
                                 | UNDER_BUDGET => []
                                 | s => [make_alert b s]
                                 end) active)).
  { apply Forall_forall. intros a Ha. apply in_flat_map in Ha.
    destruct Ha as (b & _ & Ha).
    destruct (fst (get_budget_status b self)); cbn [In] in Ha;
      [destruct Ha| | |];
      (destruct Ha as [<-|[]]; vm_compute; split; discriminate). }
  rewrite (sort_asc_three severity_key _ Hkeys).
  pose proof (raised_with_key self OVER_BUDGET active) as H0.
  pose proof (raised_with_key self CRITICAL active) as H1.
  pose proof (raised_with_key self WARNING active) as H2.
  change (3 - Spec.severity OVER_BUDGET) with 0 in H0.
  change (3 - Spec.severity CRITICAL) with 1 in H1.
  change (3 - Spec.severity WARNING) with 2 in H2.
  rewrite H0, H1, H2 by discriminate. clear H0 H1 H2.
  split; [reflexivity|]. split; [|reflexivity].
  rewrite !filter_app, !filter_map_fuse.
  cbn [make_alert ba_severity].
  change (String.eqb "error" "error") with true.
  change (String.eqb "warning" "error") with false.
  change (String.eqb "info" "error") with false.
  assert (Hnone : forall l : list Budget.t, filter (fun _ => false) l = []).
  { induction l as [|x l IH]; [reflexivity|exact IH]. }
  assert (Hall : forall l : list Budget.t, filter (fun _ => true) l = l).
  { induction l as [|x l IH]; [reflexivity|]. cbn [filter]. now rewrite IH. }
  rewrite !Hnone, Hall. cbn [map app]. rewrite app_nil_r, map_map.
  cbn [ba_category]. unfold Spec.with_status. fold active.
  unfold get_categories_over_budget, mbind. rewrite Hactive.
  cbn [fst ret]. f_equal. apply filter_ext. intros b.
  rewrite (over_budget_is_status self b).
  destruct (fst (get_budget_status b self)); reflexivity.
Qed.

End Alerts.

(** ** Subcategories *)

Section Subcategories.

Import ReportGenerator.
Local Open Scope Q_scope.









End Subcategories.

(** ** The annual report *)

Section AnnualReport.

Variables np_mean np_median np_std : list Q -> Q.

Local Open Scope Z_scope.



End AnnualReport.
